(** * simple-test-framework: the Test node state machine of [src/library.js]

    A shallow embedding of the result-collecting objects of the library
    ([Checkpoint], [Annotation], [Test]) and of the operations that drive a
    tree of tests to completion, followed by the properties of the finishing
    and aggregation rules.

    Modelling decisions.
    - JavaScript values that the library inspects ([typeof], truthiness,
      string concatenation) are the inductive [jsval].  Numbers are the
      integers the library counts with (no NaN, no fractions), in the range
      where JavaScript adds and prints integers exactly.
    - A [Test] object is a record; the objects of one program run live in a
      store ([heap], a list indexed by allocation order), because a subtest is
      shared between its parent's [contents] and whoever drives it.
    - Every method is first written as a function on the receiver alone.  The
      one outgoing call a method can make, [this._clientFinished(reason,
      passed)], is returned as an optional [call] and routed by [deliver] to
      the callee: the caller supplied function of a top level test, or the
      parent's bound [_subtestFinished] of a subtest.  In every method this
      call is the last thing that touches a test, so routing it afterwards
      keeps the order of effects.
    - Timers are a field holding the delay of the armed single shot timer;
      the firing itself is an event of the machine ([TimerFires]).
    - Functions handed to the library are opaque apart from what the library
      observes of them: a source text, and whether a synchronous call with no
      argument throws.  They do not call back into the test while they run. *)

From Stdlib Require Import ZArith String Ascii List Bool Lia DecimalString.
From stdpp Require Import base list strings.

Local Open Scope string_scope.
Local Open Scope list_scope.
Local Open Scope Z_scope.

(** ** JavaScript values *)

Inductive jsval : Type :=
| VUndefined
| VNull
| VBool (b : bool)
| VNum (n : Z)
| VStr (s : string)
| VFun (f : func)
with func : Type :=
| Func (source : string) (throws : option jsval).

Definition source (f : func) : string := let 'Func s _ := f in s.
Definition throws (f : func) : option jsval := let 'Func _ e := f in e.

(** [typeof v] *)
Definition typeof (v : jsval) : string :=
  match v with
  | VUndefined => "undefined"
  | VNull => "object"
  | VBool _ => "boolean"
  | VNum _ => "number"
  | VStr _ => "string"
  | VFun _ => "function"
  end.

(** [!!v] *)
Definition truthy (v : jsval) : bool :=
  match v with
  | VUndefined | VNull => false
  | VBool b => b
  | VNum n => negb (n =? 0)
  | VStr s => negb (String.eqb s "")
  | VFun _ => true
  end.

(** [v == null] *)
Definition loose_eq_null (v : jsval) : bool :=
  match v with
  | VUndefined | VNull => true
  | _ => false
  end.

(** [v === s] for a string literal [s] *)
Definition strict_eq_str (v : jsval) (s : string) : bool :=
  match v with
  | VStr x => String.eqb x s
  | _ => false
  end.

(** Decimal text of an integer, as [String(n)] gives it. *)
Definition number_to_string (n : Z) : string :=
  NilZero.string_of_int (Z.to_int n).

(** The text a value contributes to a string concatenation. *)
Definition to_string (v : jsval) : string :=
  match v with
  | VUndefined => "undefined"
  | VNull => "null"
  | VBool true => "true"
  | VBool false => "false"
  | VNum n => number_to_string n
  | VStr s => s
  | VFun f => source f
  end.

(** The optional [timeout] argument of the constructor and of
    [Test.prototype.test]: left out, a number of milliseconds, or, by the
    argument overloading, a function. *)
Inductive timeout_arg : Type :=
| TUndefined
| TNumber (ms : Z)
| TFunction (f : func).

(** ** The data objects *)

Definition DEFAULT_TIMEOUT : Z := 5000.

(** What [_clientFinished] of a test holds: the [cb] argument of a test made
    by the caller, or the [_subtestFinished] of the parent, bound to it. *)
Inductive callback : Type :=
| Client (cb : jsval)
| SubtestFinished (parent : nat).

Definition is_function (c : callback) : bool :=
  match c with
  | Client cb => String.eqb (typeof cb) "function"
  | SubtestFinished _ => true
  end.

(** An element of [contents]: a [Checkpoint], an [Annotation], or a reference
    to the [Test] object of a subtest. *)
Inductive entry : Type :=
| Checkpoint (name : string) (passed : bool)
| Annotation (kind : string) (data : jsval)
| Subtest (ref : nat).

Record Test : Type := mkTest {
  _clientFinished : callback;
  name : string;
  contents : list entry;
  passed : Z;
  failed : Z;
  expected : option Z;
  total : Z;
  pending : Z;
  finished : bool;
  finishReason : jsval;
  errors : Z;
  timeout : Z;
  _timer : option Z
}.

(** Field assignments. *)
Definition with_contents (x : list entry) (t : Test) : Test :=
  mkTest (_clientFinished t) (name t) x (passed t) (failed t) (expected t)
    (total t) (pending t) (finished t) (finishReason t) (errors t) (timeout t)
    (_timer t).
Definition with_passed (x : Z) (t : Test) : Test :=
  mkTest (_clientFinished t) (name t) (contents t) x (failed t) (expected t)
    (total t) (pending t) (finished t) (finishReason t) (errors t) (timeout t)
    (_timer t).
Definition with_failed (x : Z) (t : Test) : Test :=
  mkTest (_clientFinished t) (name t) (contents t) (passed t) x (expected t)
    (total t) (pending t) (finished t) (finishReason t) (errors t) (timeout t)
    (_timer t).
Definition with_expected (x : option Z) (t : Test) : Test :=
  mkTest (_clientFinished t) (name t) (contents t) (passed t) (failed t) x
    (total t) (pending t) (finished t) (finishReason t) (errors t) (timeout t)
    (_timer t).
Definition with_total (x : Z) (t : Test) : Test :=
  mkTest (_clientFinished t) (name t) (contents t) (passed t) (failed t)
    (expected t) x (pending t) (finished t) (finishReason t) (errors t)
    (timeout t) (_timer t).
Definition with_pending (x : Z) (t : Test) : Test :=
  mkTest (_clientFinished t) (name t) (contents t) (passed t) (failed t)
    (expected t) (total t) x (finished t) (finishReason t) (errors t)
    (timeout t) (_timer t).
Definition with_finished (x : bool) (t : Test) : Test :=
  mkTest (_clientFinished t) (name t) (contents t) (passed t) (failed t)
    (expected t) (total t) (pending t) x (finishReason t) (errors t)
    (timeout t) (_timer t).
Definition with_finishReason (x : jsval) (t : Test) : Test :=
  mkTest (_clientFinished t) (name t) (contents t) (passed t) (failed t)
    (expected t) (total t) (pending t) (finished t) x (errors t) (timeout t)
    (_timer t).
Definition with_errors (x : Z) (t : Test) : Test :=
  mkTest (_clientFinished t) (name t) (contents t) (passed t) (failed t)
    (expected t) (total t) (pending t) (finished t) (finishReason t) x
    (timeout t) (_timer t).
Definition with_timer (x : option Z) (t : Test) : Test :=
  mkTest (_clientFinished t) (name t) (contents t) (passed t) (failed t)
    (expected t) (total t) (pending t) (finished t) (finishReason t)
    (errors t) (timeout t) x.

(** The arguments of one invocation of [_clientFinished]. *)
Definition call : Type := jsval * bool.

(** ** Methods, on the receiver *)

(** [Test.prototype.ping] *)
Definition ping (t : Test) : Test :=
  let t :=
    match _timer t with
    | Some _ => with_timer None t
    | None => t
    end in
  if negb (finished t) then
    if 0 <? timeout t then with_timer (Some (timeout t)) t else t
  else t.

(** [new Test(name, timeout, cb)]: a function in the place of [timeout] is
    the callback, and the timeout is then taken as left out.  After that
    exchange [timeout] is a number or left out, and only a number replaces
    the default.  [_timer] is not set by the constructor before it pings. *)
Definition new_Test (name : string) (timeout : timeout_arg) (cb : callback)
  : Test :=
  let '(timeout, cb) :=
    match timeout with
    | TFunction f => (TUndefined, Client (VFun f))
    | _ => (timeout, cb)
    end in
  ping (mkTest cb name [] 0 0 None 0 0 false VNull 0
          (match timeout with
           | TNumber ms => ms
           | _ => DEFAULT_TIMEOUT
           end)
          None).

(** [Test.prototype.comment] *)
Definition comment (data : jsval) (t : Test) : Test :=
  let t := ping t in
  with_contents (contents t ++ [Annotation "comment" data]) t.

(** [Test.prototype.error] *)
Definition error (data : jsval) (t : Test) : Test :=
  let t := ping t in
  let t := with_contents (contents t ++ [Annotation "error" data]) t in
  with_errors (errors t + 1) t.

(** [Test.prototype.isComplete] *)
Definition isComplete (t : Test) : bool :=
  finished t && (pending t =? 0) &&
  match expected t with
  | None => true
  | Some e => e =? total t
  end.

(** [Test.prototype.isPassed] *)
Definition isPassed (t : Test) : bool :=
  isComplete t && negb (truthy (finishReason t)) &&
  (failed t =? 0) && (errors t =? 0).

(** [Test.prototype._notifyFinish]: the call it makes, if any. *)
Definition _notifyFinish (t : Test) : option call :=
  if is_function (_clientFinished t)
  then Some (finishReason t, isPassed t)
  else None.

(** [Test.prototype.finish] *)
Definition finish (reason : jsval) (t : Test) : Test * option call :=
  if negb (finished t) then
    let t := with_finished true t in
    let t := ping t in
    let t := with_finishReason reason t in
    let t :=
      if truthy (finishReason t) then
        if strict_eq_str (finishReason t) "bail" then
          error (VStr "Test bailed due to an uncaught exception.") t
        else if strict_eq_str (finishReason t) "timeout" then
          error (VStr ("Test timed out due to no activity in "
                       +:+ number_to_string (timeout t)
                       +:+ " milliseconds.")) t
        else
          error (VStr ("Test finished abnormally, reason given was '"
                       +:+ to_string (finishReason t) +:+ "'")) t
      else t in
    if pending t =? 0 then (t, _notifyFinish t) else (t, None)
  else
    (error (VStr ("An extra attempt was made to finish the test, "
                  +:+ "the reason this time was: '"
                  +:+ to_string reason +:+ "'")) t,
     None).

(** [Test.prototype._checkExpected] *)
Definition _checkExpected (t : Test) : Test * option call :=
  match expected t with
  | Some e => if e =? total t then finish VUndefined t else (t, None)
  | None => (t, None)
  end.

(** [Test.prototype.addExpected] *)
Definition addExpected (count : Z) (t : Test) : Test :=
  if negb (finished t) then
    let t := ping t in
    match expected t with
    | None => with_expected (Some count) t
    | Some e => with_expected (Some (e + count)) t
    end
  else
    error (VStr ("Expected test count increased by "
                 +:+ number_to_string count +:+ " after completion.")) t.

(** [Test.prototype.check]: the receiver afterwards, the value returned and
    the call made. *)
Definition check (result : jsval) (name : string) (t : Test)
  : Test * jsval * option call :=
  if negb (finished t) then
    let t := ping t in
    let '(result, error_) :=
      match result with
      | VFun f =>
          match throws f with
          | None => (true, VUndefined)
          | Some e => (false, e)
          end
      | _ => (truthy result, VUndefined)
      end in
    let t := with_contents (contents t ++ [Checkpoint name result]) t in
    let t :=
      if result then with_passed (passed t + 1) t
      else with_failed (failed t + 1) t in
    let t := with_total (total t + 1) t in
    let t := if truthy error_ then error error_ t else t in
    let '(t, out) := _checkExpected t in
    (t, VBool result, out)
  else
    (error (VStr ("Checkpoint '" +:+ name
                  +:+ "' triggered after test was completed")) t,
     VUndefined, None).

(** [this._subtestFinished], the function the constructor binds. *)
Definition _subtestFinished (reason : jsval) (passed_ : bool) (t : Test)
  : Test * option call :=
  let t :=
    if negb (truthy reason) && passed_ then with_passed (passed t + 1) t
    else with_failed (failed t + 1) t in
  let t := with_pending (pending t - 1) t in
  if (pending t =? 0) && finished t then (t, _notifyFinish t) else (t, None).

(** [Test.prototype._onError] *)
Definition _onError (err : jsval) (t : Test) : Test * option call :=
  finish (VStr "bail") (error err t).

(** What one call of [Test.prototype.test] does: the receiver afterwards,
    the object constructed, the reference returned, the body handed to
    [result.run], and the call made. *)
Record test_outcome : Type := mkOutcome {
  receiver : Test;
  created : option Test;
  returned : option nat;
  to_run : option func;
  notified : option call
}.

(** [Test.prototype.test]; [self] and [fresh] are the references of the
    receiver and of the object [new Test] allocates. *)
Definition test (self fresh : nat) (name : string) (timeout : timeout_arg)
    (body : jsval) (t : Test) : test_outcome :=
  let '(body, timeout) :=
    match timeout with
    | TFunction f => (VFun f, TUndefined)
    | _ => (body, timeout)
    end in
  if negb (finished t) then
    let t := ping t in
    let result := new_Test name timeout (SubtestFinished self) in
    let t := with_contents (contents t ++ [Subtest fresh]) t in
    let t := with_pending (pending t + 1) t in
    let t := with_total (total t + 1) t in
    let '(t, out) := _checkExpected t in
    match body with
    | VFun f => mkOutcome t (Some result) None (Some f) out
    | _ => mkOutcome t (Some result) (Some fresh) None out
    end
  else
    mkOutcome
      (error (VStr ("Subtest '" +:+ name
                    +:+ "' triggered after test was completed")) t)
      None None None None.


(** ** The objects of a run, and the routing of completion calls *)

(** [heap]: the [Test] objects, by reference.  [calls]: every invocation of a
    [_clientFinished], oldest first, with the reference of the test that made
    it.  [scheduled]: the bodies handed to [process.nextTick] by
    [Test.prototype.run], with the test they will receive. *)
Record world : Type := mkWorld {
  heap : list Test;
  calls : list (nat * call);
  scheduled : list (nat * func)
}.

Definition store (i : nat) (t : Test) (w : world) : world :=
  mkWorld (<[i := t]> (heap w)) (calls w) (scheduled w).

Definition alloc (t : Test) (w : world) : world :=
  mkWorld (heap w ++ [t]) (calls w) (scheduled w).

Definition record_call (i : nat) (c : call) (w : world) : world :=
  mkWorld (heap w) (calls w ++ [(i, c)]) (scheduled w).

(** [Test.prototype.run]: the body is only queued; what it does when it runs
    is further operations of the machine. *)
Definition run (i : nat) (body : func) (w : world) : world :=
  mkWorld (heap w) (calls w) (scheduled w ++ [(i, body)]).

(** Carries out the call [out] made by test [i]: a caller supplied function
    is only recorded; a parent's [_subtestFinished] runs on the parent, and
    the call it makes in turn is carried out the same way.  [fuel] bounds the
    number of ancestors climbed. *)
Fixpoint deliver (fuel : nat) (i : nat) (out : option call) (w : world)
  : world :=
  match out with
  | None => w
  | Some (reason, ok) =>
      match heap w !! i with
      | None => w
      | Some t =>
          let w := record_call i (reason, ok) w in
          match _clientFinished t with
          | Client _ => w
          | SubtestFinished p =>
              match fuel, heap w !! p with
              | S fuel', Some tp =>
                  let '(tp', out') := _subtestFinished reason ok tp in
                  deliver fuel' p out' (store p tp' w)
              | _, _ => w
              end
          end
      end
  end.

(** A test has at most [i] ancestors, their references being smaller. *)
Definition notify (i : nat) (out : option call) (w : world) : world :=
  deliver i i out w.

(** ** The operations of the machine *)

Inductive op : Type :=
| New (name : string) (timeout : timeout_arg) (cb : jsval)
| Ping (i : nat)
| Run (i : nat) (body : func)
| CallTest (i : nat) (name : string) (timeout : timeout_arg) (body : jsval)
| AddExpected (i : nat) (count : Z)
| Check (i : nat) (result : jsval) (name : string)
| Finish (i : nat) (reason : jsval)
| Comment (i : nat) (data : jsval)
| Error (i : nat) (data : jsval)
| TimerFires (i : nat)
| DomainError (i : nat) (err : jsval).

Definition has_domain (i : nat) (w : world) : bool :=
  existsb (fun s => Nat.eqb (fst s) i) (scheduled w).

(** One operation.  A reference that names no object, a timer that is not
    armed and a domain that was never entered leave the world as it is. *)
Definition exec (o : op) (w : world) : world :=
  match o with
  | New name timeout cb => alloc (new_Test name timeout (Client cb)) w
  | Ping i =>
      match heap w !! i with
      | Some t => store i (ping t) w
      | None => w
      end
  | Run i body =>
      match heap w !! i with
      | Some _ => run i body w
      | None => w
      end
  | CallTest i name timeout body =>
      match heap w !! i with
      | Some t =>
          let fresh := length (heap w) in
          let r := test i fresh name timeout body t in
          let w := store i (receiver r) w in
          let w := match created r with Some c => alloc c w | None => w end in
          let w := notify i (notified r) w in
          match to_run r with Some f => run fresh f w | None => w end
      | None => w
      end
  | AddExpected i count =>
      match heap w !! i with
      | Some t => store i (addExpected count t) w
      | None => w
      end
  | Check i result name =>
      match heap w !! i with
      | Some t =>
          let '(t', _, out) := check result name t in
          notify i out (store i t' w)
      | None => w
      end
  | Finish i reason =>
      match heap w !! i with
      | Some t =>
          let '(t', out) := finish reason t in
          notify i out (store i t' w)
      | None => w
      end
  | Comment i data =>
      match heap w !! i with
      | Some t => store i (comment data t) w
      | None => w
      end
  | Error i data =>
      match heap w !! i with
      | Some t => store i (error data t) w
      | None => w
      end
  | TimerFires i =>
      match heap w !! i with
      | Some t =>
          match _timer t with
          | Some _ =>
              let '(t', out) := finish (VStr "timeout") t in
              notify i out (store i t' w)
          | None => w
          end
      | None => w
      end
  | DomainError i err =>
      match heap w !! i with
      | Some t =>
          if has_domain i w then
            let '(t', out) := _onError err t in
            notify i out (store i t' w)
          else w
      | None => w
      end
  end.

Definition start : world := mkWorld [] [] [].

(** A run of the machine: the operations in order, from no object at all. *)
Definition run_ops (ops : list op) (w : world) : world :=
  fold_left (fun w o => exec o w) ops w.

(** How often test [i] invoked its [_clientFinished]. *)
Definition times_notified (i : nat) (cs : list (nat * call)) : nat :=
  length (filter (fun c => fst c = i) cs).

(** Finished with nothing pending. *)
Definition resolved (t : Test) : bool := finished t && (pending t =? 0).

(** ** Vocabulary of the statements *)

(** The timer [ping] leaves behind: armed with the configured delay on a
    test that is not finished and has a positive timeout, none otherwise. *)
Definition armed (t : Test) : option Z :=
  if negb (finished t) && (0 <? timeout t) then Some (timeout t) else None.

(** The annotation a first [finish(reason)] adds when [reason] is truthy. *)
Definition finish_note (reason : jsval) (tmo : Z) : list entry :=
  if truthy reason then
    [Annotation "error"
       (VStr (if strict_eq_str reason "bail" then
                "Test bailed due to an uncaught exception."
              else if strict_eq_str reason "timeout" then
                "Test timed out due to no activity in "
                +:+ number_to_string tmo +:+ " milliseconds."
              else
                "Test finished abnormally, reason given was '"
                +:+ to_string reason +:+ "'"))]
  else [].

(** [t'] is [t] with one error annotation carrying [msg] appended, [errors]
    one higher, no timer armed, and every other field as it was. *)
Definition only_appends_error (msg : string) (t t' : Test) : Prop :=
  contents t' = contents t ++ [Annotation "error" (VStr msg)] /\
  errors t' = errors t + 1 /\
  passed t' = passed t /\ failed t' = failed t /\ total t' = total t /\
  pending t' = pending t /\ expected t' = expected t /\
  finished t' = finished t /\ finishReason t' = finishReason t /\
  name t' = name t /\ timeout t' = timeout t /\
  _clientFinished t' = _clientFinished t /\ _timer t' = None.

(** The outcome [check] records for [result], and the value caught from it
    ([undefined] when nothing was thrown). *)
Definition check_result (result : jsval) : bool * jsval :=
  match result with
  | VFun f =>
      match throws f with
      | None => (true, VUndefined)
      | Some e => (false, e)
      end
  | _ => (truthy result, VUndefined)
  end.

(** The test at reference [i] is a subtest of [p] that has not yet invoked
    its [_clientFinished]. *)
Definition is_open (p : nat) (cs : list (nat * call)) (i : nat) (t : Test)
  : bool :=
  match _clientFinished t with
  | SubtestFinished q => Nat.eqb q p && Nat.eqb (times_notified i cs) 0
  | Client _ => false
  end.

(** Number of such subtests among the objects [h], whose first element has
    reference [base]. *)
Fixpoint open_children (p : nat) (cs : list (nat * call)) (base : nat)
    (h : list Test) : Z :=
  match h with
  | [] => 0
  | t :: h' =>
      (if is_open p cs base t then 1 else 0) + open_children p cs (S base) h'
  end.

(** The bookkeeping every run maintains.  [skip] names a test that has just
    resolved and whose call to [_clientFinished] is still to be carried out;
    [None] between operations. *)
Record Inv (skip : option nat) (w : world) : Prop := mkInv {
  inv_fresh : forall i,
    (length (heap w) <= i)%nat -> times_notified i (calls w) = 0%nat;
  inv_parent : forall i t p,
    heap w !! i = Some t -> _clientFinished t = SubtestFinished p ->
    (p < i)%nat;
  inv_pending : forall i t,
    heap w !! i = Some t ->
    pending t = open_children i (calls w) 0 (heap w);
  inv_timer : forall i t, heap w !! i = Some t -> _timer t = armed t;
  inv_notified : forall i t,
    heap w !! i = Some t -> skip <> Some i ->
    times_notified i (calls w) =
    if is_function (_clientFinished t) && resolved t then 1%nat else 0%nat;
  inv_skip : forall k,
    skip = Some k ->
    exists t, heap w !! k = Some t /\ resolved t = true /\
              is_function (_clientFinished t) = true /\
              times_notified k (calls w) = 0%nat
}.

(** What a method may do to its receiver as far as the bookkeeping goes:
    the callback and [pending] stay, the timer is the one [ping] would leave,
    and a completion call is made exactly when the test becomes resolved. *)
Definition step_ok (t t' : Test) (out : option call) : Prop :=
  _clientFinished t' = _clientFinished t /\
  pending t' = pending t /\
  _timer t' = armed t' /\
  match out with
  | None =>
      is_function (_clientFinished t) && resolved t'
      = is_function (_clientFinished t) && resolved t
  | Some _ =>
      resolved t = false /\ resolved t' = true /\
      is_function (_clientFinished t) = true
  end.

(** ** Vocabulary of the further statements *)

(** Kinds of [contents] entries. *)
Definition is_error_note (e : entry) : bool :=
  match e with
  | Annotation kind _ => String.eqb kind "error"
  | _ => false
  end.

Definition is_initiated (e : entry) : bool :=
  match e with
  | Checkpoint _ _ | Subtest _ => true
  | Annotation _ _ => false
  end.

Definition is_checkpoint (ok : bool) (e : entry) : bool :=
  match e with
  | Checkpoint _ b => Bool.eqb b ok
  | _ => false
  end.

Fixpoint count_entries (f : entry -> bool) (l : list entry) : Z :=
  match l with
  | [] => 0
  | e :: l' => (if f e then 1 else 0) + count_entries f l'
  end.

(** The counters of a test agree with each other and with its [contents]. *)
Definition tallied (t : Test) : Prop :=
  total t = passed t + failed t + pending t /\
  0 <= passed t /\ 0 <= failed t /\
  errors t = count_entries is_error_note (contents t) /\
  total t = count_entries is_initiated (contents t) /\
  count_entries (is_checkpoint true) (contents t) <= passed t /\
  count_entries (is_checkpoint false) (contents t) <= failed t.

(** How a test may differ from an earlier state of itself. *)
Definition grows (t t' : Test) : Prop :=
  name t' = name t /\ timeout t' = timeout t /\
  _clientFinished t' = _clientFinished t /\
  contents t `prefix_of` contents t' /\
  passed t <= passed t' /\ failed t <= failed t' /\
  total t <= total t' /\ errors t <= errors t' /\
  (finished t = true ->
   finished t' = true /\ finishReason t' = finishReason t /\
   expected t' = expected t).

(** A test that was finished with nothing pending is so for good, with the
    same reason and expectation. *)
Definition frozen (t t' : Test) : Prop :=
  resolved t = true ->
  pending t' = pending t /\ expected t' = expected t /\
  finished t' = true /\ finishReason t' = finishReason t.

(** [Number.MAX_SAFE_INTEGER], [2^53 - 1]: sums of integers are exact as
    long as they stay within this magnitude. *)
Definition MAX_SAFE_INTEGER : Z := 9007199254740991.

Definition safe_integer (n : Z) : Prop :=
  - MAX_SAFE_INTEGER <= n <= MAX_SAFE_INTEGER.

(** What a recorded completion call of test [i] says about the store: the
    test is finished with nothing pending, the reason is its [finishReason],
    a verdict of [true] came with no reason, and the parent, if there is
    one, has counted the report. *)
Definition call_ok (w : world) (i : nat) (c : call) : Prop :=
  exists t,
    heap w !! i = Some t /\ resolved t = true /\
    finishReason t = fst c /\
    (snd c = true -> truthy (fst c) = false) /\
    forall p,
      _clientFinished t = SubtestFinished p ->
      exists tp,
        heap w !! p = Some tp /\
        if negb (truthy (fst c)) && snd c
        then 1 <= passed tp else 1 <= failed tp.

Definition log_ok (w : world) : Prop :=
  forall i c, (i, c) ∈ calls w -> call_ok w i c.

(** Everything the statements below need to know of what a method did to
    its receiver. *)
Definition method_ok (t t' : Test) (out : option call) : Prop :=
  step_ok t t' out /\ (tallied t -> tallied t') /\
  grows t t' /\ frozen t t' /\
  forall c, out = Some c -> c = (finishReason t', isPassed t').

(** The references of the subtests listed in [contents], in order. *)
Fixpoint subtest_refs (l : list entry) : list nat :=
  match l with
  | [] => []
  | Subtest r :: l' => r :: subtest_refs l'
  | _ :: l' => subtest_refs l'
  end.

(** The references, in order, of the objects among [h] (the first of which
    has reference [base]) that were constructed as subtests of [p]. *)
Fixpoint children_from (p base : nat) (h : list Test) : list nat :=
  match h with
  | [] => []
  | t :: h' =>
      match _clientFinished t with
      | SubtestFinished q => if Nat.eqb q p then [base] else []
      | Client _ => []
      end ++ children_from p (S base) h'
  end.

Definition listed_ok (w : world) : Prop :=
  forall i t,
    heap w !! i = Some t ->
    subtest_refs (contents t) = children_from i 0 (heap w).

Definition same_refs (t t' : Test) : Prop :=
  _clientFinished t' = _clientFinished t /\
  subtest_refs (contents t') = subtest_refs (contents t).

(** What a finished test keeps for good: it stays finished, no subtest is
    added to its [contents], and [pending] can only go down. *)
Definition closed (t t' : Test) : Prop :=
  finished t = true ->
  finished t' = true /\
  subtest_refs (contents t') = subtest_refs (contents t) /\
  pending t' <= pending t.

(** The object at reference [r] exists and is not finished with nothing
    pending. *)
Definition unresolved (w : world) (r : nat) : bool :=
  match heap w !! r with
  | Some c => negb (resolved c)
  | None => false
  end.

Fixpoint count_refs (f : nat -> bool) (l : list nat) : Z :=
  match l with
  | [] => 0
  | r :: l' => (if f r then 1 else 0) + count_refs f l'
  end.

(** ** Sample runs *)

Definition body_x : func := Func "function (t) { ... }" None.
Definition thrower (e : jsval) : func := Func "function () { throw e; }" (Some e).
Definition done_cb : jsval := VFun (Func "function (reason, passed) { ... }" None).

(** A test without timeout, as constructed; the same after [finish()]; and
    the same expecting one checkpoint. *)
Definition fresh_test : Test := new_Test "t" (TNumber 0) (Client done_cb).
Definition finished_test : Test := fst (finish VUndefined fresh_test).
Definition expecting_test : Test := addExpected 1 fresh_test.

(** A root that makes a subtest to drive by hand, finishes first, and whose
    subtest finishes afterwards. *)
Definition deferred_run : list op :=
  [New "root" (TNumber 0) done_cb;
   CallTest 0%nat "sub" TUndefined VUndefined;
   Finish 0%nat VUndefined;
   Finish 1%nat VUndefined].

(** The root and the subtest at the end of that run. *)
Definition root_done : Test :=
  mkTest (Client done_cb) "root" [Subtest 1] 1 0 None 1 0 true VUndefined 0 0
    None.
Definition sub_done : Test :=
  mkTest (SubtestFinished 0) "sub" [] 0 0 None 0 0 true VUndefined 0 5000 None.

(** [check(true,"a")], [check(false,"b")], [finish()] on a test without
    timeout. *)
Example scenario_two_checks :
  let w := run_ops [New "root" (TNumber 0) done_cb; Check 0%nat (VBool true) "a";
                    Check 0%nat (VBool false) "b"; Finish 0%nat VUndefined] start in
  (fun t => (passed t, failed t, total t, isComplete t, isPassed t)) <$> heap w !! 0%nat
    = Some (1, 1, 2, true, false)
  /\ calls w = [(0%nat, (VUndefined, false))].
Proof. vm_compute. split; reflexivity. Qed.

(** A subtest that declares one expected checkpoint and passes it resolves
    by itself; the root then finishes and reports [(undefined, true)]. *)
Example scenario_subtest :
  let w := run_ops [New "root" (TNumber 0) done_cb;
                    CallTest 0%nat "sub" TUndefined (VFun body_x);
                    AddExpected 1%nat 1; Check 1%nat (VBool true) "x";
                    Finish 0%nat VUndefined] start in
  (fun t => (passed t, pending t)) <$> heap w !! 0%nat = Some (1, 0)
  /\ calls w = [(1%nat, (VUndefined, true)); (0%nat, (VUndefined, true))]
  /\ scheduled w = [(1%nat, body_x)].
Proof. vm_compute. repeat split; reflexivity. Qed.

(** The root finishes while its subtest is pending: no call yet.  When the
    subtest finishes, the subtest's call and then the root's are made. *)
Example scenario_deferred :
  calls (run_ops (firstn 3 deferred_run) start) = [] /\
  calls (run_ops deferred_run start)
    = [(1%nat, (VUndefined, true)); (0%nat, (VUndefined, true))].
Proof. vm_compute. split; reflexivity. Qed.

(** A timer of 50 ms that fires finishes the test with reason ["timeout"]
    and one error annotation that names the delay. *)
Example scenario_timeout :
  let w := run_ops [New "t" (TNumber 50) done_cb; TimerFires 0%nat] start in
  (fun t => (finished t, finishReason t, contents t, errors t, _timer t))
    <$> heap w !! 0%nat
  = Some (true, VStr "timeout",
          [Annotation "error"
             (VStr "Test timed out due to no activity in 50 milliseconds.")],
          1, None) /\
  calls w = [(0%nat, (VStr "timeout", false))].
Proof. vm_compute. split; reflexivity. Qed.

(** ** What each method does to its receiver *)

#[local] Arguments String.append : simpl never.
#[local] Arguments strict_eq_str : simpl never.
#[local] Arguments truthy : simpl never.
#[local] Arguments to_string : simpl never.
#[local] Arguments number_to_string : simpl never.
#[local] Arguments finish : simpl never.
#[local] Arguments error : simpl never.
#[local] Arguments ping : simpl never.
#[local] Arguments _notifyFinish : simpl never.
#[local] Arguments _checkExpected : simpl never.
#[local] Arguments Z.add : simpl never.
#[local] Arguments Z.sub : simpl never.
#[local] Arguments Z.ltb : simpl never.
#[local] Arguments Z.eqb : simpl never.

Ltac norm :=
  cbv [with_contents with_passed with_failed with_expected with_total
       with_pending with_finished with_finishReason with_errors with_timer]
    in *;
  cbn in *.

Lemma ping_eq t : ping t = with_timer (armed t) t.
Proof.
  destruct t as [cb nm cs np nf ex tot pend fin fr err tmo tmr].
  unfold ping, armed.
  destruct tmr, fin; norm; destruct (0 <? tmo); reflexivity.
Qed.

Lemma error_eq d t :
  error d t =
  mkTest (_clientFinished t) (name t) (contents t ++ [Annotation "error" d])
    (passed t) (failed t) (expected t) (total t) (pending t) (finished t)
    (finishReason t) (errors t + 1) (timeout t) (armed t).
Proof. unfold error. rewrite ping_eq. reflexivity. Qed.

Lemma comment_eq d t :
  comment d t =
  mkTest (_clientFinished t) (name t) (contents t ++ [Annotation "comment" d])
    (passed t) (failed t) (expected t) (total t) (pending t) (finished t)
    (finishReason t) (errors t) (timeout t) (armed t).
Proof. unfold comment. rewrite ping_eq. reflexivity. Qed.

Lemma finish_eq reason t :
  finish reason t =
  if finished t then
    (error (VStr ("An extra attempt was made to finish the test, "
                  +:+ "the reason this time was: '"
                  +:+ to_string reason +:+ "'")) t, None)
  else
    let t' :=
      mkTest (_clientFinished t) (name t)
        (contents t ++ finish_note reason (timeout t))
        (passed t) (failed t) (expected t) (total t) (pending t) true reason
        (errors t + (if truthy reason then 1 else 0)) (timeout t) None in
    (t', if pending t =? 0 then _notifyFinish t' else None).
Proof.
  unfold finish, finish_note. destruct (finished t) eqn:Hf; [reflexivity|].
  cbn [negb]. rewrite !error_eq, !ping_eq.
  destruct t as [cb nm cs np nf ex tot pend fin fr err tmo tmr].
  norm. subst fin. unfold armed. norm.
  destruct (truthy reason); norm.
  - destruct (strict_eq_str reason "bail"); norm;
      [| destruct (strict_eq_str reason "timeout"); norm];
      destruct (pend =? 0); reflexivity.
  - rewrite app_nil_r, Z.add_0_r. destruct (pend =? 0); reflexivity.
Qed.

Lemma checkExpected_eq t :
  _checkExpected t =
  if match expected t with Some e => e =? total t | None => false end
  then finish VUndefined t else (t, None).
Proof.
  unfold _checkExpected. destruct (expected t) as [e|]; reflexivity.
Qed.

Lemma error_finished msg t :
  finished t = true -> only_appends_error msg t (error (VStr msg) t).
Proof.
  intros H. rewrite error_eq. unfold armed. rewrite H.
  unfold only_appends_error; cbn. repeat split; auto.
Qed.

Lemma check_eq result nm t :
  finished t = false ->
  check result nm t =
  let r := fst (check_result result) in
  let e := snd (check_result result) in
  let t1 :=
    mkTest (_clientFinished t) (name t)
      (contents t ++ [Checkpoint nm r]
       ++ (if truthy e then [Annotation "error" e] else []))
      (passed t + (if r then 1 else 0)) (failed t + (if r then 0 else 1))
      (expected t) (total t + 1) (pending t) false (finishReason t)
      (errors t + (if truthy e then 1 else 0)) (timeout t) (armed t) in
  (fst (_checkExpected t1), VBool r, snd (_checkExpected t1)).
Proof.
  intros Hf. unfold check. rewrite Hf. cbn [negb]. rewrite ping_eq.
  fold (check_result result). destruct (check_result result) as [r e].
  destruct t as [cb nm' cs np nf ex tot pend fin fr err tmo tmr].
  norm. subst fin. unfold armed. norm.
  destruct r, (truthy e); rewrite ?error_eq; unfold armed; norm;
    rewrite ?Z.add_0_r, <- ?app_assoc; norm;
    match goal with |- context [_checkExpected ?x] =>
      destruct (_checkExpected x) end; reflexivity.
Qed.

Lemma test_eq self fresh nm tmo body t :
  finished t = false ->
  test self fresh nm tmo body t =
  let body' := match tmo with TFunction f => VFun f | _ => body end in
  let tmo' := match tmo with TFunction _ => TUndefined | _ => tmo end in
  let t1 :=
    mkTest (_clientFinished t) (name t) (contents t ++ [Subtest fresh])
      (passed t) (failed t) (expected t) (total t + 1) (pending t + 1) false
      (finishReason t) (errors t) (timeout t) (armed t) in
  let c := new_Test nm tmo' (SubtestFinished self) in
  match body' with
  | VFun f =>
      mkOutcome (fst (_checkExpected t1)) (Some c) None (Some f)
        (snd (_checkExpected t1))
  | _ =>
      mkOutcome (fst (_checkExpected t1)) (Some c) (Some fresh) None
        (snd (_checkExpected t1))
  end.
Proof.
  intros Hf. unfold test.
  destruct t as [cb nm' cs np nf ex tot pend fin fr err tmo' tmr].
  norm. subst fin.
  destruct tmo; norm; rewrite ping_eq; unfold armed; norm;
    match goal with |- context [_checkExpected ?x] =>
      destruct (_checkExpected x) end;
    try destruct body; reflexivity.
Qed.

Lemma new_Test_eq nm tmo cb :
  new_Test nm tmo cb =
  let ms := match tmo with TNumber ms => ms | _ => DEFAULT_TIMEOUT end in
  mkTest (match tmo with TFunction f => Client (VFun f) | _ => cb end)
    nm [] 0 0 None 0 0 false VNull 0 ms
    (if 0 <? ms then Some ms else None).
Proof.
  unfold new_Test. destruct tmo; norm; rewrite ping_eq; unfold armed; norm;
    reflexivity.
Qed.

Lemma subtestFinished_eq reason ok t :
  _subtestFinished reason ok t =
  let t' :=
    mkTest (_clientFinished t) (name t) (contents t)
      (passed t + (if negb (truthy reason) && ok then 1 else 0))
      (failed t + (if negb (truthy reason) && ok then 0 else 1))
      (expected t) (total t) (pending t - 1) (finished t) (finishReason t)
      (errors t) (timeout t) (_timer t) in
  (t', if (pending t - 1 =? 0) && finished t then _notifyFinish t' else None).
Proof.
  unfold _subtestFinished.
  destruct t as [cb nm cs np nf ex tot pend fin fr err tmo tmr].
  destruct (negb (truthy reason) && ok); norm; rewrite ?Z.add_0_r;
    destruct ((pend - 1 =? 0) && fin); reflexivity.
Qed.

(** ** Operations on a finished test *)

(** C8. Once a test is finished, [check], [test] and [addExpected] leave
    [passed], [failed], [total], [pending] and [expected] as they are: each
    only appends one error annotation that describes the misuse (and so adds
    one to [errors]); [check] then returns [undefined], [test] constructs,
    returns and schedules nothing, and no completion call is made. *)
Theorem finished_rejects_activity (t : Test) :
  finished t = true ->
  (forall result nm,
      exists t',
        check result nm t = (t', VUndefined, None) /\
        only_appends_error
          ("Checkpoint '" +:+ nm +:+ "' triggered after test was completed")
          t t') /\
  (forall self fresh nm tmo body,
      exists t',
        test self fresh nm tmo body t = mkOutcome t' None None None None /\
        only_appends_error
          ("Subtest '" +:+ nm +:+ "' triggered after test was completed")
          t t') /\
  (forall count,
      only_appends_error
        ("Expected test count increased by " +:+ number_to_string count
         +:+ " after completion.")
        t (addExpected count t)).
Proof.
  intros Hf. split; [|split].
  - intros result nm. eexists. split.
    + unfold check. rewrite Hf. reflexivity.
    + now apply error_finished.
  - intros self fresh nm tmo body. eexists. split.
    + unfold test. rewrite Hf. destruct tmo; reflexivity.
    + now apply error_finished.
  - intros count. unfold addExpected. rewrite Hf. now apply error_finished.
Qed.

(** C5. On a test that is already finished, [finish(reason)] keeps
    [finished] and [finishReason], makes no completion call, and only appends
    one error annotation that quotes the attempted reason, adding one to
    [errors]; in the store nothing but that test changes. *)
Theorem second_finish_only_logs (w : world) (i : nat) (t : Test)
    (reason : jsval) :
  heap w !! i = Some t ->
  finished t = true ->
  exists t',
    finish reason t = (t', None) /\
    only_appends_error
      ("An extra attempt was made to finish the test, "
       +:+ "the reason this time was: '" +:+ to_string reason +:+ "'")
      t t' /\
    finished t' = true /\ finishReason t' = finishReason t /\
    exec (Finish i reason) w = store i t' w /\
    calls (exec (Finish i reason) w) = calls w.
Proof.
  intros Hi Hf. eexists. split; [rewrite finish_eq, Hf; reflexivity|].
  pose proof (error_finished
    ("An extra attempt was made to finish the test, "
     +:+ "the reason this time was: '" +:+ to_string reason +:+ "'") t Hf)
    as Hlog.
  split; [exact Hlog|].
  assert (Hex : exec (Finish i reason) w =
                store i (error (VStr ("An extra attempt was made to finish the test, "
     +:+ "the reason this time was: '" +:+ to_string reason +:+ "'")) t) w).
  { cbn [exec]. rewrite Hi, finish_eq, Hf. unfold notify.
    destruct i; reflexivity. }
  repeat split.
  - destruct Hlog as (_ & _ & _ & _ & _ & _ & _ & H & _). now rewrite H.
  - destruct Hlog as (_ & _ & _ & _ & _ & _ & _ & _ & H & _). exact H.
  - exact Hex.
  - rewrite Hex. reflexivity.
Qed.

(** Calling [finish] twice in a row: the second call is the rejected one. *)
Lemma finish_sets_finished reason t : finished (fst (finish reason t)) = true.
Proof.
  rewrite finish_eq. destruct (finished t) eqn:Hf; [|reflexivity].
  rewrite error_eq. exact Hf.
Qed.

(** ** The expected count *)

(** C2, as the code has it. On a test that is not finished,
    [addExpected(count)] sets [expected] to [count] when it was [null] and
    adds [count] to it otherwise, and does nothing else but reset the timer:
    the test stays unfinished and no completion call is made, also when the
    new [expected] equals [total]. *)
Theorem addExpected_only_updates (w : world) (i : nat) (t : Test)
    (count : Z) :
  heap w !! i = Some t ->
  finished t = false ->
  let t' := addExpected count t in
  expected t' =
    Some (match expected t with None => count | Some e => e + count end) /\
  finished t' = false /\ finishReason t' = finishReason t /\
  contents t' = contents t /\ total t' = total t /\
  passed t' = passed t /\ failed t' = failed t /\
  pending t' = pending t /\ errors t' = errors t /\
  exec (AddExpected i count) w = store i t' w /\
  calls (exec (AddExpected i count) w) = calls w.
Proof.
  intros Hi Hf t'. subst t'. unfold addExpected. rewrite Hf. cbn [negb].
  rewrite ping_eq. cbn [exec]. rewrite Hi. unfold addExpected. rewrite Hf.
  cbn [negb]. rewrite ping_eq.
  destruct t as [cb nm cs np nf ex tot pend fin fr err tmo tmr].
  norm. subst fin. destruct ex; norm; repeat split.
Qed.

(** C2, as stated, fails: on a fresh test [addExpected(0)] makes [expected]
    equal to [total], and the test is not finished by it. *)
Lemma addExpected_does_not_finish :
  let t := addExpected 0 (new_Test "t" (TNumber 0) (Client done_cb)) in
  expected t = Some (total t) /\ finished t = false /\
  calls (run_ops [New "t" (TNumber 0) done_cb; AddExpected 0%nat 0] start)
    = [].
Proof. vm_compute. repeat split; reflexivity. Qed.

Lemma checkExpected_hit t :
  expected t = Some (total t) ->
  finished t = false ->
  _checkExpected t =
  let t' :=
    mkTest (_clientFinished t) (name t) (contents t) (passed t) (failed t)
      (expected t) (total t) (pending t) true VUndefined (errors t)
      (timeout t) None in
  (t', if pending t =? 0 then _notifyFinish t' else None).
Proof.
  intros He Hf. rewrite checkExpected_eq, He, Z.eqb_refl, finish_eq, Hf.
  cbv zeta. unfold finish_note. change (truthy VUndefined) with false.
  cbv iota. rewrite app_nil_r, Z.add_0_r. rewrite He. reflexivity.
Qed.

Lemma checkExpected_miss t :
  expected t <> Some (total t) -> _checkExpected t = (t, None).
Proof.
  intros He. rewrite checkExpected_eq. destruct (expected t) as [e|]; auto.
  destruct (Z.eqb_spec e (total t)); [congruence | reflexivity].
Qed.

(** C3. On a test that is not finished and has an expected count, a [check]
    or [test] call that brings [total] to that count finishes the test
    without a reason: [finishReason] is [undefined], which is [== null] and
    falsy, and no abnormal-finish annotation is added. *)
Theorem reaching_expected_finishes (t : Test) (e : Z) :
  finished t = false ->
  expected t = Some e ->
  total t + 1 = e ->
  (forall result nm,
      let t' := fst (fst (check result nm t)) in
      finished t' = true /\ finishReason t' = VUndefined /\
      loose_eq_null (finishReason t') = true /\
      truthy (finishReason t') = false /\ total t' = e /\
      contents t' =
        contents t ++ [Checkpoint nm (fst (check_result result))]
        ++ (if truthy (snd (check_result result))
            then [Annotation "error" (snd (check_result result))] else [])) /\
  (forall self fresh nm tmo body,
      let t' := receiver (test self fresh nm tmo body t) in
      finished t' = true /\ finishReason t' = VUndefined /\
      loose_eq_null (finishReason t') = true /\
      truthy (finishReason t') = false /\ total t' = e /\
      contents t' = contents t ++ [Subtest fresh]).
Proof.
  intros Hf He Ht. split.
  - intros result nm. rewrite check_eq by exact Hf.
    cbv zeta. cbn [fst snd].
    rewrite checkExpected_hit by (cbn; congruence).
    cbn. repeat split. exact Ht.
  - intros self fresh nm tmo body. rewrite test_eq by exact Hf.
    cbv zeta. rewrite checkExpected_hit by (cbn; congruence).
    destruct (match tmo with TFunction f => VFun f | _ => body end);
      cbn; repeat split; exact Ht.
Qed.

(** ** Subtests *)

(** C6, as the code has it. A subtest made by [test] with the timeout left
    out gets the module default of 5000 ms, whatever the timeout of the
    parent. *)
Theorem subtest_default_timeout (self fresh : nat) (nm : string)
    (body : jsval) (t : Test) :
  finished t = false ->
  timeout <$> created (test self fresh nm TUndefined body t)
    = Some DEFAULT_TIMEOUT /\
  DEFAULT_TIMEOUT = 5000.
Proof.
  intros Hf. rewrite test_eq by exact Hf. cbv zeta.
  destruct body; split; reflexivity.
Qed.

(** C6, as stated, fails: the subtest of a parent whose timeout is 100 ms
    does not inherit it. *)
Lemma subtest_timeout_not_inherited :
  let parent := new_Test "parent" (TNumber 100) (Client done_cb) in
  timeout parent = 100 /\
  timeout <$> created (test 0 1 "child" TUndefined VUndefined parent)
    = Some 5000 /\
  timeout <$> created (test 0 1 "child" TUndefined VUndefined parent)
    <> Some (timeout parent).
Proof. vm_compute. repeat split; discriminate. Qed.

(** C10. A function given where the timeout goes is taken as the callback by
    the constructor and as the body by [test]; the timeout is then as if left
    out, so the test made gets the default of 5000 ms. *)
Theorem function_in_timeout_position (nm : string) (f : func) :
  (forall cb,
      new_Test nm (TFunction f) cb = new_Test nm TUndefined (Client (VFun f)) /\
      _clientFinished (new_Test nm (TFunction f) cb) = Client (VFun f) /\
      is_function (_clientFinished (new_Test nm (TFunction f) cb)) = true /\
      timeout (new_Test nm (TFunction f) cb) = 5000) /\
  (forall self fresh body t,
      test self fresh nm (TFunction f) body t
        = test self fresh nm TUndefined (VFun f) t /\
      to_run (test self fresh nm (TFunction f) body t)
        = (if finished t then None else Some f) /\
      returned (test self fresh nm (TFunction f) body t) = None /\
      timeout <$> created (test self fresh nm (TFunction f) body t)
        = (if finished t then None else Some 5000)).
Proof.
  split.
  - intros cb. rewrite !new_Test_eq. cbn. auto.
  - intros self fresh body t. split; [reflexivity|].
    destruct (finished t) eqn:Hf.
    + unfold test. rewrite Hf. cbn. auto.
    + rewrite test_eq by exact Hf. cbn. auto.
Qed.

(** ** Checkpoints whose callable throws *)

(** When the callable throws a truthy value, [check] records a failed
    checkpoint, then the value as an error annotation, counts both before
    the expected count is looked at, and returns [false]. *)
Lemma check_throw_truthy (f : func) (e : jsval) (nm : string) (t : Test) :
  finished t = false ->
  throws f = Some e ->
  truthy e = true ->
  let t1 :=
    mkTest (_clientFinished t) (name t)
      (contents t ++ [Checkpoint nm false; Annotation "error" e])
      (passed t) (failed t + 1) (expected t) (total t + 1) (pending t) false
      (finishReason t) (errors t + 1) (timeout t) (armed t) in
  check (VFun f) nm t
    = (fst (_checkExpected t1), VBool false, snd (_checkExpected t1)) /\
  contents (fst (_checkExpected t1))
    = contents t ++ [Checkpoint nm false; Annotation "error" e].
Proof.
  intros Hf Hthrow He. cbv zeta. split.
  - rewrite check_eq by exact Hf. cbn. rewrite Hthrow. cbn. rewrite He.
    rewrite Z.add_0_r. reflexivity.
  - rewrite checkExpected_eq.
    match goal with |- context [if ?b then _ else _] => destruct b end;
      [|reflexivity].
    rewrite finish_eq. cbn. unfold finish_note.
    change (truthy VUndefined) with false. now rewrite app_nil_r.
Qed.

(** C7 fails on a callable that throws a falsy value ([throw 0]): the
    checkpoint is recorded as failed and [false] is returned, but no error
    annotation follows it and [errors] stays 0. *)
Theorem check_throw_falsy_unrecorded :
  let t := new_Test "t" (TNumber 0) (Client done_cb) in
  let r := check (VFun (thrower (VNum 0))) "c" t in
  snd (fst r) = VBool false /\
  contents (fst (fst r)) = [Checkpoint "c" false] /\
  failed (fst (fst r)) = 1 /\ total (fst (fst r)) = 1 /\
  errors (fst (fst r)) = 0.
Proof. vm_compute. repeat split; reflexivity. Qed.

(** A callable that throws a falsy value leaves no annotation behind. *)
Lemma check_throw_falsy (f : func) (e : jsval) (nm : string) (t : Test) :
  finished t = false ->
  throws f = Some e ->
  truthy e = false ->
  snd (fst (check (VFun f) nm t)) = VBool false /\
  contents (fst (fst (check (VFun f) nm t)))
    = contents t ++ [Checkpoint nm false] /\
  errors (fst (fst (check (VFun f) nm t))) = errors t.
Proof.
  intros Hf Hthrow He. rewrite check_eq by exact Hf. cbn. rewrite Hthrow.
  cbn. rewrite He. rewrite !Z.add_0_r. split; [reflexivity|].
  rewrite checkExpected_eq.
  match goal with |- context [if ?b then _ else _] => destruct b end;
    [|split; reflexivity].
  rewrite finish_eq. cbn. unfold finish_note.
  change (truthy VUndefined) with false. rewrite app_nil_r, Z.add_0_r.
  split; reflexivity.
Qed.

(** ** Counting completion calls and open subtests *)

Lemma times_notified_snoc i j c cs :
  times_notified i (cs ++ [(j, c)])
  = (times_notified i cs + (if Nat.eqb j i then 1 else 0))%nat.
Proof.
  unfold times_notified. rewrite filter_app, length_app. f_equal.
  rewrite filter_cons, filter_nil. cbn [fst].
  destruct (decide (j = i)), (Nat.eqb_spec j i); try congruence; reflexivity.
Qed.

Lemma is_open_true p cs i t :
  is_open p cs i t = true <->
  _clientFinished t = SubtestFinished p /\ times_notified i cs = 0%nat.
Proof.
  unfold is_open. destruct (_clientFinished t) as [v|q].
  - split; [discriminate | intros [H _]; discriminate].
  - rewrite andb_true_iff, !Nat.eqb_eq. split.
    + intros [-> H]. auto.
    + intros [H1 H2]. split; congruence.
Qed.

Lemma is_open_same_callback p cs i t t' :
  _clientFinished t' = _clientFinished t ->
  is_open p cs i t' = is_open p cs i t.
Proof. unfold is_open. now intros ->. Qed.

Lemma open_children_nonneg p cs h : forall base,
  0 <= open_children p cs base h.
Proof.
  induction h as [|t h IH]; intros base; cbn [open_children]; [lia|].
  specialize (IH (S base)). destruct (is_open p cs base t); lia.
Qed.

Lemma open_children_app p cs t h : forall base,
  open_children p cs base (h ++ [t])
  = open_children p cs base h
    + (if is_open p cs (base + length h) t then 1 else 0).
Proof.
  induction h as [|t0 h IH]; intros base; cbn [open_children app length].
  - rewrite Nat.add_0_r. lia.
  - rewrite IH. replace (S base + length h)%nat with (base + S (length h))%nat
      by lia. lia.
Qed.

Lemma open_children_insert p cs k t' h : forall base t,
  h !! k = Some t ->
  _clientFinished t' = _clientFinished t ->
  open_children p cs base (<[k := t']> h) = open_children p cs base h.
Proof.
  revert k. induction h as [|t0 h IH]; intros k base t Hk Hcb.
  - discriminate.
  - destruct k as [|k]; cbn in Hk |- *.
    + injection Hk as ->. now rewrite (is_open_same_callback _ _ _ t t').
    + f_equal. now apply (IH k (S base) t).
Qed.

Lemma open_children_none p cs h : forall base,
  (forall k t, h !! k = Some t -> _clientFinished t <> SubtestFinished p) ->
  open_children p cs base h = 0.
Proof.
  induction h as [|t h IH]; intros base Hno; cbn [open_children]; [reflexivity|].
  rewrite IH by (intros k t' Hk; apply (Hno (S k) t' Hk)).
  destruct (is_open p cs base t) eqn:Ho; [|reflexivity].
  apply is_open_true in Ho as [Ho _]. now apply (Hno 0%nat t) in Ho.
Qed.

(** Recording a call of test [j] closes [j] for its parent and changes
    nothing for anybody else. *)
Lemma open_children_snoc p cs j c h : forall base,
  open_children p (cs ++ [(j, c)]) base h
  = open_children p cs base h
    - (if (base <=? j)%nat then
         match h !! (j - base)%nat with
         | Some tj => if is_open p cs j tj then 1 else 0
         | None => 0
         end
       else 0).
Proof.
  induction h as [|t h IH]; intros base; cbn [open_children].
  - rewrite lookup_nil. destruct (base <=? j)%nat; lia.
  - rewrite IH. clear IH. destruct (Nat.eq_dec j base) as [->|Hne].
    + rewrite Nat.leb_refl, Nat.sub_diag.
      change ((t :: h) !! 0%nat) with (Some t).
      replace (S base <=? base)%nat with false
        by (symmetry; apply Nat.leb_gt; lia).
      assert (Hc : is_open p (cs ++ [(base, c)]) base t = false).
      { unfold is_open. destruct (_clientFinished t); [reflexivity|].
        rewrite times_notified_snoc, Nat.eqb_refl.
        replace (times_notified base cs + 1 =? 0)%nat with false
          by (symmetry; apply Nat.eqb_neq; lia).
        apply andb_false_r. }
      rewrite Hc. generalize (open_children p cs (S base) h). intros x.
      destruct (is_open p cs base t); lia.
    + assert (Hc : is_open p (cs ++ [(j, c)]) base t = is_open p cs base t).
      { unfold is_open. destruct (_clientFinished t); [reflexivity|].
        rewrite times_notified_snoc.
        replace (j =? base)%nat with false
          by (symmetry; apply Nat.eqb_neq; lia).
        now rewrite Nat.add_0_r. }
      rewrite Hc. generalize (open_children p cs (S base) h). intros x.
      destruct (Nat.leb_spec base j) as [Hle|Hgt].
      * replace (S base <=? j)%nat with true
          by (symmetry; apply Nat.leb_le; lia).
        replace (j - base)%nat with (S (j - S base)) by lia.
        change ((t :: h) !! S (j - S base)) with (h !! (j - S base)%nat).
        generalize (match h !! (j - S base)%nat with
                    | Some tj => if is_open p cs j tj then 1 else 0
                    | None => 0
                    end).
        intros y. destruct (is_open p cs base t); lia.
      * replace (S base <=? j)%nat with false
          by (symmetry; apply Nat.leb_gt; lia).
        destruct (is_open p cs base t); lia.
Qed.

Lemma open_children_close p cs j c h tj :
  h !! j = Some tj ->
  open_children p (cs ++ [(j, c)]) 0 h
  = open_children p cs 0 h - (if is_open p cs j tj then 1 else 0).
Proof.
  intros Hj. rewrite open_children_snoc. cbn [Nat.leb].
  now rewrite Nat.sub_0_r, Hj.
Qed.

(** ** Every method keeps the bookkeeping *)

Lemma step_ok_after t t1 t' out :
  _clientFinished t1 = _clientFinished t ->
  pending t1 = pending t ->
  finished t1 = finished t ->
  step_ok t1 t' out -> step_ok t t' out.
Proof.
  intros Hcb Hp Hf (H1 & H2 & H3 & H4).
  assert (Hr : resolved t1 = resolved t) by (unfold resolved; congruence).
  unfold step_ok. rewrite <- Hcb, <- Hp, <- Hr. auto.
Qed.

Lemma finish_step reason t :
  step_ok t (fst (finish reason t)) (snd (finish reason t)).
Proof.
  rewrite finish_eq. destruct (finished t) eqn:Hf.
  - rewrite error_eq. unfold step_ok, resolved, armed. cbn. auto.
  - cbv zeta. unfold step_ok, resolved, armed, _notifyFinish. cbn.
    rewrite Hf. repeat split.
    destruct (pending t =? 0); cbn.
    + destruct (is_function (_clientFinished t)); cbn; auto.
    + now rewrite !andb_false_r.
Qed.

Lemma checkExpected_step t :
  _timer t = armed t ->
  step_ok t (fst (_checkExpected t)) (snd (_checkExpected t)).
Proof.
  intros Ht. rewrite checkExpected_eq.
  destruct (match expected t with Some e => e =? total t | None => false end).
  - apply finish_step.
  - unfold step_ok. cbn. auto.
Qed.

Lemma ping_step t : step_ok t (ping t) None.
Proof. rewrite ping_eq. unfold step_ok, resolved, armed. cbn. auto. Qed.

Lemma error_step d t : step_ok t (error d t) None.
Proof. rewrite error_eq. unfold step_ok, resolved, armed. cbn. auto. Qed.

Lemma comment_step d t : step_ok t (comment d t) None.
Proof. rewrite comment_eq. unfold step_ok, resolved, armed. cbn. auto. Qed.

Lemma addExpected_step count t : step_ok t (addExpected count t) None.
Proof.
  unfold addExpected. destruct (finished t) eqn:Hf; cbn [negb].
  - apply error_step.
  - rewrite ping_eq. unfold step_ok, resolved, armed.
    destruct t as [cb nm cs np nf ex tot pend fin fr err tmo tmr].
    norm. subst fin. destruct ex; cbn; auto.
Qed.

Lemma check_step result nm t :
  step_ok t (fst (fst (check result nm t))) (snd (check result nm t)).
Proof.
  destruct (finished t) eqn:Hf.
  - unfold check. rewrite Hf. cbn [negb fst snd]. apply error_step.
  - rewrite check_eq by exact Hf. cbv zeta. cbn [fst snd].
    eapply step_ok_after; [| | | apply checkExpected_step]; cbn; auto.
    unfold armed. cbn. now rewrite Hf.
Qed.

Lemma onError_step err t :
  step_ok t (fst (_onError err t)) (snd (_onError err t)).
Proof.
  unfold _onError.
  eapply step_ok_after; [| | | apply finish_step]; rewrite error_eq; auto.
Qed.

(** [test] leaves a receiver that cannot be resolved: a subtest is pending. *)
Lemma test_step self fresh nm tmo body t :
  finished t = false ->
  0 <= pending t ->
  let r := test self fresh nm tmo body t in
  _clientFinished (receiver r) = _clientFinished t /\
  pending (receiver r) = pending t + 1 /\
  _timer (receiver r) = armed (receiver r) /\
  notified r = None /\
  exists c,
    created r = Some c /\ _clientFinished c = SubtestFinished self /\
    pending c = 0 /\ finished c = false /\ _timer c = armed c.
Proof.
  intros Hf Hp. rewrite test_eq by exact Hf. cbv zeta.
  match goal with |- context [_checkExpected ?x] => set (t1 := x) end.
  assert (H1 : _timer t1 = armed t1)
    by (unfold t1, armed; cbn; now rewrite Hf).
  destruct (checkExpected_step t1 H1) as (Hcb & Hpe & Hti & Hout).
  assert (Hnone : snd (_checkExpected t1) = None).
  { rewrite checkExpected_eq.
    destruct (match expected t1 with Some e => e =? total t1 | None => false end);
      [|reflexivity].
    rewrite finish_eq. cbn.
    destruct (Z.eqb_spec (pending t + 1) 0); [lia | reflexivity]. }
  assert (Hc : exists c,
             Some (new_Test nm
                     (match tmo with TFunction _ => TUndefined | _ => tmo end)
                     (SubtestFinished self)) = Some c /\
             _clientFinished c = SubtestFinished self /\
             pending c = 0 /\ finished c = false /\ _timer c = armed c).
  { eexists. split; [reflexivity|]. rewrite new_Test_eq. unfold armed.
    destruct tmo; cbn; auto. }
  destruct (match tmo with TFunction f => VFun f | _ => body end);
    cbn [receiver created notified]; auto 10.
Qed.

Lemma subtestFinished_step reason ok t :
  let t' := fst (_subtestFinished reason ok t) in
  _clientFinished t' = _clientFinished t /\
  pending t' = pending t - 1 /\
  finished t' = finished t /\ _timer t' = _timer t /\
  timeout t' = timeout t /\
  snd (_subtestFinished reason ok t)
  = if resolved t' && is_function (_clientFinished t)
    then Some (finishReason t', isPassed t') else None.
Proof.
  rewrite subtestFinished_eq. cbv zeta. cbn. repeat split.
  unfold resolved, _notifyFinish. cbn.
  rewrite (andb_comm (finished t)).
  destruct ((pending t - 1 =? 0) && finished t); [|reflexivity].
  destruct (is_function (_clientFinished t)); reflexivity.
Qed.

(** ** The bookkeeping holds throughout a run *)

Lemma deliver_none fuel i w : deliver fuel i None w = w.
Proof. destruct fuel; reflexivity. Qed.

Lemma deliver_some fuel i reason ok w :
  deliver fuel i (Some (reason, ok)) w =
  match heap w !! i with
  | None => w
  | Some t =>
      match _clientFinished t with
      | Client _ => record_call i (reason, ok) w
      | SubtestFinished p =>
          match fuel, heap w !! p with
          | S fuel', Some tp =>
              deliver fuel' p (snd (_subtestFinished reason ok tp))
                (store p (fst (_subtestFinished reason ok tp))
                   (record_call i (reason, ok) w))
          | _, _ => record_call i (reason, ok) w
          end
      end
  end.
Proof.
  destruct fuel; cbn [deliver]; destruct (heap w !! i) as [t|]; try reflexivity;
    destruct (_clientFinished t) as [v|p]; try reflexivity.
  cbn [heap record_call]. destruct (heap w !! p) as [tp|]; [|reflexivity].
  destruct (_subtestFinished reason ok tp); reflexivity.
Qed.

Lemma Inv_same sk w w' :
  heap w' = heap w -> calls w' = calls w -> Inv sk w -> Inv sk w'.
Proof.
  intros Hh Hc [H1 H2 H3 H4 H5 H6].
  constructor; rewrite ?Hh, ?Hc; auto.
Qed.

Lemma Inv_pending_nonneg sk w i t :
  Inv sk w -> heap w !! i = Some t -> 0 <= pending t.
Proof.
  intros HI Hi. rewrite (inv_pending _ _ HI i t Hi).
  apply open_children_nonneg.
Qed.

(** A method ran on test [i]; its completion call, if any, is still due. *)
Lemma Inv_store sk w i t t' :
  Inv None w ->
  heap w !! i = Some t ->
  _clientFinished t' = _clientFinished t ->
  pending t' = pending t ->
  _timer t' = armed t' ->
  match sk with
  | None =>
      is_function (_clientFinished t) && resolved t'
      = is_function (_clientFinished t) && resolved t
  | Some k =>
      k = i /\ resolved t = false /\ resolved t' = true /\
      is_function (_clientFinished t) = true
  end ->
  Inv sk (store i t' w).
Proof.
  intros [Hfresh Hpar Hpend Htim Hnot Hskip] Hi Hcb Hp Ht Hsk.
  assert (Hlen : (i < length (heap w))%nat) by (eapply lookup_lt_Some; eauto).
  assert (Hlook : forall j tj,
             <[i := t']> (heap w) !! j = Some tj ->
             (j = i /\ tj = t') \/ (j <> i /\ heap w !! j = Some tj)).
  { intros j tj H. apply list_lookup_insert_Some in H.
    destruct H as [(-> & -> & _) | (? & ?)]; auto. }
  constructor; cbn [heap calls store].
  - intros j Hj. rewrite length_insert in Hj. auto.
  - intros j tj p Hj Hc. destruct (Hlook _ _ Hj) as [[-> ->] | [Hne Hj']].
    + rewrite Hcb in Hc. eauto.
    + eauto.
  - intros j tj Hj. rewrite (open_children_insert _ _ _ _ _ _ t Hi Hcb).
    destruct (Hlook _ _ Hj) as [[-> ->] | [Hne Hj']].
    + rewrite Hp. auto.
    + auto.
  - intros j tj Hj. destruct (Hlook _ _ Hj) as [[-> ->] | [Hne Hj']]; eauto.
  - intros j tj Hj Hne. destruct (Hlook _ _ Hj) as [[-> ->] | [Hne' Hj']].
    + destruct sk as [k|].
      * destruct Hsk as (-> & _). congruence.
      * rewrite Hcb, Hsk. apply Hnot; [exact Hi | discriminate].
    + apply Hnot; [exact Hj' | discriminate].
  - intros k ->. destruct Hsk as (-> & Hr & Hr' & Hfun).
    exists t'. repeat split.
    + now apply list_lookup_insert_eq.
    + exact Hr'.
    + now rewrite Hcb.
    + rewrite (Hnot i t Hi) by discriminate. now rewrite Hfun, Hr.
Qed.

(** The due call of test [i] goes to a function of the caller. *)
Lemma Inv_record_client w i t c v :
  Inv (Some i) w ->
  heap w !! i = Some t ->
  _clientFinished t = Client v ->
  Inv None (record_call i c w).
Proof.
  intros [Hfresh Hpar Hpend Htim Hnot Hskip] Hi Hcb.
  destruct (Hskip i eq_refl) as (t0 & Hi0 & Hres & Hfun & Hzero).
  assert (t0 = t) by congruence. subst t0.
  assert (Hlen : (i < length (heap w))%nat) by (eapply lookup_lt_Some; eauto).
  constructor; cbn [heap calls record_call].
  - intros j Hj. rewrite times_notified_snoc, Hfresh by exact Hj.
    destruct (Nat.eqb_spec i j); [lia | reflexivity].
  - exact Hpar.
  - intros j tj Hj. rewrite (open_children_close _ _ _ _ _ t Hi).
    unfold is_open at 1. rewrite Hcb, Z.sub_0_r. auto.
  - exact Htim.
  - intros j tj Hj _. rewrite times_notified_snoc.
    destruct (Nat.eqb_spec i j) as [<-|Hne].
    + assert (tj = t) by congruence. subst tj.
      now rewrite Hzero, Hfun, Hres.
    + rewrite Nat.add_0_r. apply Hnot; [exact Hj | congruence].
  - discriminate.
Qed.

(** The due call of subtest [i] runs [_subtestFinished] on its parent [p];
    the parent's own call is due afterwards exactly when it made one. *)
Lemma Inv_subtest_resolved w i t c p tp reason ok :
  Inv (Some i) w ->
  heap w !! i = Some t ->
  _clientFinished t = SubtestFinished p ->
  heap w !! p = Some tp ->
  Inv (match snd (_subtestFinished reason ok tp) with
       | Some _ => Some p
       | None => None
       end)
    (store p (fst (_subtestFinished reason ok tp)) (record_call i c w)).
Proof.
  intros HI Hi Hcb Hp.
  pose proof (Inv_pending_nonneg _ _ _ _ HI Hp) as Hnn.
  destruct HI as [Hfresh Hpar Hpend Htim Hnot Hskip].
  destruct (Hskip i eq_refl) as (t0 & Hi0 & Hres & Hfun & Hzero).
  assert (t0 = t) by congruence. subst t0.
  assert (Hpi : (p < i)%nat) by eauto.
  assert (Hleni : (i < length (heap w))%nat) by (eapply lookup_lt_Some; eauto).
  assert (Hlenp : (p < length (heap w))%nat) by lia.
  destruct (subtestFinished_step reason ok tp)
    as (Scb & Spe & Sfi & Sti & Sto & Sout).
  set (tp' := fst (_subtestFinished reason ok tp)) in *.
  set (out' := snd (_subtestFinished reason ok tp)) in *.
  assert (Hopen : forall j,
             is_open j (calls w) i t = Nat.eqb p j).
  { intros j. unfold is_open. rewrite Hcb, Hzero. cbn. apply andb_true_r. }
  assert (Hone : 1 <= pending tp).
  { rewrite (Hpend p tp Hp).
    pose proof (open_children_nonneg p (calls w ++ [(i, c)]) (heap w) 0%nat) as H.
    rewrite (open_children_close _ _ _ _ _ t Hi), Hopen, Nat.eqb_refl in H.
    lia. }
  assert (Hunres : resolved tp = false).
  { unfold resolved. destruct (Z.eqb_spec (pending tp) 0); [lia|].
    apply andb_false_r. }
  assert (Hpzero : times_notified p (calls w) = 0%nat).
  { rewrite (Hnot p tp Hp) by (intros [=]; lia).
    now rewrite Hunres, andb_false_r. }
  assert (Hlook : forall j tj,
             <[p := tp']> (heap w) !! j = Some tj ->
             (j = p /\ tj = tp') \/ (j <> p /\ heap w !! j = Some tj)).
  { intros j tj H. apply list_lookup_insert_Some in H.
    destruct H as [(-> & -> & _) | (? & ?)]; auto. }
  assert (Htn : forall j,
             times_notified j (calls w ++ [(i, c)])
             = (times_notified j (calls w) + if Nat.eqb i j then 1 else 0)%nat)
    by (intros j; apply times_notified_snoc).
  assert (Hoc : forall j,
             open_children j (calls w ++ [(i, c)]) 0 (<[p := tp']> (heap w))
             = open_children j (calls w) 0 (heap w)
               - (if Nat.eqb p j then 1 else 0)).
  { intros j. rewrite (open_children_insert _ _ _ _ _ _ tp Hp Scb).
    now rewrite (open_children_close _ _ _ _ _ t Hi), Hopen. }
  constructor; cbn [heap calls store record_call].
  - intros j Hj. rewrite length_insert in Hj. rewrite Htn, Hfresh by exact Hj.
    destruct (Nat.eqb_spec i j); [lia | reflexivity].
  - intros j tj q Hj Hc. destruct (Hlook _ _ Hj) as [[-> ->] | [Hne Hj']].
    + rewrite Scb in Hc. eauto.
    + eauto.
  - intros j tj Hj. rewrite Hoc.
    destruct (Hlook _ _ Hj) as [[-> ->] | [Hne Hj']].
    + rewrite Nat.eqb_refl, Spe, (Hpend p tp Hp). reflexivity.
    + destruct (Nat.eqb_spec p j); [congruence|].
      rewrite Z.sub_0_r. auto.
  - intros j tj Hj. destruct (Hlook _ _ Hj) as [[-> ->] | [Hne Hj']]; [|eauto].
    rewrite Sti, (Htim p tp Hp). unfold armed. now rewrite Sfi, Sto.
  - intros j tj Hj Hsk. rewrite Htn.
    destruct (Hlook _ _ Hj) as [[-> ->] | [Hne Hj']].
    + destruct (Nat.eqb_spec i p); [lia|].
      rewrite Hpzero, Scb. cbn. rewrite andb_comm.
      destruct (resolved tp' && is_function (_clientFinished tp));
        [|reflexivity].
      rewrite Sout in Hsk. congruence.
    + destruct (Nat.eqb_spec i j) as [<-|Hij].
      * assert (tj = t) by congruence. subst tj.
        now rewrite Hzero, Hfun, Hres.
      * rewrite Nat.add_0_r. apply Hnot; [exact Hj' | congruence].
  - intros k Hk. rewrite Sout in Hk.
    destruct (resolved tp' && is_function (_clientFinished tp)) eqn:Hb;
      [|discriminate].
    injection Hk as <-. apply andb_true_iff in Hb as [Hb1 Hb2].
    exists tp'. repeat split.
    + now apply list_lookup_insert_eq.
    + exact Hb1.
    + now rewrite Scb.
    + rewrite Htn, Hpzero. destruct (Nat.eqb_spec i p); [lia | reflexivity].
Qed.

(** Carrying out a due call, up through the ancestors, settles everything. *)
Lemma Inv_deliver fuel : forall i c w,
  (i <= fuel)%nat -> Inv (Some i) w -> Inv None (deliver fuel i (Some c) w).
Proof.
  induction fuel as [|fuel IH]; intros i [reason ok] w Hle HI;
    destruct (inv_skip _ _ HI i eq_refl) as (t & Hi & _);
    rewrite deliver_some, Hi;
    destruct (_clientFinished t) as [v|p] eqn:Hcb;
    try (eapply Inv_record_client; eassumption).
  - pose proof (inv_parent _ _ HI i t p Hi Hcb). lia.
  - pose proof (inv_parent _ _ HI i t p Hi Hcb) as Hpi.
    assert (Hp : is_Some (heap w !! p)).
    { apply lookup_lt_is_Some_2. apply lookup_lt_Some in Hi. lia. }
    destruct Hp as [tp Hp]. rewrite Hp.
    pose proof (Inv_subtest_resolved w i t (reason, ok) p tp reason ok
                  HI Hi Hcb Hp) as Hnext.
    destruct (snd (_subtestFinished reason ok tp)) as [c'|].
    + apply IH; [lia | exact Hnext].
    + now rewrite deliver_none.
Qed.

Lemma Inv_step w i t t' out :
  Inv None w ->
  heap w !! i = Some t ->
  step_ok t t' out ->
  Inv None (notify i out (store i t' w)).
Proof.
  intros HI Hi (Hcb & Hp & Ht & Hout). unfold notify.
  destruct out as [c|].
  - apply Inv_deliver; [lia|].
    apply (Inv_store (Some i) w i t t'); auto.
  - rewrite deliver_none. apply (Inv_store None w i t t'); auto.
Qed.

Lemma notify_none i w : notify i None w = w.
Proof. apply deliver_none. Qed.

Lemma Inv_quiet w i t t' :
  Inv None w ->
  heap w !! i = Some t ->
  step_ok t t' None ->
  Inv None (store i t' w).
Proof.
  intros HI Hi Hs. rewrite <- (notify_none i). now apply (Inv_step w i t).
Qed.

(** A test made by the caller joins the store. *)
Lemma Inv_alloc_root w c v :
  Inv None w ->
  _clientFinished c = Client v ->
  pending c = 0 -> finished c = false -> _timer c = armed c ->
  Inv None (alloc c w).
Proof.
  intros [Hfresh Hpar Hpend Htim Hnot Hskip] Hcb Hp Hf Ht.
  assert (Hoc : forall j,
             open_children j (calls w) 0 (heap w ++ [c])
             = open_children j (calls w) 0 (heap w)).
  { intros j. rewrite open_children_app. unfold is_open. rewrite Hcb. lia. }
  constructor; cbn [heap calls alloc].
  - intros j Hj. rewrite length_app in Hj. apply Hfresh. lia.
  - intros j tj p Hj Hc. apply lookup_snoc_Some in Hj as [[_ Hj] | [-> <-]].
    + eauto.
    + congruence.
  - intros j tj Hj. rewrite Hoc.
    apply lookup_snoc_Some in Hj as [[_ Hj] | [-> <-]]; [auto|].
    rewrite Hp. symmetry. apply open_children_none.
    intros k t Hk Hc. pose proof (Hpar k t _ Hk Hc).
    apply lookup_lt_Some in Hk. lia.
  - intros j tj Hj. apply lookup_snoc_Some in Hj as [[_ Hj] | [-> <-]]; eauto.
  - intros j tj Hj _. apply lookup_snoc_Some in Hj as [[_ Hj] | [-> <-]].
    + apply Hnot; [exact Hj | discriminate].
    + rewrite Hfresh by lia. unfold resolved. rewrite Hf.
      now rewrite andb_false_r.
  - discriminate.
Qed.

(** A subtest of test [i] joins the store, [i] counting it as pending. *)
Lemma Inv_alloc_child w i tp tp' c :
  Inv None w ->
  heap w !! i = Some tp ->
  finished tp = false ->
  _clientFinished tp' = _clientFinished tp ->
  pending tp' = pending tp + 1 ->
  _timer tp' = armed tp' ->
  _clientFinished c = SubtestFinished i ->
  pending c = 0 -> finished c = false -> _timer c = armed c ->
  Inv None (alloc c (store i tp' w)).
Proof.
  intros HI Hi Hfp Hcb Hpe Hti Hcc Hpc Hfc Htc.
  pose proof (Inv_pending_nonneg _ _ _ _ HI Hi) as Hnn.
  destruct HI as [Hfresh Hpar Hpend Htim Hnot Hskip].
  assert (Hlen : (i < length (heap w))%nat) by (eapply lookup_lt_Some; eauto).
  assert (Hlook : forall j tj,
             (<[i := tp']> (heap w) ++ [c]) !! j = Some tj ->
             (j = i /\ tj = tp') \/ (j <> i /\ heap w !! j = Some tj) \/
             (j = length (heap w) /\ tj = c)).
  { intros j tj H. apply lookup_snoc_Some in H.
    rewrite length_insert in H. destruct H as [[_ H] | [-> <-]]; [|auto].
    apply list_lookup_insert_Some in H.
    destruct H as [(-> & -> & _) | (? & ?)]; auto. }
  assert (Hoc : forall j,
             open_children j (calls w) 0 (<[i := tp']> (heap w) ++ [c])
             = open_children j (calls w) 0 (heap w)
               + (if Nat.eqb i j then 1 else 0)).
  { intros j. rewrite open_children_app, length_insert.
    rewrite (open_children_insert _ _ _ _ _ _ tp Hi Hcb).
    unfold is_open. rewrite Hcc. cbn [Nat.add].
    rewrite (Hfresh (length (heap w))) by lia. cbn.
    now rewrite andb_true_r. }
  constructor; cbn [heap calls alloc store].
  - intros j Hj. rewrite length_app, length_insert in Hj. apply Hfresh. lia.
  - intros j tj p Hj Hc.
    destruct (Hlook _ _ Hj) as [[-> ->] | [[Hne Hj'] | [-> ->]]].
    + rewrite Hcb in Hc. eauto.
    + eauto.
    + congruence.
  - intros j tj Hj. rewrite Hoc.
    destruct (Hlook _ _ Hj) as [[-> ->] | [[Hne Hj'] | [-> ->]]].
    + rewrite Nat.eqb_refl, Hpe, (Hpend i tp Hi). reflexivity.
    + destruct (Nat.eqb_spec i j); [congruence|].
      rewrite Z.add_0_r. auto.
    + destruct (Nat.eqb_spec i (length (heap w))); [lia|].
      rewrite Hpc, Z.add_0_r. symmetry. apply open_children_none.
      intros k t Hk Hc. pose proof (Hpar k t _ Hk Hc).
      apply lookup_lt_Some in Hk. lia.
  - intros j tj Hj.
    destruct (Hlook _ _ Hj) as [[-> ->] | [[Hne Hj'] | [-> ->]]]; eauto.
  - intros j tj Hj _.
    destruct (Hlook _ _ Hj) as [[-> ->] | [[Hne Hj'] | [-> ->]]].
    + rewrite (Hnot i tp Hi) by discriminate. rewrite Hcb.
      unfold resolved. rewrite Hfp, Hpe.
      destruct (Z.eqb_spec (pending tp + 1) 0); [lia|].
      now rewrite !andb_false_r.
    + apply Hnot; [exact Hj' | discriminate].
    + rewrite Hfresh by lia. unfold resolved. rewrite Hfc.
      now rewrite andb_false_r.
  - discriminate.
Qed.

Lemma test_finished self fresh nm tmo body t :
  finished t = true ->
  test self fresh nm tmo body t
  = mkOutcome
      (error (VStr ("Subtest '" +:+ nm
                    +:+ "' triggered after test was completed")) t)
      None None None None.
Proof. intros Hf. unfold test. rewrite Hf. destruct tmo; reflexivity. Qed.

Lemma Inv_start : Inv None start.
Proof.
  constructor; cbn; try reflexivity; try discriminate;
    intros i t; rewrite ?lookup_nil; discriminate.
Qed.

Lemma Inv_exec o w : Inv None w -> Inv None (exec o w).
Proof.
  intros HI.
  destruct o as [nm tmo cb | i | i body | i nm tmo body | i count
                | i result nm | i reason | i data | i data | i | i err];
    cbn [exec];
    try (destruct (heap w !! i) as [t|] eqn:Hi; [|exact HI]).
  - (* New *)
    rewrite new_Test_eq. cbv zeta.
    destruct tmo; (eapply Inv_alloc_root; [exact HI | reflexivity ..]).
  - (* Ping *)
    apply (Inv_quiet w i t _ HI Hi (ping_step t)).
  - (* Run *)
    now apply (Inv_same None w).
  - (* CallTest *)
    destruct (finished t) eqn:Hf.
    + rewrite test_finished by exact Hf. cbn [receiver created notified to_run].
      rewrite notify_none. apply (Inv_quiet w i t _ HI Hi (error_step _ t)).
    + pose proof (Inv_pending_nonneg _ _ _ _ HI Hi) as Hnn.
      destruct (test_step i (length (heap w)) nm tmo body t Hf Hnn)
        as (Hcb & Hpe & Hti & Hno & c & Hc & Hcc & Hpc & Hfc & Htc).
      rewrite Hc, Hno. unfold notify. rewrite deliver_none.
      assert (Hnew : Inv None
                (alloc c
                   (store i
                      (receiver (test i (length (heap w)) nm tmo body t)) w)))
        by (eapply Inv_alloc_child; eauto).
      destruct (to_run _); [|exact Hnew].
      eapply Inv_same; [| |exact Hnew]; reflexivity.
  - (* AddExpected *)
    apply (Inv_quiet w i t _ HI Hi (addExpected_step count t)).
  - (* Check *)
    pose proof (check_step result nm t) as Hs.
    destruct (check result nm t) as [[t' ret] out].
    apply (Inv_step w i t t' out HI Hi Hs).
  - (* Finish *)
    pose proof (finish_step reason t) as Hs.
    destruct (finish reason t) as [t' out].
    apply (Inv_step w i t t' out HI Hi Hs).
  - (* Comment *)
    apply (Inv_quiet w i t _ HI Hi (comment_step data t)).
  - (* Error *)
    apply (Inv_quiet w i t _ HI Hi (error_step data t)).
  - (* TimerFires *)
    destruct (_timer t); [|exact HI].
    pose proof (finish_step (VStr "timeout") t) as Hs.
    destruct (finish (VStr "timeout") t) as [t' out].
    apply (Inv_step w i t t' out HI Hi Hs).
  - (* DomainError *)
    destruct (has_domain i w); [|exact HI].
    pose proof (onError_step err t) as Hs.
    destruct (_onError err t) as [t' out].
    apply (Inv_step w i t t' out HI Hi Hs).
Qed.

Lemma Inv_run_ops ops : forall w, Inv None w -> Inv None (run_ops ops w).
Proof.
  induction ops as [|o ops IH]; intros w HI; [exact HI|].
  apply IH. now apply Inv_exec.
Qed.

(** The bound on the climb in [deliver] is never what ends it: from any
    test whose ancestors have smaller references, every larger bound gives
    the same result as the one [notify] uses. *)
Lemma deliver_enough_fuel f1 : forall f2 i out w,
  (forall j t p, heap w !! j = Some t ->
                 _clientFinished t = SubtestFinished p -> (p < j)%nat) ->
  (i <= f1)%nat -> (i <= f2)%nat ->
  deliver f1 i out w = deliver f2 i out w.
Proof.
  induction f1 as [|f1 IH]; intros f2 i [[reason ok]|] w Hpar H1 H2;
    rewrite ?deliver_none; try reflexivity;
    rewrite !deliver_some;
    destruct (heap w !! i) as [t|] eqn:Hi; try reflexivity;
    destruct (_clientFinished t) as [v|p] eqn:Hcb; try reflexivity;
    pose proof (Hpar i t p Hi Hcb) as Hpi; [lia|].
  destruct f2 as [|f2]; [lia|].
  destruct (heap w !! p) as [tp|] eqn:Hp; [|reflexivity].
  apply IH; [|lia|lia].
  intros j tj q Hj Hc. cbn [heap store record_call] in Hj.
  apply list_lookup_insert_Some in Hj.
  destruct Hj as [(<- & <- & _) | (_ & Hj)]; [|eauto].
  destruct (subtestFinished_step reason ok tp) as (Scb & _).
  rewrite Scb in Hc. eauto.
Qed.

Lemma finish_note_timeout tmo :
  finish_note (VStr "timeout") tmo
  = [Annotation "error"
       (VStr ("Test timed out due to no activity in "
              +:+ number_to_string tmo +:+ " milliseconds."))].
Proof. reflexivity. Qed.

(** ** Completion calls *)

(** C1. In every run, a test whose completion callback is a function has
    invoked it once if it is finished with nothing pending, and not at all
    otherwise; so never twice, and never before [finished] is true and
    [pending] is 0.  [finish] with subtests pending makes no call, [finish]
    with none pending makes it, and on a finished test [_subtestFinished]
    makes it exactly when it takes [pending] from 1 to 0. *)
Theorem completion_callback_once (ops : list op) (i : nat) (t : Test) :
  heap (run_ops ops start) !! i = Some t ->
  is_function (_clientFinished t) = true ->
  times_notified i (calls (run_ops ops start))
    = (if finished t && (pending t =? 0) then 1%nat else 0%nat) /\
  (times_notified i (calls (run_ops ops start)) <= 1)%nat /\
  (times_notified i (calls (run_ops ops start)) <> 0%nat ->
   finished t = true /\ pending t = 0) /\
  0 <= pending t /\
  (forall reason,
      finished t = false -> pending t <> 0 ->
      snd (finish reason t) = None /\
      finished (fst (finish reason t)) = true /\
      pending (fst (finish reason t)) = pending t) /\
  (forall reason,
      finished t = false -> pending t = 0 ->
      snd (finish reason t) = Some (reason, isPassed (fst (finish reason t)))) /\
  (forall reason ok,
      snd (_subtestFinished reason ok t)
      = if finished t && (pending t =? 1)
        then Some (finishReason t,
                   isPassed (fst (_subtestFinished reason ok t)))
        else None).
Proof.
  intros Hi Hfun.
  pose proof (Inv_run_ops ops start Inv_start) as HI.
  assert (Hn : times_notified i (calls (run_ops ops start))
               = if finished t && (pending t =? 0) then 1%nat else 0%nat).
  { rewrite (inv_notified _ _ HI i t Hi) by discriminate. now rewrite Hfun. }
  split; [exact Hn|]. rewrite Hn.
  split; [|split; [|split; [|split; [|split]]]].
  - destruct (finished t && (pending t =? 0)); lia.
  - destruct (finished t); [|intros []; reflexivity].
    destruct (Z.eqb_spec (pending t) 0); [auto | intros []; reflexivity].
  - exact (Inv_pending_nonneg _ _ _ _ HI Hi).
  - intros reason Hf Hp. rewrite finish_eq, Hf. cbn.
    destruct (Z.eqb_spec (pending t) 0); [contradiction | auto].
  - intros reason Hf Hp. rewrite finish_eq, Hf. cbn.
    rewrite Hp. cbn. unfold _notifyFinish. cbn. now rewrite Hfun.
  - intros reason ok. rewrite subtestFinished_eq. cbn.
    unfold _notifyFinish. cbn. rewrite Hfun, (andb_comm (finished t)).
    replace (pending t - 1 =? 0) with (pending t =? 1); [reflexivity|].
    destruct (Z.eqb_spec (pending t) 1), (Z.eqb_spec (pending t - 1) 0);
      auto; lia.
Qed.

(** ** The liveness timer *)

(** C9. [ping] drops whatever timer was armed and arms a new one, with the
    configured delay, only on a test that is not finished and has a positive
    timeout.  In every run each test carries exactly that timer: none once
    finished, none when the timeout is 0 or negative, so that no timer can
    fire on such a test.  A timer that fires runs [finish("timeout")] on an
    unfinished test, which appends the error annotation naming the
    configured delay. *)
Theorem liveness_timer (ops : list op) (i : nat) (t : Test) :
  heap (run_ops ops start) !! i = Some t ->
  (forall t0,
      _timer (ping t0)
      = (if negb (finished t0) && (0 <? timeout t0)
         then Some (timeout t0) else None) /\
      ping t0 = with_timer (_timer (ping t0)) t0) /\
  _timer t = armed t /\
  (finished t = true -> _timer t = None) /\
  (timeout t <= 0 -> _timer t = None) /\
  (_timer t = None ->
   exec (TimerFires i) (run_ops ops start) = run_ops ops start) /\
  (forall d,
      _timer t = Some d ->
      d = timeout t /\ finished t = false /\
      exec (TimerFires i) (run_ops ops start)
      = notify i (snd (finish (VStr "timeout") t))
          (store i (fst (finish (VStr "timeout") t)) (run_ops ops start)) /\
      finished (fst (finish (VStr "timeout") t)) = true /\
      finishReason (fst (finish (VStr "timeout") t)) = VStr "timeout" /\
      contents (fst (finish (VStr "timeout") t))
      = contents t
        ++ [Annotation "error"
              (VStr ("Test timed out due to no activity in "
                     +:+ number_to_string (timeout t) +:+ " milliseconds."))] /\
      errors (fst (finish (VStr "timeout") t)) = errors t + 1 /\
      _timer (fst (finish (VStr "timeout") t)) = None).
Proof.
  intros Hi.
  pose proof (Inv_run_ops ops start Inv_start) as HI.
  pose proof (inv_timer _ _ HI i t Hi) as Ht.
  split; [|split; [|split; [|split; [|split]]]].
  - intros t0. rewrite ping_eq. split; reflexivity.
  - exact Ht.
  - intros Hf. rewrite Ht. unfold armed. now rewrite Hf.
  - intros Hle. rewrite Ht. unfold armed.
    destruct (Z.ltb_spec 0 (timeout t)); [lia|]. now rewrite andb_false_r.
  - intros Hn. cbn [exec]. now rewrite Hi, Hn.
  - intros d Hd. rewrite Ht in Hd. unfold armed in Hd.
    destruct (finished t) eqn:Hf; [discriminate|].
    destruct (0 <? timeout t) eqn:Hpos; [|discriminate].
    injection Hd as <-.
    split; [reflexivity|]. split; [reflexivity|]. split.
    + cbn [exec]. rewrite Hi, Ht. unfold armed. rewrite Hf, Hpos.
      cbn [negb andb]. destruct (finish (VStr "timeout") t); reflexivity.
    + rewrite finish_eq, Hf. cbn. rewrite finish_note_timeout.
      repeat split.
Qed.

(** ** Subtests along a run *)

(** What [test] leaves in its receiver when the receiver is not finished. *)
Lemma test_receiver self fresh nm tmo body t :
  finished t = false ->
  let r := receiver (test self fresh nm tmo body t) in
  contents r = contents t ++ [Subtest fresh] /\
  total r = total t + 1 /\ passed r = passed t /\ failed r = failed t.
Proof.
  intros Hf. rewrite test_eq by exact Hf. cbv zeta.
  assert (Hc : forall t1,
             let t2 := fst (_checkExpected t1) in
             finished t1 = false ->
             contents t2 = contents t1 /\ total t2 = total t1 /\
             passed t2 = passed t1 /\ failed t2 = failed t1).
  { intros t1 t2 H1. subst t2. rewrite checkExpected_eq.
    destruct (match expected t1 with Some e => e =? total t1 | None => false end);
      [|cbn; auto].
    rewrite finish_eq, H1. cbn. unfold finish_note.
    change (truthy VUndefined) with false. rewrite app_nil_r. auto. }
  match goal with |- context [_checkExpected ?x] =>
    specialize (Hc x eq_refl); cbn in Hc end.
  destruct (match tmo with TFunction f => VFun f | _ => body end);
    cbn [receiver]; exact Hc.
Qed.

(** Routing a call never forgets an earlier one. *)
Lemma deliver_keeps_calls fuel : forall i out w x,
  x ∈ calls w -> x ∈ calls (deliver fuel i out w).
Proof.
  induction fuel as [|fuel IH]; intros i [[reason ok]|] w x Hx;
    rewrite ?deliver_none; try exact Hx; rewrite deliver_some;
    destruct (heap w !! i) as [t|]; try exact Hx;
    destruct (_clientFinished t) as [v|p];
    try (cbn [calls record_call]; apply elem_of_app; now left).
  cbn [heap record_call]. destruct (heap w !! p) as [tp|];
    [|cbn [calls record_call]; apply elem_of_app; now left].
  apply IH. cbn [calls store record_call]. apply elem_of_app. now left.
Qed.

(** The routing of a call made by test [k] touches ancestors of [k] only,
    and these have smaller references. *)
Lemma deliver_above fuel : forall k out w q,
  (forall j t p, heap w !! j = Some t ->
                 _clientFinished t = SubtestFinished p -> (p < j)%nat) ->
  (k <= q)%nat ->
  heap (deliver fuel k out w) !! q = heap w !! q.
Proof.
  induction fuel as [|fuel IH]; intros k [[reason ok]|] w q Hpar Hkq;
    rewrite ?deliver_none; try reflexivity; rewrite deliver_some;
    destruct (heap w !! k) as [t|] eqn:Hk; try reflexivity;
    destruct (_clientFinished t) as [v|p] eqn:Hcb; try reflexivity.
  pose proof (Hpar k t p Hk Hcb) as Hpk.
  destruct (heap w !! p) as [tp|] eqn:Hp; [|reflexivity].
  rewrite IH; [| |lia].
  - cbn [heap store record_call]. apply list_lookup_insert_ne. lia.
  - intros j tj r Hj Hc. cbn [heap store record_call] in Hj.
    apply list_lookup_insert_Some in Hj.
    destruct Hj as [(<- & <- & _) | (_ & Hj)]; [|eauto].
    destruct (subtestFinished_step reason ok tp) as (Scb & _).
    rewrite Scb in Hc. eauto.
Qed.

(** The call [(reason, ok)] of a subtest [k] is recorded and runs the
    parent's [_subtestFinished] on the parent, whose state after the whole
    routing is the one that handler left. *)
Lemma deliver_parent fuel k reason ok w c p tp :
  (forall j t q, heap w !! j = Some t ->
                 _clientFinished t = SubtestFinished q -> (q < j)%nat) ->
  heap w !! k = Some c ->
  _clientFinished c = SubtestFinished p ->
  heap w !! p = Some tp ->
  (k <= fuel)%nat ->
  heap (deliver fuel k (Some (reason, ok)) w) !! p
  = Some (fst (_subtestFinished reason ok tp)) /\
  heap (deliver fuel k (Some (reason, ok)) w) !! k = Some c /\
  (k, (reason, ok)) ∈ calls (deliver fuel k (Some (reason, ok)) w).
Proof.
  intros Hpar Hk Hcb Hp Hfuel.
  pose proof (Hpar k c p Hk Hcb) as Hpk.
  destruct fuel as [|fuel]; [lia|].
  rewrite deliver_some, Hk, Hcb, Hp.
  set (w1 := store p (fst (_subtestFinished reason ok tp))
               (record_call k (reason, ok) w)).
  assert (Hpar1 : forall j t q, heap w1 !! j = Some t ->
                    _clientFinished t = SubtestFinished q -> (q < j)%nat).
  { intros j tj r Hj Hc. cbn [w1 heap store record_call] in Hj.
    apply list_lookup_insert_Some in Hj.
    destruct Hj as [(<- & <- & _) | (_ & Hj)]; [|eauto].
    destruct (subtestFinished_step reason ok tp) as (Scb & _).
    rewrite Scb in Hc. eauto. }
  split; [|split].
  - rewrite deliver_above by (auto; lia). cbn [w1 heap store record_call].
    apply list_lookup_insert_eq. now apply lookup_lt_Some in Hp.
  - rewrite deliver_above by (auto; lia). cbn [w1 heap store record_call].
    rewrite list_lookup_insert_ne by lia. exact Hk.
  - apply deliver_keeps_calls. cbn [w1 calls store record_call].
    apply elem_of_app. right. apply list_elem_of_singleton. reflexivity.
Qed.

(** C4. In every run, [test] on a test [i] that is not finished stores a
    new [Test] at the next free reference, constructed with [i]'s
    [_subtestFinished] as its completion callback, appends that very
    reference to [i]'s [contents] and adds one to [i]'s [total] and [pending]
    straight away, before any completion call is made.  When a subtest of [i]
    invokes its completion callback with [(reason, passed)], the call is
    recorded and [i]'s handler runs on [i]: one more [passed] when [reason]
    is falsy and [passed] is true, one more [failed] otherwise, one less
    [pending], [total] and [contents] as they were.  A subtest with nothing
    pending makes that call when it is finished, with the reason given and
    its own [isPassed()]. *)
Theorem subtest_accounting (ops : list op) (i : nat) (t : Test) :
  heap (run_ops ops start) !! i = Some t ->
  (forall nm tmo body,
      finished t = false ->
      exists t1 c,
        heap (exec (CallTest i nm tmo body) (run_ops ops start)) !! i
          = Some t1 /\
        heap (exec (CallTest i nm tmo body) (run_ops ops start))
          !! length (heap (run_ops ops start)) = Some c /\
        heap (run_ops ops start) !! length (heap (run_ops ops start)) = None /\
        contents t1
          = contents t ++ [Subtest (length (heap (run_ops ops start)))] /\
        total t1 = total t + 1 /\ pending t1 = pending t + 1 /\
        passed t1 = passed t /\ failed t1 = failed t /\
        _clientFinished c = SubtestFinished i /\
        finished c = false /\ pending c = 0 /\
        calls (exec (CallTest i nm tmo body) (run_ops ops start))
          = calls (run_ops ops start)) /\
  (forall j c reason ok,
      heap (run_ops ops start) !! j = Some c ->
      _clientFinished c = SubtestFinished i ->
      exists t2,
        heap (notify j (Some (reason, ok)) (run_ops ops start)) !! i
          = Some t2 /\
        (j, (reason, ok))
          ∈ calls (notify j (Some (reason, ok)) (run_ops ops start)) /\
        passed t2 = passed t + (if negb (truthy reason) && ok then 1 else 0) /\
        failed t2 = failed t + (if negb (truthy reason) && ok then 0 else 1) /\
        pending t2 = pending t - 1 /\
        total t2 = total t /\ contents t2 = contents t) /\
  (forall j c reason,
      heap (run_ops ops start) !! j = Some c ->
      _clientFinished c = SubtestFinished i ->
      finished c = false -> pending c = 0 ->
      exists c2 t2,
        heap (exec (Finish j reason) (run_ops ops start)) !! j = Some c2 /\
        heap (exec (Finish j reason) (run_ops ops start)) !! i = Some t2 /\
        finished c2 = true /\ finishReason c2 = reason /\
        (j, (reason, isPassed c2))
          ∈ calls (exec (Finish j reason) (run_ops ops start)) /\
        passed t2
          = passed t + (if negb (truthy reason) && isPassed c2 then 1 else 0) /\
        failed t2
          = failed t + (if negb (truthy reason) && isPassed c2 then 0 else 1) /\
        pending t2 = pending t - 1 /\
        total t2 = total t /\ contents t2 = contents t).
Proof.
  intros Hi.
  pose proof (Inv_run_ops ops start Inv_start) as HI.
  set (w := run_ops ops start) in *.
  pose proof (inv_parent _ _ HI) as Hpar.
  assert (Hcount : forall reason ok,
             let t2 := fst (_subtestFinished reason ok t) in
             passed t2 = passed t + (if negb (truthy reason) && ok then 1 else 0) /\
             failed t2 = failed t + (if negb (truthy reason) && ok then 0 else 1) /\
             pending t2 = pending t - 1 /\
             total t2 = total t /\ contents t2 = contents t).
  { intros reason ok. rewrite subtestFinished_eq. cbn. auto. }
  split; [|split].
  - intros nm tmo body Hf.
    pose proof (Inv_pending_nonneg _ _ _ _ HI Hi) as Hnn.
    destruct (test_step i (length (heap w)) nm tmo body t Hf Hnn)
      as (_ & Hpe & _ & Hno & c & Hc & Hcb & Hpc & Hfc & _).
    destruct (test_receiver i (length (heap w)) nm tmo body t Hf)
      as (Hco & Hto & Hpa & Hfa).
    exists (receiver (test i (length (heap w)) nm tmo body t)), c.
    cbn [exec]. rewrite Hi, Hc, Hno, notify_none.
    assert (Hlen : length (<[i := receiver (test i (length (heap w)) nm tmo
                                              body t)]> (heap w))
                   = length (heap w)) by apply length_insert.
    assert (Hheap :
              (<[i := receiver (test i (length (heap w)) nm tmo body t)]>
                 (heap w) ++ [c]) !! i
              = Some (receiver (test i (length (heap w)) nm tmo body t)) /\
              (<[i := receiver (test i (length (heap w)) nm tmo body t)]>
                 (heap w) ++ [c]) !! length (heap w) = Some c).
    { split.
      - apply lookup_app_l_Some. apply list_lookup_insert_eq.
        now apply lookup_lt_Some in Hi.
      - apply lookup_snoc_Some. right. split; [now rewrite Hlen | auto]. }
    destruct Hheap as [H1 H2].
    assert (Hfree : heap w !! length (heap w) = None)
      by (apply lookup_ge_None; lia).
    destruct (to_run (test i (length (heap w)) nm tmo body t));
      cbn [heap calls run alloc store];
      repeat apply conj; auto.
  - intros j c reason ok Hj Hcb.
    destruct (deliver_parent j j reason ok w c i t Hpar Hj Hcb Hi (le_n _))
      as (H1 & _ & H3).
    exists (fst (_subtestFinished reason ok t)).
    split; [exact H1|]. split; [exact H3|]. apply Hcount.
  - intros j c reason Hj Hcb Hfc Hpc.
    pose proof (Hpar j c i Hj Hcb) as Hij.
    cbn [exec]. rewrite Hj, finish_eq, Hfc. cbv zeta. rewrite Hpc.
    change (0 =? 0) with true. cbv iota.
    match goal with |- context [_notifyFinish ?x] => set (c2 := x) end.
    assert (Hout : _notifyFinish c2 = Some (reason, isPassed c2)).
    { unfold _notifyFinish. cbn [c2 _clientFinished finishReason].
      rewrite Hcb. reflexivity. }
    rewrite Hout.
    assert (Hpar2 : forall k tk q, heap (store j c2 w) !! k = Some tk ->
                      _clientFinished tk = SubtestFinished q -> (q < k)%nat).
    { intros k tk q Hk Hc. cbn [heap store] in Hk.
      apply list_lookup_insert_Some in Hk.
      destruct Hk as [(<- & <- & _) | (_ & Hk)]; [|eauto].
      cbn [c2 _clientFinished] in Hc. rewrite Hcb in Hc.
      injection Hc as <-. exact Hij. }
    assert (Hj2 : heap (store j c2 w) !! j = Some c2).
    { cbn [heap store]. apply list_lookup_insert_eq.
      now apply lookup_lt_Some in Hj. }
    assert (Hi2 : heap (store j c2 w) !! i = Some t).
    { cbn [heap store]. rewrite list_lookup_insert_ne by lia. exact Hi. }
    destruct (deliver_parent j j reason (isPassed c2) (store j c2 w) c2 i t
                Hpar2 Hj2 Hcb Hi2 (le_n _)) as (H1 & H2 & H3).
    exists c2, (fst (_subtestFinished reason (isPassed c2) t)).
    split; [exact H2|]. split; [exact H1|].
    split; [reflexivity|]. split; [reflexivity|].
    split; [exact H3|]. apply Hcount.
Qed.

(** ** The statements at sample inputs *)

Lemma finished_rejects_activity_witness :
  finished finished_test = true /\
  (exists t',
      check (VBool true) "late" finished_test = (t', VUndefined, None) /\
      only_appends_error
        "Checkpoint 'late' triggered after test was completed"
        finished_test t') /\
  only_appends_error "Expected test count increased by 2 after completion."
    finished_test (addExpected 2 finished_test).
Proof.
  split; [reflexivity|].
  destruct (finished_rejects_activity finished_test eq_refl) as (Hc & _ & Ha).
  split; [exact (Hc (VBool true) "late") | exact (Ha 2)].
Defined.

Lemma second_finish_only_logs_witness :
  heap (run_ops [New "t" (TNumber 0) done_cb; Finish 0%nat VUndefined] start)
    !! 0%nat = Some finished_test /\
  finished finished_test = true /\
  exists t',
    finish (VStr "x") finished_test = (t', None) /\
    only_appends_error
      "An extra attempt was made to finish the test, the reason this time was: 'x'"
      finished_test t' /\
    finished t' = true /\ finishReason t' = finishReason finished_test /\
    exec (Finish 0%nat (VStr "x"))
      (run_ops [New "t" (TNumber 0) done_cb; Finish 0%nat VUndefined] start)
    = store 0%nat t'
        (run_ops [New "t" (TNumber 0) done_cb; Finish 0%nat VUndefined] start) /\
    calls (exec (Finish 0%nat (VStr "x"))
             (run_ops [New "t" (TNumber 0) done_cb; Finish 0%nat VUndefined]
                start))
    = calls (run_ops [New "t" (TNumber 0) done_cb; Finish 0%nat VUndefined]
               start).
Proof.
  split; [reflexivity|]. split; [reflexivity|].
  exact (second_finish_only_logs
           (run_ops [New "t" (TNumber 0) done_cb; Finish 0%nat VUndefined] start)
           0%nat finished_test (VStr "x") eq_refl eq_refl).
Defined.

Lemma addExpected_only_updates_witness :
  heap (run_ops [New "t" (TNumber 0) done_cb] start) !! 0%nat
    = Some fresh_test /\
  finished fresh_test = false /\
  expected (addExpected 0 fresh_test) = Some 0 /\
  finished (addExpected 0 fresh_test) = false.
Proof.
  split; [reflexivity|]. split; [reflexivity|].
  destruct (addExpected_only_updates
              (run_ops [New "t" (TNumber 0) done_cb] start) 0%nat fresh_test 0
              eq_refl eq_refl) as (He & Hf & _).
  split; [exact He | exact Hf].
Defined.

Lemma reaching_expected_finishes_witness :
  finished expecting_test = false /\
  expected expecting_test = Some 1 /\
  total expecting_test + 1 = 1 /\
  finished (fst (fst (check (VBool true) "a" expecting_test))) = true /\
  finishReason (fst (fst (check (VBool true) "a" expecting_test)))
    = VUndefined.
Proof.
  split; [reflexivity|]. split; [reflexivity|]. split; [reflexivity|].
  destruct (reaching_expected_finishes expecting_test 1 eq_refl eq_refl eq_refl)
    as (Hc & _).
  destruct (Hc (VBool true) "a") as (H1 & H2 & _).
  split; [exact H1 | exact H2].
Defined.

Lemma subtest_accounting_witness :
  heap (run_ops [New "root" (TNumber 0) done_cb;
                 CallTest 0%nat "sub" TUndefined VUndefined] start) !! 0%nat
    = Some (mkTest (Client done_cb) "root" [Subtest 1] 0 0 None 1 1 false
              VNull 0 0 None) /\
  exists c2 t2,
    heap (exec (Finish 1%nat VUndefined)
            (run_ops [New "root" (TNumber 0) done_cb;
                      CallTest 0%nat "sub" TUndefined VUndefined] start))
      !! 1%nat = Some c2 /\
    heap (exec (Finish 1%nat VUndefined)
            (run_ops [New "root" (TNumber 0) done_cb;
                      CallTest 0%nat "sub" TUndefined VUndefined] start))
      !! 0%nat = Some t2 /\
    passed t2 = 0 + (if negb (truthy VUndefined) && isPassed c2 then 1 else 0) /\
    pending t2 = 1 - 1.
Proof.
  split; [reflexivity|].
  destruct (subtest_accounting
              [New "root" (TNumber 0) done_cb;
               CallTest 0%nat "sub" TUndefined VUndefined] 0%nat
              (mkTest (Client done_cb) "root" [Subtest 1] 0 0 None 1 1 false
                 VNull 0 0 None) eq_refl) as (_ & _ & Hres).
  destruct (Hres 1%nat (new_Test "sub" TUndefined (SubtestFinished 0))
              VUndefined eq_refl eq_refl eq_refl eq_refl)
    as (c2 & t2 & H1 & H2 & _ & _ & _ & H3 & _ & H4 & _).
  exists c2, t2. auto.
Defined.

Lemma subtest_default_timeout_witness :
  finished (new_Test "parent" (TNumber 100) (Client done_cb)) = false /\
  timeout <$> created (test 0 1 "child" TUndefined VUndefined
                         (new_Test "parent" (TNumber 100) (Client done_cb)))
    = Some DEFAULT_TIMEOUT /\
  DEFAULT_TIMEOUT = 5000.
Proof.
  split; [reflexivity|].
  exact (subtest_default_timeout 0 1 "child" VUndefined
           (new_Test "parent" (TNumber 100) (Client done_cb)) eq_refl).
Defined.

Lemma completion_callback_once_witness :
  heap (run_ops deferred_run start) !! 0%nat
    = Some (mkTest (Client done_cb) "root" [Subtest 1] 1 0 None 1 0 true
              VUndefined 0 0 None) /\
  is_function (Client done_cb) = true /\
  times_notified 0 (calls (run_ops deferred_run start)) = 1%nat.
Proof.
  split; [reflexivity|]. split; [reflexivity|].
  exact (proj1 (completion_callback_once deferred_run 0%nat
                  (mkTest (Client done_cb) "root" [Subtest 1] 1 0 None 1 0
                     true VUndefined 0 0 None) eq_refl eq_refl)).
Defined.

Lemma liveness_timer_witness :
  heap (run_ops [New "t" (TNumber 50) done_cb] start) !! 0%nat
    = Some (mkTest (Client done_cb) "t" [] 0 0 None 0 0 false VNull 0 50
              (Some 50)) /\
  contents (fst (finish (VStr "timeout")
                   (mkTest (Client done_cb) "t" [] 0 0 None 0 0 false VNull 0
                      50 (Some 50))))
  = [Annotation "error"
       (VStr "Test timed out due to no activity in 50 milliseconds.")].
Proof.
  split; [reflexivity|].
  destruct (liveness_timer [New "t" (TNumber 50) done_cb] 0%nat
              (mkTest (Client done_cb) "t" [] 0 0 None 0 0 false VNull 0 50
                 (Some 50)) eq_refl) as (_ & _ & _ & _ & _ & Hfire).
  destruct (Hfire 50 eq_refl) as (_ & _ & _ & _ & _ & Hc & _).
  exact Hc.
Defined.

(** ** Remarks on the model *)

(** In a world that satisfies the bookkeeping, the bound [notify] puts on the
    climb through the ancestors can be raised at will without changing the
    outcome: no call is ever dropped for want of fuel. *)
Lemma notify_enough_fuel sk w i k out :
  Inv sk w -> notify i out w = deliver (i + k) i out w.
Proof.
  intros HI. unfold notify. apply deliver_enough_fuel; [|lia|lia].
  exact (inv_parent _ _ HI).
Qed.

(** [finish] called twice in a row: the second call makes no completion
    call, keeps the reason of the first and adds exactly one to [errors]. *)
Lemma finish_twice r1 r2 t :
  snd (finish r2 (fst (finish r1 t))) = None /\
  finishReason (fst (finish r2 (fst (finish r1 t))))
    = finishReason (fst (finish r1 t)) /\
  errors (fst (finish r2 (fst (finish r1 t))))
    = errors (fst (finish r1 t)) + 1.
Proof.
  pose proof (finish_sets_finished r1 t) as Hf.
  rewrite (finish_eq r2), Hf. cbn [fst snd]. rewrite error_eq. cbn. auto.
Qed.

(** After [n] checkpoints on a test that expects nothing, [total] and
    [passed + failed] have both grown by [n]. *)
Lemma checks_counted (results : list (jsval * string)) : forall t,
  finished t = false -> expected t = None ->
  let t' := fold_left (fun t r => fst (fst (check (fst r) (snd r) t)))
              results t in
  finished t' = false /\ expected t' = None /\
  total t' = total t + Z.of_nat (length results) /\
  passed t' + failed t' = passed t + failed t + Z.of_nat (length results).
Proof.
  induction results as [|[result nm] results IH]; intros t Hf He.
  - cbn. repeat split; auto; lia.
  - cbn [fold_left fst snd length].
    assert (Hstep : let t1 := fst (fst (check result nm t)) in
                    finished t1 = false /\ expected t1 = None /\
                    total t1 = total t + 1 /\
                    passed t1 + failed t1 = passed t + failed t + 1).
    { rewrite check_eq by exact Hf. cbv zeta. cbn [fst snd].
      rewrite checkExpected_miss by (cbn; congruence).
      cbn. repeat split; auto.
      destruct (fst (check_result result)); lia. }
    destruct Hstep as (Hf1 & He1 & Ht1 & Hp1).
    destruct (IH _ Hf1 He1) as (Hf2 & He2 & Ht2 & Hp2).
    cbv zeta. repeat split; auto; lia.
Qed.

(** ** Relating the states of a test along a run *)

Lemma deliver_length fuel : forall i out w,
  length (heap (deliver fuel i out w)) = length (heap w).
Proof.
  induction fuel as [|fuel IH]; intros i [[reason ok]|] w;
    rewrite ?deliver_none; try reflexivity; rewrite deliver_some;
    destruct (heap w !! i) as [t|]; try reflexivity;
    destruct (_clientFinished t) as [v|p]; try reflexivity.
  destruct (heap w !! p) as [tp|]; [|reflexivity].
  rewrite IH. cbn [heap store record_call]. apply length_insert.
Qed.

(** While the call of a subtest is due, its parent still counts it. *)
Lemma Inv_parent_pending w k t p tp :
  Inv (Some k) w ->
  heap w !! k = Some t ->
  _clientFinished t = SubtestFinished p ->
  heap w !! p = Some tp ->
  1 <= pending tp.
Proof.
  intros HI Hk Hcb Hp.
  destruct (inv_skip _ _ HI k eq_refl) as (t0 & Hk0 & _ & _ & Hzero).
  assert (t0 = t) by congruence. subst t0.
  rewrite (inv_pending _ _ HI p tp Hp).
  pose proof (open_children_nonneg p (calls w ++ [(k, (VNull, false))])
                (heap w) 0%nat) as H.
  rewrite (open_children_close _ _ _ _ _ t Hk) in H.
  assert (Ho : is_open p (calls w) k t = true)
    by (apply is_open_true; auto).
  rewrite Ho in H. lia.
Qed.

Section Related.

Variable R : Test -> Test -> Prop.

Hypothesis R_refl : forall t, R t t.
Hypothesis R_trans : forall a b c, R a b -> R b c -> R a c.
Hypothesis R_ping : forall t, R t (ping t).
Hypothesis R_comment : forall d t, R t (comment d t).
Hypothesis R_error : forall d t, R t (error d t).
Hypothesis R_addExpected : forall count t, R t (addExpected count t).
Hypothesis R_check : forall result nm t,
    R t (fst (fst (check result nm t))).
Hypothesis R_finish : forall reason t, R t (fst (finish reason t)).
Hypothesis R_test : forall self fresh nm tmo body t,
    0 <= pending t -> R t (receiver (test self fresh nm tmo body t)).
Hypothesis R_subtestFinished : forall reason ok t,
    1 <= pending t -> R t (fst (_subtestFinished reason ok t)).

Lemma related_store w i t' j tj :
  heap w !! j = Some tj ->
  (forall t, heap w !! i = Some t -> R t t') ->
  exists t'', heap (store i t' w) !! j = Some t'' /\ R tj t''.
Proof.
  intros Hj HR. cbn [heap store]. destruct (decide (j = i)) as [->|Hne].
  - exists t'. split; [|auto].
    apply list_lookup_insert_eq. eapply lookup_lt_Some; eauto.
  - exists tj. split; [|apply R_refl].
    rewrite list_lookup_insert_ne by congruence. exact Hj.
Qed.

Lemma related_store_at w i t t' j tj :
  heap w !! i = Some t ->
  R t t' ->
  heap w !! j = Some tj ->
  exists t'', heap (store i t' w) !! j = Some t'' /\ R tj t''.
Proof.
  intros Hi HR Hj. apply related_store; [exact Hj|].
  intros t0 H0. assert (t0 = t) by congruence. now subst t0.
Qed.

Lemma deliver_related fuel : forall k c w,
  (k <= fuel)%nat -> Inv (Some k) w ->
  forall j tj,
    heap w !! j = Some tj ->
    exists t'', heap (deliver fuel k (Some c) w) !! j = Some t'' /\ R tj t''.
Proof.
  induction fuel as [|fuel IH]; intros k [reason ok] w Hle HI j tj Hj;
    destruct (inv_skip _ _ HI k eq_refl) as (t & Hk & _);
    rewrite deliver_some, Hk;
    destruct (_clientFinished t) as [v|p] eqn:Hcb;
    try (exists tj; split; [exact Hj | apply R_refl]).
  pose proof (inv_parent _ _ HI k t p Hk Hcb) as Hpk.
  assert (Hp : is_Some (heap w !! p)).
  { apply lookup_lt_is_Some_2. apply lookup_lt_Some in Hk. lia. }
  destruct Hp as [tp Hp]. rewrite Hp.
  pose proof (Inv_parent_pending w k t p tp HI Hk Hcb Hp) as Hone.
  pose proof (Inv_subtest_resolved w k t (reason, ok) p tp reason ok
                HI Hk Hcb Hp) as Hnext.
  destruct (related_store (record_call k (reason, ok) w) p
              (fst (_subtestFinished reason ok tp)) j tj Hj)
    as (t1 & Hj1 & HR1).
  { cbn [heap record_call]. intros t0 H0.
    assert (t0 = tp) by congruence. subst t0.
    now apply R_subtestFinished. }
  destruct (snd (_subtestFinished reason ok tp)) as [c'|].
  - destruct (IH p c' _ ltac:(lia) Hnext j t1 Hj1) as (t2 & Hj2 & HR2).
    exists t2. split; [exact Hj2 | eapply R_trans; eauto].
  - rewrite deliver_none. eauto.
Qed.

Lemma step_related w i t t' out :
  Inv None w ->
  heap w !! i = Some t ->
  step_ok t t' out ->
  R t t' ->
  forall j tj,
    heap w !! j = Some tj ->
    exists t'', heap (notify i out (store i t' w)) !! j = Some t'' /\
                R tj t''.
Proof.
  intros HI Hi (Hcb & Hp & Ht & Hout) HR j tj Hj.
  destruct (related_store_at w i t t' j tj Hi HR Hj) as (t1 & Hj1 & HR1).
  unfold notify. destruct out as [c|].
  - assert (HI' : Inv (Some i) (store i t' w))
      by (apply (Inv_store (Some i) w i t t'); auto).
    destruct (deliver_related i i c _ (Nat.le_refl i) HI' j t1 Hj1)
      as (t2 & Hj2 & HR2).
    exists t2. split; [exact Hj2 | eapply R_trans; eauto].
  - rewrite deliver_none. eauto.
Qed.

Lemma exec_related o w :
  Inv None w ->
  forall j tj,
    heap w !! j = Some tj ->
    exists t'', heap (exec o w) !! j = Some t'' /\ R tj t''.
Proof.
  intros HI j tj Hj.
  assert (Hsame : exists t'', heap w !! j = Some t'' /\ R tj t'')
    by (exists tj; split; [exact Hj | apply R_refl]).
  destruct o as [nm tmo cb | i | i body | i nm tmo body | i count
                | i result nm | i reason | i data | i data | i | i err];
    cbn [exec];
    try (destruct (heap w !! i) as [t|] eqn:Hi; [|exact Hsame]).
  - (* New *)
    exists tj. split; [|apply R_refl]. cbn [heap alloc].
    now apply lookup_app_l_Some.
  - (* Ping *)
    apply (related_store_at w i t _ j tj Hi (R_ping t) Hj).
  - (* Run *)
    exact Hsame.
  - (* CallTest *)
    destruct (finished t) eqn:Hf.
    + rewrite test_finished by exact Hf.
      cbn [receiver created notified to_run].
      rewrite notify_none.
      apply (related_store_at w i t _ j tj Hi (R_error _ t) Hj).
    + pose proof (Inv_pending_nonneg _ _ _ _ HI Hi) as Hnn.
      destruct (test_step i (length (heap w)) nm tmo body t Hf Hnn)
        as (_ & _ & _ & Hno & c & Hc & _).
      rewrite Hc, Hno, notify_none.
      destruct (related_store_at w i t
                  (receiver (test i (length (heap w)) nm tmo body t))
                  j tj Hi (R_test _ _ nm tmo body t Hnn) Hj)
        as (t1 & Hj1 & HR1).
      exists t1. split; [|exact HR1].
      assert (Hl : heap (alloc c
                     (store i
                        (receiver (test i (length (heap w)) nm tmo body t))
                        w)) !! j = Some t1)
        by (cbn [heap alloc]; now apply lookup_app_l_Some).
      destruct (to_run _); exact Hl.
  - (* AddExpected *)
    apply (related_store_at w i t _ j tj Hi (R_addExpected count t) Hj).
  - (* Check *)
    pose proof (check_step result nm t) as Hs.
    pose proof (R_check result nm t) as HR.
    destruct (check result nm t) as [[t' ret] out].
    apply (step_related w i t t' out HI Hi Hs HR j tj Hj).
  - (* Finish *)
    pose proof (finish_step reason t) as Hs.
    pose proof (R_finish reason t) as HR.
    destruct (finish reason t) as [t' out].
    apply (step_related w i t t' out HI Hi Hs HR j tj Hj).
  - (* Comment *)
    apply (related_store_at w i t _ j tj Hi (R_comment data t) Hj).
  - (* Error *)
    apply (related_store_at w i t _ j tj Hi (R_error data t) Hj).
  - (* TimerFires *)
    destruct (_timer t); [|exact Hsame].
    pose proof (finish_step (VStr "timeout") t) as Hs.
    pose proof (R_finish (VStr "timeout") t) as HR.
    destruct (finish (VStr "timeout") t) as [t' out].
    apply (step_related w i t t' out HI Hi Hs HR j tj Hj).
  - (* DomainError *)
    destruct (has_domain i w); [|exact Hsame].
    pose proof (onError_step err t) as Hs.
    assert (HR : R t (fst (_onError err t))).
    { unfold _onError. eapply R_trans; [apply (R_error err)|apply R_finish]. }
    destruct (_onError err t) as [t' out].
    apply (step_related w i t t' out HI Hi Hs HR j tj Hj).
Qed.

Lemma run_related ops : forall w,
  Inv None w ->
  forall j tj,
    heap w !! j = Some tj ->
    exists t'', heap (run_ops ops w) !! j = Some t'' /\ R tj t''.
Proof.
  induction ops as [|o ops IH]; intros w HI j tj Hj.
  - exists tj. split; [exact Hj | apply R_refl].
  - cbn [run_ops fold_left].
    destruct (exec_related o w HI j tj Hj) as (t1 & Hj1 & HR1).
    destruct (IH (exec o w) (Inv_exec o w HI) j t1 Hj1) as (t2 & Hj2 & HR2).
    exists t2. split; [exact Hj2 | eapply R_trans; eauto].
Qed.

End Related.

(** Objects that an operation adds to the store come from the constructor. *)
Lemma test_created self fresh nm tmo body t :
  finished t = false ->
  created (test self fresh nm tmo body t)
  = Some (new_Test nm
            (match tmo with TFunction _ => TUndefined | _ => tmo end)
            (SubtestFinished self)).
Proof.
  intros Hf. rewrite test_eq by exact Hf. cbv zeta.
  destruct (match tmo with TFunction f => VFun f | _ => body end);
    reflexivity.
Qed.

Lemma notify_length i out w :
  length (heap (notify i out w)) = length (heap w).
Proof. apply deliver_length. Qed.

Lemma exec_new_object o w j t' :
  Inv None w ->
  heap (exec o w) !! j = Some t' ->
  heap w !! j = None ->
  exists nm tmo cb, t' = new_Test nm tmo cb.
Proof.
  intros HI Hj Hnone.
  assert (Hold : forall w',
             length (heap w') = length (heap w) ->
             heap w' !! j = Some t' ->
             exists nm tmo cb, t' = new_Test nm tmo cb).
  { intros w' Hlen H. apply lookup_lt_Some in H.
    apply lookup_ge_None in Hnone. lia. }
  assert (Hstore : forall i x out,
             length (heap (notify i out (store i x w))) = length (heap w)).
  { intros i x out. rewrite notify_length. cbn [heap store].
    apply length_insert. }
  assert (Hstore' : forall i x,
             length (heap (store i x w)) = length (heap w))
    by (intros i x; cbn [heap store]; apply length_insert).
  destruct o as [nm tmo cb | i | i body | i nm tmo body | i count
                | i result nm | i reason | i data | i data | i | i err];
    cbn [exec] in Hj;
    try (destruct (heap w !! i) as [t|] eqn:Hi; [|congruence]).
  - cbn [heap alloc] in Hj. apply lookup_snoc_Some in Hj.
    destruct Hj as [[_ Hj] | [_ <-]]; [congruence | eauto].
  - eapply Hold; [apply Hstore'|exact Hj].
  - eapply Hold; [|exact Hj]. reflexivity.
  - destruct (finished t) eqn:Hf.
    + rewrite test_finished in Hj by exact Hf.
      cbn [receiver created notified to_run] in Hj.
      eapply Hold; [apply Hstore|exact Hj].
    + pose proof (Inv_pending_nonneg _ _ _ _ HI Hi) as Hnn.
      destruct (test_step i (length (heap w)) nm tmo body t Hf Hnn)
        as (_ & _ & _ & Hno & _).
      rewrite (test_created _ _ _ _ _ _ Hf), Hno, notify_none in Hj.
      assert (Hj' : (<[i := receiver
                             (test i (length (heap w)) nm tmo body t)]>
                       (heap w)
                     ++ [new_Test nm
                           (match tmo with
                            | TFunction _ => TUndefined
                            | _ => tmo
                            end) (SubtestFinished i)]) !! j = Some t')
        by (destruct (to_run _); exact Hj).
      apply lookup_snoc_Some in Hj'. rewrite length_insert in Hj'.
      destruct Hj' as [[Hlt _] | [_ <-]]; [|eauto].
      apply lookup_ge_None in Hnone. lia.
  - eapply Hold; [apply Hstore'|exact Hj].
  - destruct (check result nm t) as [[t1 ret] out].
    eapply Hold; [apply Hstore|exact Hj].
  - destruct (finish reason t) as [t1 out].
    eapply Hold; [apply Hstore|exact Hj].
  - eapply Hold; [apply Hstore'|exact Hj].
  - eapply Hold; [apply Hstore'|exact Hj].
  - destruct (_timer t); [|congruence].
    destruct (finish (VStr "timeout") t) as [t1 out].
    eapply Hold; [apply Hstore|exact Hj].
  - destruct (has_domain i w); [|congruence].
    destruct (_onError err t) as [t1 out].
    eapply Hold; [apply Hstore|exact Hj].
Qed.

Section Invariant.

Variable P : Test -> Prop.

Hypothesis P_new : forall nm tmo cb, P (new_Test nm tmo cb).
Hypothesis P_ping : forall t, P t -> P (ping t).
Hypothesis P_comment : forall d t, P t -> P (comment d t).
Hypothesis P_error : forall d t, P t -> P (error d t).
Hypothesis P_addExpected : forall count t, P t -> P (addExpected count t).
Hypothesis P_check : forall result nm t,
    P t -> P (fst (fst (check result nm t))).
Hypothesis P_finish : forall reason t, P t -> P (fst (finish reason t)).
Hypothesis P_test : forall self fresh nm tmo body t,
    0 <= pending t -> P t -> P (receiver (test self fresh nm tmo body t)).
Hypothesis P_subtestFinished : forall reason ok t,
    1 <= pending t -> P t -> P (fst (_subtestFinished reason ok t)).

Lemma exec_invariant o w :
  Inv None w ->
  (forall i t, heap w !! i = Some t -> P t) ->
  forall i t, heap (exec o w) !! i = Some t -> P t.
Proof.
  intros HI Hall i t' Hi'.
  destruct (heap w !! i) as [t|] eqn:Hi.
  - assert (Hex : exists t'',
               heap (exec o w) !! i = Some t'' /\ (P t -> P t''))
      by (apply (exec_related (fun a b => P a -> P b)); auto).
    destruct Hex as (t'' & Hi'' & HP).
    assert (t'' = t') by congruence. subst t''. eauto.
  - destruct (exec_new_object o w i t' HI Hi' Hi) as (nm & tmo & cb & ->).
    apply P_new.
Qed.

Lemma run_invariant ops : forall w,
  Inv None w ->
  (forall i t, heap w !! i = Some t -> P t) ->
  forall i t, heap (run_ops ops w) !! i = Some t -> P t.
Proof.
  induction ops as [|o ops IH]; intros w HI Hall; [exact Hall|].
  cbn [run_ops fold_left]. apply IH; [now apply Inv_exec|].
  now apply exec_invariant.
Qed.

Lemma start_invariant ops i t :
  heap (run_ops ops start) !! i = Some t -> P t.
Proof.
  apply (run_invariant ops start Inv_start).
  intros j tj. cbn. rewrite lookup_nil. discriminate.
Qed.

End Invariant.

(** ** The counters and the contents agree *)

Lemma count_entries_app f l l' :
  count_entries f (l ++ l') = count_entries f l + count_entries f l'.
Proof.
  induction l as [|e l IH]; cbn [count_entries app]; [lia|].
  rewrite IH. lia.
Qed.

Lemma count_entries_nonneg f l : 0 <= count_entries f l.
Proof.
  induction l as [|e l IH]; cbn [count_entries]; [lia|].
  destruct (f e); lia.
Qed.

Lemma count_entries_zero f l e :
  count_entries f l = 0 -> e ∈ l -> f e = false.
Proof.
  induction l as [|e0 l IH]; intros Hc Hin; [inversion Hin|].
  cbn [count_entries] in Hc. pose proof (count_entries_nonneg f l).
  apply elem_of_cons in Hin as [->|Hin].
  - destruct (f e0); [lia | reflexivity].
  - apply IH; [destruct (f e0); lia | exact Hin].
Qed.

Ltac tally :=
  unfold tallied; cbn; rewrite ?count_entries_app; cbn;
  repeat split; lia.

Lemma tallied_new nm tmo cb : tallied (new_Test nm tmo cb).
Proof. rewrite new_Test_eq. tally. Qed.

Lemma tallied_ping t : tallied t -> tallied (ping t).
Proof. intros (H1 & H2 & H3 & H4 & H5 & H6 & H7). rewrite ping_eq. tally. Qed.

Lemma tallied_comment d t : tallied t -> tallied (comment d t).
Proof.
  intros (H1 & H2 & H3 & H4 & H5 & H6 & H7). rewrite comment_eq. tally.
Qed.

Lemma tallied_error d t : tallied t -> tallied (error d t).
Proof.
  intros (H1 & H2 & H3 & H4 & H5 & H6 & H7). rewrite error_eq. tally.
Qed.

Lemma tallied_finish reason t : tallied t -> tallied (fst (finish reason t)).
Proof.
  intros HT. rewrite finish_eq. destruct (finished t).
  - now apply tallied_error.
  - destruct HT as (H1 & H2 & H3 & H4 & H5 & H6 & H7).
    cbv zeta. cbn [fst]. unfold finish_note.
    destruct (truthy reason); tally.
Qed.

Lemma tallied_checkExpected t :
  tallied t -> tallied (fst (_checkExpected t)).
Proof.
  intros HT. rewrite checkExpected_eq.
  destruct (match expected t with Some e => e =? total t | None => false end);
    [now apply tallied_finish | exact HT].
Qed.

Lemma tallied_addExpected count t : tallied t -> tallied (addExpected count t).
Proof.
  intros HT. unfold addExpected. destruct (finished t); cbn [negb].
  - now apply tallied_error.
  - destruct HT as (H1 & H2 & H3 & H4 & H5 & H6 & H7). rewrite ping_eq.
    destruct t as [cb nm cs np nf ex tot pend fin fr err tmo tmr].
    norm. destruct ex; tally.
Qed.

Lemma tallied_check result nm t :
  tallied t -> tallied (fst (fst (check result nm t))).
Proof.
  intros HT. destruct (finished t) eqn:Hf.
  - unfold check. rewrite Hf. cbn [negb fst]. now apply tallied_error.
  - rewrite check_eq by exact Hf. cbv zeta. cbn [fst].
    apply tallied_checkExpected.
    destruct HT as (H1 & H2 & H3 & H4 & H5 & H6 & H7).
    destruct (fst (check_result result)),
      (truthy (snd (check_result result))); tally.
Qed.

Lemma tallied_test self fresh nm tmo body t :
  tallied t -> tallied (receiver (test self fresh nm tmo body t)).
Proof.
  intros HT. destruct (finished t) eqn:Hf.
  - rewrite test_finished by exact Hf. cbn [receiver].
    now apply tallied_error.
  - rewrite test_eq by exact Hf. cbv zeta.
    match goal with |- context [_checkExpected ?x] =>
      assert (H : tallied (fst (_checkExpected x))) end.
    { apply tallied_checkExpected.
      destruct HT as (H1 & H2 & H3 & H4 & H5 & H6 & H7). tally. }
    destruct (match tmo with TFunction f => VFun f | _ => body end);
      exact H.
Qed.

Lemma tallied_subtestFinished reason ok t :
  tallied t -> tallied (fst (_subtestFinished reason ok t)).
Proof.
  intros (H1 & H2 & H3 & H4 & H5 & H6 & H7). rewrite subtestFinished_eq.
  cbv zeta. cbn [fst]. destruct (negb (truthy reason) && ok); tally.
Qed.

Lemma run_tallied ops i t :
  heap (run_ops ops start) !! i = Some t -> tallied t.
Proof.
  apply (start_invariant tallied); intros.
  - apply tallied_new.
  - now apply tallied_ping.
  - now apply tallied_comment.
  - now apply tallied_error.
  - now apply tallied_addExpected.
  - now apply tallied_check.
  - now apply tallied_finish.
  - now apply tallied_test.
  - now apply tallied_subtestFinished.
Qed.

(** ** A test only grows *)

Lemma grows_refl t : grows t t.
Proof. unfold grows. repeat split; auto; try lia. Qed.

Lemma grows_trans a b c : grows a b -> grows b c -> grows a c.
Proof.
  intros (A1 & A2 & A3 & A4 & A5 & A6 & A7 & A8 & A9)
         (B1 & B2 & B3 & B4 & B5 & B6 & B7 & B8 & B9).
  unfold grows. repeat apply conj; try congruence; try lia.
  - etransitivity; eassumption.
  - intros Hf. destruct (A9 Hf) as (F & G1 & G2).
    destruct (B9 F) as (F' & G1' & G2').
    repeat apply conj; congruence.
Qed.

Ltac grow :=
  unfold grows; cbn;
  repeat split; auto; try lia; try (eexists; reflexivity);
  try discriminate.

Lemma grows_ping t : grows t (ping t).
Proof. rewrite ping_eq. grow. Qed.

Lemma grows_comment d t : grows t (comment d t).
Proof. rewrite comment_eq. grow. Qed.

Lemma grows_error d t : grows t (error d t).
Proof. rewrite error_eq. grow. Qed.

Lemma grows_finish reason t : grows t (fst (finish reason t)).
Proof.
  rewrite finish_eq. destruct (finished t) eqn:Hf; [apply grows_error|].
  cbv zeta. cbn [fst]. unfold grows. cbn. rewrite Hf.
  repeat split; auto; try lia; try (eexists; reflexivity); try discriminate.
  destruct (truthy reason); lia.
Qed.

Lemma grows_checkExpected t : grows t (fst (_checkExpected t)).
Proof.
  rewrite checkExpected_eq.
  destruct (match expected t with Some e => e =? total t | None => false end);
    [apply grows_finish | apply grows_refl].
Qed.

Lemma grows_addExpected count t : grows t (addExpected count t).
Proof.
  unfold addExpected. destruct (finished t) eqn:Hf; cbn [negb].
  - apply grows_error.
  - rewrite ping_eq.
    destruct t as [cb nm cs np nf ex tot pend fin fr err tmo tmr].
    norm. subst fin. destruct ex; grow.
Qed.

Lemma grows_check result nm t : grows t (fst (fst (check result nm t))).
Proof.
  destruct (finished t) eqn:Hf.
  - unfold check. rewrite Hf. cbn [negb fst]. apply grows_error.
  - rewrite check_eq by exact Hf. cbv zeta. cbn [fst].
    eapply grows_trans; [|apply grows_checkExpected].
    unfold grows. cbn. rewrite Hf.
    repeat split; auto; try lia; try (eexists; reflexivity);
      try discriminate;
      destruct (fst (check_result result)); try lia;
      destruct (truthy (snd (check_result result))); lia.
Qed.

Lemma grows_test self fresh nm tmo body t :
  grows t (receiver (test self fresh nm tmo body t)).
Proof.
  destruct (finished t) eqn:Hf.
  - rewrite test_finished by exact Hf. cbn [receiver]. apply grows_error.
  - rewrite test_eq by exact Hf. cbv zeta.
    match goal with |- context [_checkExpected ?x] =>
      assert (H : grows t (fst (_checkExpected x))) end.
    { eapply grows_trans; [|apply grows_checkExpected].
      unfold grows. cbn. rewrite Hf.
      repeat split; auto; try lia; try (eexists; reflexivity);
        discriminate. }
    destruct (match tmo with TFunction f => VFun f | _ => body end);
      exact H.
Qed.

Lemma grows_subtestFinished reason ok t :
  grows t (fst (_subtestFinished reason ok t)).
Proof.
  rewrite subtestFinished_eq. cbv zeta. cbn [fst].
  unfold grows. cbn.
  repeat split; auto; try lia; try (eexists; rewrite app_nil_r; reflexivity);
    destruct (negb (truthy reason) && ok); lia.
Qed.

Lemma frozen_refl t : frozen t t.
Proof. unfold frozen. intros Hr. apply andb_true_iff in Hr as [Hf _]. auto 10. Qed.

Lemma frozen_resolved a b : frozen a b -> resolved a = true -> resolved b = true.
Proof.
  intros H Hr. destruct (H Hr) as (Hp & _ & Hf & _).
  unfold resolved in *. rewrite Hf, Hp.
  apply andb_true_iff in Hr as [_ Hr]. exact Hr.
Qed.

Lemma frozen_trans a b c : frozen a b -> frozen b c -> frozen a c.
Proof.
  intros Hab Hbc Hr. pose proof (frozen_resolved a b Hab Hr) as Hrb.
  destruct (Hab Hr) as (A1 & A2 & A3 & A4).
  destruct (Hbc Hrb) as (B1 & B2 & B3 & B4).
  repeat split; congruence.
Qed.

Lemma frozen_error d t : frozen t (error d t).
Proof.
  rewrite error_eq. intros Hr. apply andb_true_iff in Hr as [Hf _].
  cbn. auto 10.
Qed.

Lemma frozen_ping t : frozen t (ping t).
Proof.
  rewrite ping_eq. intros Hr. apply andb_true_iff in Hr as [Hf _].
  cbn. auto 10.
Qed.

Lemma frozen_comment d t : frozen t (comment d t).
Proof.
  rewrite comment_eq. intros Hr. apply andb_true_iff in Hr as [Hf _].
  cbn. auto 10.
Qed.

Lemma frozen_finish reason t : frozen t (fst (finish reason t)).
Proof.
  intros Hr. pose proof Hr as Hr'. apply andb_true_iff in Hr' as [Hf _].
  rewrite finish_eq, Hf. now apply frozen_error.
Qed.

Lemma frozen_addExpected count t : frozen t (addExpected count t).
Proof.
  intros Hr. pose proof Hr as Hr'. apply andb_true_iff in Hr' as [Hf _].
  unfold addExpected. rewrite Hf. now apply frozen_error.
Qed.

Lemma frozen_check result nm t : frozen t (fst (fst (check result nm t))).
Proof.
  intros Hr. pose proof Hr as Hr'. apply andb_true_iff in Hr' as [Hf _].
  unfold check. rewrite Hf. now apply frozen_error.
Qed.

Lemma frozen_test self fresh nm tmo body t :
  frozen t (receiver (test self fresh nm tmo body t)).
Proof.
  intros Hr. pose proof Hr as Hr'. apply andb_true_iff in Hr' as [Hf _].
  rewrite test_finished by exact Hf. now apply frozen_error.
Qed.

Lemma frozen_subtestFinished reason ok t :
  1 <= pending t -> frozen t (fst (_subtestFinished reason ok t)).
Proof.
  intros Hp Hr. apply andb_true_iff in Hr as [_ Hr].
  apply Z.eqb_eq in Hr. lia.
Qed.

Lemma run_ops_app ops ops' w :
  run_ops (ops ++ ops') w = run_ops ops' (run_ops ops w).
Proof. unfold run_ops. apply fold_left_app. Qed.

Lemma run_grows_frozen ops ops' i t :
  heap (run_ops ops start) !! i = Some t ->
  exists t',
    heap (run_ops (ops ++ ops') start) !! i = Some t' /\
    grows t t' /\ frozen t t'.
Proof.
  intros Hi. rewrite run_ops_app.
  apply (run_related (fun a b => grows a b /\ frozen a b));
    try (exact Hi); try (apply Inv_run_ops, Inv_start).
  - intros t0. split; [apply grows_refl | apply frozen_refl].
  - intros a b c [G1 F1] [G2 F2].
    split; [eapply grows_trans | eapply frozen_trans]; eauto.
  - intros t0. split; [apply grows_ping | apply frozen_ping].
  - intros d t0. split; [apply grows_comment | apply frozen_comment].
  - intros d t0. split; [apply grows_error | apply frozen_error].
  - intros c t0. split; [apply grows_addExpected | apply frozen_addExpected].
  - intros r nm t0. split; [apply grows_check | apply frozen_check].
  - intros r t0. split; [apply grows_finish | apply frozen_finish].
  - intros self fresh nm tmo body t0 _.
    split; [apply grows_test | apply frozen_test].
  - intros r ok t0 Hp.
    split; [apply grows_subtestFinished | now apply frozen_subtestFinished].
Qed.

(** X1. In every run the counters of a test balance: what was initiated is
    what passed, failed or is still pending, none of them is negative, and
    with nothing pending [total] is [passed + failed]. *)
Theorem counters_balance (ops : list op) (i : nat) (t : Test) :
  heap (run_ops ops start) !! i = Some t ->
  total t = passed t + failed t + pending t /\
  0 <= passed t /\ 0 <= failed t /\ 0 <= pending t /\ 0 <= total t /\
  (pending t = 0 -> total t = passed t + failed t).
Proof.
  intros Hi.
  destruct (run_tallied ops i t Hi) as (H1 & H2 & H3 & _).
  pose proof (Inv_pending_nonneg _ _ _ _
                (Inv_run_ops ops start Inv_start) Hi) as Hp.
  repeat apply conj; try lia.
Qed.

(** X2. In every run [errors] is the number of error annotations in
    [contents], [total] is the number of checkpoints and subtests in
    [contents], and the passed and the failed checkpoints in [contents] are
    counted in [passed] and in [failed]. *)
Theorem counters_match_contents (ops : list op) (i : nat) (t : Test) :
  heap (run_ops ops start) !! i = Some t ->
  errors t = count_entries is_error_note (contents t) /\
  total t = count_entries is_initiated (contents t) /\
  count_entries (is_checkpoint true) (contents t) <= passed t /\
  count_entries (is_checkpoint false) (contents t) <= failed t.
Proof.
  intros Hi.
  destruct (run_tallied ops i t Hi) as (_ & _ & _ & H4 & H5 & H6 & H7).
  auto.
Qed.

(** X3. In every run a test for which [isPassed] holds is finished with
    nothing pending, has no reason, and its [contents] hold no error
    annotation and no failed checkpoint. *)
Theorem passed_means_clean (ops : list op) (i : nat) (t : Test) :
  heap (run_ops ops start) !! i = Some t ->
  isPassed t = true ->
  finished t = true /\ pending t = 0 /\ truthy (finishReason t) = false /\
  (forall d, Annotation "error" d ∉ contents t) /\
  (forall nm, Checkpoint nm false ∉ contents t).
Proof.
  intros Hi Hp.
  destruct (run_tallied ops i t Hi) as (_ & _ & _ & H4 & _ & _ & H7).
  unfold isPassed, isComplete in Hp.
  repeat (apply andb_true_iff in Hp as [Hp ?]).
  apply Z.eqb_eq in H, H0, H3. apply negb_true_iff in H1.
  repeat apply conj; auto.
  - intros d Hin.
    assert (Hz : count_entries is_error_note (contents t) = 0) by lia.
    now pose proof (count_entries_zero _ _ _ Hz Hin).
  - intros nm Hin.
    pose proof (count_entries_nonneg (is_checkpoint false) (contents t)).
    assert (Hz : count_entries (is_checkpoint false) (contents t) = 0) by lia.
    now pose proof (count_entries_zero _ _ _ Hz Hin).
Qed.

(** X4. Whatever operations follow, a test keeps its name, timeout and
    callback; its [contents] are only appended to; [passed], [failed],
    [total] and [errors] never go down; and once it is finished it stays so,
    with the same [finishReason] and [expected]. *)
Theorem tests_only_grow (ops ops' : list op) (i : nat) (t : Test) :
  heap (run_ops ops start) !! i = Some t ->
  exists t',
    heap (run_ops (ops ++ ops') start) !! i = Some t' /\
    name t' = name t /\ timeout t' = timeout t /\
    _clientFinished t' = _clientFinished t /\
    contents t `prefix_of` contents t' /\
    passed t <= passed t' /\ failed t <= failed t' /\
    total t <= total t' /\ errors t <= errors t' /\
    (finished t = true ->
     finished t' = true /\ finishReason t' = finishReason t /\
     expected t' = expected t).
Proof.
  intros Hi.
  destruct (run_grows_frozen ops ops' i t Hi) as (t' & Hi' & HG & _).
  exists t'. split; [exact Hi' | exact HG].
Qed.

(** ** What the recorded completion calls say *)

Lemma finish_verdict reason t c :
  snd (finish reason t) = Some c ->
  c = (finishReason (fst (finish reason t)), isPassed (fst (finish reason t))).
Proof.
  rewrite finish_eq. destruct (finished t); [discriminate|].
  cbv zeta. cbn [fst snd]. destruct (pending t =? 0); [|discriminate].
  unfold _notifyFinish. cbn [_clientFinished].
  destruct (is_function (_clientFinished t)); [|discriminate].
  now intros [= <-].
Qed.

Lemma checkExpected_verdict t c :
  snd (_checkExpected t) = Some c ->
  c = (finishReason (fst (_checkExpected t)),
       isPassed (fst (_checkExpected t))).
Proof.
  rewrite checkExpected_eq.
  destruct (match expected t with Some e => e =? total t | None => false end);
    [apply finish_verdict | discriminate].
Qed.

Lemma method_ok_finish reason t :
  method_ok t (fst (finish reason t)) (snd (finish reason t)).
Proof.
  split; [|split; [|split; [|split]]].
  - apply finish_step.
  - apply tallied_finish.
  - apply grows_finish.
  - apply frozen_finish.
  - apply finish_verdict.
Qed.

Lemma method_ok_check result nm t :
  method_ok t (fst (fst (check result nm t))) (snd (check result nm t)).
Proof.
  split; [|split; [|split; [|split]]].
  - apply check_step.
  - apply tallied_check.
  - apply grows_check.
  - apply frozen_check.
  - destruct (finished t) eqn:Hf.
    + unfold check. rewrite Hf. discriminate.
    + rewrite check_eq by exact Hf. cbv zeta. cbn [fst snd].
      apply checkExpected_verdict.
Qed.

Lemma method_ok_onError err t :
  method_ok t (fst (_onError err t)) (snd (_onError err t)).
Proof.
  unfold _onError. split; [|split; [|split; [|split]]].
  - apply onError_step.
  - intros HT. now apply tallied_finish, tallied_error.
  - eapply grows_trans; [apply (grows_error err) | apply grows_finish].
  - eapply frozen_trans; [apply (frozen_error err) | apply frozen_finish].
  - apply finish_verdict.
Qed.

(** An operation either records no call, or is one method on one test
    followed by the routing of its call. *)
Lemma exec_calls o w :
  Inv None w ->
  calls (exec o w) = calls w \/
  exists i t t' out,
    heap w !! i = Some t /\ method_ok t t' out /\
    exec o w = notify i out (store i t' w).
Proof.
  intros HI.
  destruct o as [nm tmo cb | i | i body | i nm tmo body | i count
                | i result nm | i reason | i data | i data | i | i err];
    cbn [exec];
    try (destruct (heap w !! i) as [t|] eqn:Hi; [|now left]);
    try (now left).
  - destruct (finished t) eqn:Hf.
    + rewrite test_finished by exact Hf.
      cbn [receiver created notified to_run]. rewrite notify_none.
      now left.
    + pose proof (Inv_pending_nonneg _ _ _ _ HI Hi) as Hnn.
      destruct (test_step i (length (heap w)) nm tmo body t Hf Hnn)
        as (_ & _ & _ & Hno & c & Hc & _).
      rewrite Hc, Hno, notify_none. left. destruct (to_run _); reflexivity.
  - right. exists i, t, (fst (fst (check result nm t))),
      (snd (check result nm t)).
    split; [exact Hi|]. split; [apply method_ok_check|].
    destruct (check result nm t) as [[t' ret] out]. reflexivity.
  - right. exists i, t, (fst (finish reason t)), (snd (finish reason t)).
    split; [exact Hi|]. split; [apply method_ok_finish|].
    destruct (finish reason t) as [t' out]. reflexivity.
  - destruct (_timer t); [|now left].
    right. exists i, t, (fst (finish (VStr "timeout") t)),
      (snd (finish (VStr "timeout") t)).
    split; [exact Hi|]. split; [apply method_ok_finish|].
    destruct (finish (VStr "timeout") t) as [t' out]. reflexivity.
  - destruct (has_domain i w); [|now left].
    right. exists i, t, (fst (_onError err t)), (snd (_onError err t)).
    split; [exact Hi|]. split; [apply method_ok_onError|].
    destruct (_onError err t) as [t' out]. reflexivity.
Qed.

Lemma call_ok_mono w w' i c :
  (forall j tj,
      heap w !! j = Some tj ->
      exists t'', heap w' !! j = Some t'' /\ grows tj t'' /\ frozen tj t'') ->
  call_ok w i c -> call_ok w' i c.
Proof.
  intros Hrel (t & Hi & Hr & Hfr & Hok & Hpar).
  destruct (Hrel i t Hi) as (t' & Hi' & HG & HF).
  destruct (HF Hr) as (F1 & F2 & F3 & F4).
  destruct HG as (_ & _ & Gcb & _).
  exists t'. repeat apply conj.
  - exact Hi'.
  - now apply (frozen_resolved t t').
  - congruence.
  - exact Hok.
  - intros p Hcb. rewrite Gcb in Hcb.
    destruct (Hpar p Hcb) as (tp & Hp & Hcount).
    destruct (Hrel p tp Hp) as (tp' & Hp' & (_ & _ & _ & _ & P1 & P2 & _) & _).
    exists tp'. split; [exact Hp'|].
    destruct (negb (truthy (fst c)) && snd c); lia.
Qed.

Lemma isPassed_true t :
  isPassed t = true ->
  isComplete t = true /\ truthy (finishReason t) = false /\
  failed t = 0 /\ errors t = 0.
Proof.
  unfold isPassed. intros H.
  apply andb_true_iff in H as [H H4]. apply andb_true_iff in H as [H H3].
  apply andb_true_iff in H as [H1 H2].
  apply negb_true_iff in H2. apply Z.eqb_eq in H3, H4. auto.
Qed.

Lemma deliver_log fuel : forall k c w,
  (k <= fuel)%nat ->
  Inv (Some k) w ->
  (forall j tj, heap w !! j = Some tj -> tallied tj) ->
  (forall tk, heap w !! k = Some tk -> c = (finishReason tk, isPassed tk)) ->
  log_ok w ->
  log_ok (deliver fuel k (Some c) w).
Proof.
  induction fuel as [|fuel IH]; intros k [reason ok] w Hle HI Htal Hdue Hlog;
    destruct (inv_skip _ _ HI k eq_refl) as (t & Hk & Hres & Hfun & Hzero);
    rewrite deliver_some, Hk;
    pose proof (Hdue t Hk) as Hc; injection Hc as Hreason Hok;
    assert (Hverdict : ok = true -> truthy reason = false)
      by (intros ->; symmetry in Hok;
          destruct (isPassed_true t Hok) as (V1 & V2 & V3 & _);
          rewrite Hreason; auto);
    destruct (_clientFinished t) as [v|p] eqn:Hcb.
  1, 3: intros i c' Hin; cbn [calls record_call] in Hin;
    apply elem_of_app in Hin as [Hin|Hin];
    [ destruct (Hlog i c' Hin) as (ti & Hi & Hrest);
      exists ti; split; [exact Hi | exact Hrest]
    | apply list_elem_of_singleton in Hin; injection Hin as -> ->;
      exists t; repeat apply conj; auto; intros p Hp; congruence ].
  - pose proof (inv_parent _ _ HI k t p Hk Hcb). lia.
  - pose proof (inv_parent _ _ HI k t p Hk Hcb) as Hpk.
    assert (Hp : is_Some (heap w !! p)).
    { apply lookup_lt_is_Some_2. apply lookup_lt_Some in Hk. lia. }
    destruct Hp as [tp Hp]. rewrite Hp.
    pose proof (Inv_parent_pending w k t p tp HI Hk Hcb Hp) as Hone.
    pose proof (Inv_subtest_resolved w k t (reason, ok) p tp reason ok
                  HI Hk Hcb Hp) as Hnext.
    destruct (subtestFinished_step reason ok tp)
      as (Scb & Spe & Sfi & Sti & Sto & Sout).
    set (tp' := fst (_subtestFinished reason ok tp)) in *.
    set (w1 := store p tp' (record_call k (reason, ok) w)) in *.
    assert (Hp1 : heap w1 !! p = Some tp').
    { cbn. apply list_lookup_insert_eq. eapply lookup_lt_Some; eauto. }
    assert (Hk1 : heap w1 !! k = Some t).
    { cbn. rewrite list_lookup_insert_ne by lia. exact Hk. }
    assert (Hrel : forall j tj,
               heap w !! j = Some tj ->
               exists t'', heap w1 !! j = Some t'' /\
                           grows tj t'' /\ frozen tj t'').
    { intros j tj Hj. destruct (decide (j = p)) as [->|Hne].
      - assert (tj = tp) by congruence. subst tj. exists tp'.
        split; [exact Hp1|].
        split; [apply grows_subtestFinished
               | now apply frozen_subtestFinished].
      - exists tj. split.
        + cbn. rewrite list_lookup_insert_ne by congruence. exact Hj.
        + split; [apply grows_refl | apply frozen_refl]. }
    assert (Htal1 : forall j tj, heap w1 !! j = Some tj -> tallied tj).
    { intros j tj Hj. cbn in Hj. apply list_lookup_insert_Some in Hj.
      destruct Hj as [(<- & <- & _) | (_ & Hj)]; [|eauto].
      apply tallied_subtestFinished. eauto. }
    assert (Hlog1 : log_ok w1).
    { intros i c' Hin. cbn [calls w1 store record_call] in Hin.
      apply elem_of_app in Hin as [Hin|Hin].
      - apply (call_ok_mono w w1 i c' Hrel). now apply Hlog.
      - apply list_elem_of_singleton in Hin. injection Hin as -> ->.
        exists t. repeat apply conj; auto.
        intros p' Hp'. assert (p' = p) by congruence. subst p'.
        exists tp'. split; [exact Hp1|].
        destruct (Htal p tp Hp) as (_ & T2 & T3 & _).
        unfold tp'. rewrite subtestFinished_eq. cbn.
        destruct (negb (truthy reason) && ok); lia. }
    destruct (snd (_subtestFinished reason ok tp)) as [c''|] eqn:Hout.
    + apply IH; auto; [lia|].
      intros tk Hk'. assert (tk = tp') by congruence. subst tk.
      rewrite Sout in Hout.
      destruct (resolved tp' && is_function (_clientFinished tp));
        congruence.
    + rewrite deliver_none. exact Hlog1.
Qed.

Lemma exec_grows_frozen o w :
  Inv None w ->
  forall j tj,
    heap w !! j = Some tj ->
    exists t'', heap (exec o w) !! j = Some t'' /\
                grows tj t'' /\ frozen tj t''.
Proof.
  intros HI.
  apply (exec_related (fun a b => grows a b /\ frozen a b)); try exact HI.
  - intros t0. split; [apply grows_refl | apply frozen_refl].
  - intros a b c [G1 F1] [G2 F2].
    split; [eapply grows_trans | eapply frozen_trans]; eauto.
  - intros t0. split; [apply grows_ping | apply frozen_ping].
  - intros d t0. split; [apply grows_comment | apply frozen_comment].
  - intros d t0. split; [apply grows_error | apply frozen_error].
  - intros c t0. split; [apply grows_addExpected | apply frozen_addExpected].
  - intros r nm t0. split; [apply grows_check | apply frozen_check].
  - intros r t0. split; [apply grows_finish | apply frozen_finish].
  - intros self fresh nm tmo body t0 _.
    split; [apply grows_test | apply frozen_test].
  - intros r ok t0 Hp.
    split; [apply grows_subtestFinished | now apply frozen_subtestFinished].
Qed.

Lemma exec_tallied o w :
  Inv None w ->
  (forall j tj, heap w !! j = Some tj -> tallied tj) ->
  forall j tj, heap (exec o w) !! j = Some tj -> tallied tj.
Proof.
  apply (exec_invariant tallied); intros.
  - apply tallied_new.
  - now apply tallied_ping.
  - now apply tallied_comment.
  - now apply tallied_error.
  - now apply tallied_addExpected.
  - now apply tallied_check.
  - now apply tallied_finish.
  - now apply tallied_test.
  - now apply tallied_subtestFinished.
Qed.

Lemma notify_log w i t t' out :
  Inv None w ->
  (forall j tj, heap w !! j = Some tj -> tallied tj) ->
  log_ok w ->
  heap w !! i = Some t ->
  method_ok t t' out ->
  log_ok (notify i out (store i t' w)).
Proof.
  intros HI Htal Hlog Hi (Hstep & Ht & HG & HF & Hv).
  assert (Hi' : heap (store i t' w) !! i = Some t').
  { cbn. apply list_lookup_insert_eq. eapply lookup_lt_Some; eauto. }
  assert (Hlog1 : log_ok (store i t' w)).
  { intros j c Hin. cbn [calls store] in Hin.
    apply (call_ok_mono w); [|now apply Hlog].
    intros k tk Hk. destruct (decide (k = i)) as [->|Hne].
    - assert (tk = t) by congruence. subst tk. eauto.
    - exists tk. split.
      + cbn. rewrite list_lookup_insert_ne by congruence. exact Hk.
      + split; [apply grows_refl | apply frozen_refl]. }
  unfold notify. destruct out as [c|]; [|now rewrite deliver_none].
  destruct Hstep as (Hcb & Hp & Htm & Hout).
  apply deliver_log; auto.
  - apply (Inv_store (Some i) w i t t'); auto.
  - intros j tj Hj. cbn in Hj. apply list_lookup_insert_Some in Hj.
    destruct Hj as [(<- & <- & _) | (_ & Hj)]; eauto.
  - intros tk Hk. assert (tk = t') by congruence. subst tk. now apply Hv.
Qed.

Lemma exec_log o w :
  Inv None w ->
  (forall j tj, heap w !! j = Some tj -> tallied tj) ->
  log_ok w ->
  log_ok (exec o w).
Proof.
  intros HI Htal Hlog.
  destruct (exec_calls o w HI)
    as [Hsame | (i & t & t' & out & Hi & Hm & ->)].
  - intros j c Hin. rewrite Hsame in Hin.
    apply (call_ok_mono w); [|now apply Hlog].
    now apply exec_grows_frozen.
  - now apply (notify_log w i t).
Qed.

Lemma run_log ops : forall w,
  Inv None w ->
  (forall j tj, heap w !! j = Some tj -> tallied tj) ->
  log_ok w ->
  log_ok (run_ops ops w).
Proof.
  induction ops as [|o ops IH]; intros w HI Htal Hlog; [exact Hlog|].
  cbn [run_ops fold_left]. apply IH.
  - now apply Inv_exec.
  - now apply exec_tallied.
  - now apply exec_log.
Qed.

Lemma start_log ops : log_ok (run_ops ops start).
Proof.
  apply run_log; [apply Inv_start | |].
  - intros j tj. cbn. rewrite lookup_nil. discriminate.
  - intros j c Hin. cbn in Hin. inversion Hin.
Qed.

(** A subtest that is not open for its parent has made its call. *)
Lemma open_children_zero p cs h : forall base k tk,
  open_children p cs base h = 0 ->
  h !! k = Some tk ->
  _clientFinished tk = SubtestFinished p ->
  times_notified (base + k) cs <> 0%nat.
Proof.
  induction h as [|t h IH]; intros base k tk Hz Hk Hcb; [discriminate|].
  cbn [open_children] in Hz.
  pose proof (open_children_nonneg p cs h (S base)) as Hnn.
  destruct k as [|k]; cbn in Hk.
  - injection Hk as ->. rewrite Nat.add_0_r.
    destruct (is_open p cs base tk) eqn:Ho; [lia|].
    intros Hn. assert (is_open p cs base tk = true)
      by (apply is_open_true; auto).
    congruence.
  - replace (base + S k)%nat with (S base + k)%nat by lia.
    apply (IH (S base) k tk); auto.
    destruct (is_open p cs base t); lia.
Qed.

Lemma times_notified_elem i cs :
  times_notified i cs <> 0%nat -> exists c, (i, c) ∈ cs.
Proof.
  unfold times_notified. intros Hn.
  destruct (filter (fun c => fst c = i) cs) as [|[j c] l] eqn:Hf;
    [contradiction|].
  assert (Hin : (j, c) ∈ filter (fun c => fst c = i) cs)
    by (rewrite Hf; apply elem_of_cons; auto).
  apply list_elem_of_filter in Hin as [Hj Hin]. cbn in Hj. subst j.
  eauto.
Qed.

(** X6. In every run a recorded completion call was made by a test whose
    callback is a function and that is finished with nothing pending, and
    the reason it carries is the [finishReason] the test has, also after
    any later operation; a verdict of [true] was only ever passed along
    with a falsy reason. *)
Theorem recorded_calls_faithful (ops : list op) (i : nat) (reason : jsval)
    (ok : bool) :
  (i, (reason, ok)) ∈ calls (run_ops ops start) ->
  exists t,
    heap (run_ops ops start) !! i = Some t /\
    is_function (_clientFinished t) = true /\
    finished t = true /\ pending t = 0 /\ finishReason t = reason /\
    (ok = true -> truthy reason = false).
Proof.
  intros Hin.
  destruct (start_log ops i (reason, ok) Hin)
    as (t & Hi & Hr & Hfr & Hok & _).
  exists t. apply andb_true_iff in Hr as [Hf Hp]. apply Z.eqb_eq in Hp.
  pose proof (Inv_run_ops ops start Inv_start) as HI.
  assert (Hfun : is_function (_clientFinished t) = true).
  { destruct (is_function (_clientFinished t)) eqn:E; [reflexivity|].
    pose proof (inv_notified _ _ HI i t Hi ltac:(discriminate)) as Hn.
    rewrite E in Hn. cbn in Hn.
    unfold times_notified in Hn.
    assert (Hin' : (i, (reason, ok))
                     ∈ filter (fun c => fst c = i) (calls (run_ops ops start)))
      by (apply list_elem_of_filter; auto).
    destruct (filter _ _); [inversion Hin' | discriminate]. }
  repeat apply conj; auto.
Qed.

(** X7. In every run the call a subtest has made is counted by its parent:
    a report without reason and with verdict [true] is in the parent's
    [passed]; any other report is in the parent's [failed], and [isPassed]
    of the parent is false from then on. *)
Theorem subtest_report_counted (ops : list op) (j p : nat) (tj : Test)
    (reason : jsval) (ok : bool) :
  (j, (reason, ok)) ∈ calls (run_ops ops start) ->
  heap (run_ops ops start) !! j = Some tj ->
  _clientFinished tj = SubtestFinished p ->
  exists tp,
    heap (run_ops ops start) !! p = Some tp /\
    if negb (truthy reason) && ok
    then 1 <= passed tp
    else 1 <= failed tp /\ isPassed tp = false.
Proof.
  intros Hin Hj Hcb.
  destruct (start_log ops j (reason, ok) Hin) as (t & Hj' & _ & _ & _ & Hpar).
  assert (t = tj) by congruence. subst t.
  destruct (Hpar p Hcb) as (tp & Hp & Hcount). cbn [fst snd] in Hcount.
  exists tp. split; [exact Hp|].
  destruct (negb (truthy reason) && ok); [exact Hcount|].
  split; [exact Hcount|].
  unfold isPassed. destruct (Z.eqb_spec (failed tp) 0); [lia|].
  now rewrite andb_false_r.
Qed.

(** X8. In every run, when [isPassed] holds for a test, each of its subtests
    has made its completion call, with a falsy reason and the verdict
    [true], and is finished with nothing pending. *)
Theorem passed_test_has_passed_subtests (ops : list op) (p j : nat)
    (tp tj : Test) :
  heap (run_ops ops start) !! p = Some tp ->
  isPassed tp = true ->
  heap (run_ops ops start) !! j = Some tj ->
  _clientFinished tj = SubtestFinished p ->
  (j, (finishReason tj, true)) ∈ calls (run_ops ops start) /\
  finished tj = true /\ pending tj = 0 /\
  truthy (finishReason tj) = false.
Proof.
  intros Hp Hpass Hj Hcb.
  pose proof (Inv_run_ops ops start Inv_start) as HI.
  destruct (isPassed_true tp Hpass) as (Hc & _ & Hfail & _).
  assert (Hpend : pending tp = 0).
  { unfold isComplete in Hc. apply andb_true_iff in Hc as [Hc _].
    apply andb_true_iff in Hc as [_ Hc]. now apply Z.eqb_eq in Hc. }
  assert (Hn : times_notified j (calls (run_ops ops start)) <> 0%nat).
  { apply (open_children_zero p _ (heap (run_ops ops start)) 0%nat j tj);
      auto.
    now rewrite <- (inv_pending _ _ HI p tp Hp). }
  destruct (times_notified_elem _ _ Hn) as ([reason ok] & Hin).
  destruct (start_log ops j (reason, ok) Hin)
    as (t & Hj' & Hr & Hfr & Hok & Hpar).
  assert (t = tj) by congruence. subst t.
  destruct (Hpar p Hcb) as (tp0 & Hp0 & Hcount).
  assert (tp0 = tp) by congruence. subst tp0. cbn [fst snd] in *.
  destruct (negb (truthy reason) && ok) eqn:Hb; [|lia].
  apply andb_true_iff in Hb as [_ ->].
  pose proof (Hok eq_refl) as O1.
  apply andb_true_iff in Hr as [Hf Hq]. apply Z.eqb_eq in Hq.
  subst reason. repeat apply conj; auto.
Qed.

(** ** Further properties of single methods *)

Lemma isPassed_reason t : truthy (finishReason t) = true -> isPassed t = false.
Proof.
  intros H. unfold isPassed. rewrite H. cbn.
  now rewrite andb_false_r.
Qed.

(** X9. [_onError] first records the error it was given and then finishes
    the test with reason ["bail"]: on a test that is not finished the two
    annotations follow each other in that order, [errors] is two higher, and
    the completion call, made when nothing is pending, carries ["bail"] and
    the verdict [false].  On a finished test the second annotation is the
    one of the rejected [finish], and no call is made. *)
Theorem onError_bails (err : jsval) (t : Test) :
  contents (fst (_onError err t))
  = contents t
    ++ [Annotation "error" err;
        Annotation "error"
          (VStr (if finished t
                 then "An extra attempt was made to finish the test, "
                      +:+ "the reason this time was: 'bail'"
                 else "Test bailed due to an uncaught exception."))] /\
  errors (fst (_onError err t)) = errors t + 2 /\
  finished (fst (_onError err t)) = true /\
  finishReason (fst (_onError err t))
  = (if finished t then finishReason t else VStr "bail") /\
  passed (fst (_onError err t)) = passed t /\
  failed (fst (_onError err t)) = failed t /\
  total (fst (_onError err t)) = total t /\
  pending (fst (_onError err t)) = pending t /\
  snd (_onError err t)
  = (if negb (finished t) && (pending t =? 0)
        && is_function (_clientFinished t)
     then Some (VStr "bail", false) else None).
Proof.
  unfold _onError. rewrite finish_eq, error_eq. cbn.
  destruct (finished t) eqn:Hf.
  - rewrite error_eq. cbn. rewrite <- app_assoc.
    repeat apply conj; try reflexivity. lia.
  - cbv zeta. cbn. unfold finish_note.
    change (truthy (VStr "bail")) with true.
    change (strict_eq_str (VStr "bail") "bail") with true. cbv iota.
    rewrite <- app_assoc.
    repeat apply conj; try reflexivity; try lia.
    destruct (pending t =? 0); [|reflexivity].
    unfold _notifyFinish. cbn.
    destruct (is_function (_clientFinished t)); [|reflexivity].
    now rewrite isPassed_reason.
Qed.

(** X10. [finish(reason)] on a test that is not finished, has nothing
    pending and a function as callback calls it with [reason] and with the
    verdict: [true] exactly when there is no reason, [expected] is [null]
    or equal to [total], and [failed] and [errors] are 0. *)
Theorem finish_reports_verdict (reason : jsval) (t : Test) :
  finished t = false ->
  pending t = 0 ->
  is_function (_clientFinished t) = true ->
  snd (finish reason t)
  = Some (reason,
          match expected t with None => true | Some e => e =? total t end
          && negb (truthy reason) && (failed t =? 0) && (errors t =? 0)).
Proof.
  intros Hf Hp Hfun. rewrite finish_eq, Hf. cbv zeta. cbn [snd].
  rewrite Hp. cbn. unfold _notifyFinish. cbn. rewrite Hfun.
  unfold isPassed, isComplete. cbn.
  destruct (truthy reason); cbn.
  - now rewrite !andb_false_r.
  - now rewrite Z.add_0_r.
Qed.



(** [comment] is never rejected: on any test, finished or not, it appends
    one comment annotation and changes neither a counter, nor [finished],
    [finishReason] or [expected], nor the outcome of [isComplete] and
    [isPassed]. *)
Lemma comment_keeps_verdict (data : jsval) (t : Test) :
  contents (comment data t) = contents t ++ [Annotation "comment" data] /\
  passed (comment data t) = passed t /\ failed (comment data t) = failed t /\
  total (comment data t) = total t /\ pending (comment data t) = pending t /\
  errors (comment data t) = errors t /\
  expected (comment data t) = expected t /\
  finished (comment data t) = finished t /\
  finishReason (comment data t) = finishReason t /\
  isComplete (comment data t) = isComplete t /\
  isPassed (comment data t) = isPassed t.
Proof. rewrite comment_eq. repeat apply conj; reflexivity. Qed.

(** ** The subtests listed in [contents] *)

Lemma subtest_refs_app l l' :
  subtest_refs (l ++ l') = subtest_refs l ++ subtest_refs l'.
Proof.
  induction l as [|e l IH]; [reflexivity|].
  destruct e; cbn; now rewrite IH.
Qed.

Lemma subtest_refs_elem r l : r ∈ subtest_refs l <-> Subtest r ∈ l.
Proof.
  induction l as [|e l IH]; cbn.
  - split; intros H; inversion H.
  - rewrite (elem_of_cons l).
    destruct e as [nm b|kind d|r0]; cbn [subtest_refs];
      rewrite ?elem_of_cons, IH.
    + split; [intros H; now right | intros [H|H]; [discriminate | exact H]].
    + split; [intros H; now right | intros [H|H]; [discriminate | exact H]].
    + split; intros [H|H];
        [left; congruence | now right | left; congruence | now right].
Qed.

Lemma same_refs_refl t : same_refs t t.
Proof. split; reflexivity. Qed.

Lemma same_refs_trans a b c : same_refs a b -> same_refs b c -> same_refs a c.
Proof. intros [A1 A2] [B1 B2]. split; congruence. Qed.

Lemma same_refs_ping t : same_refs t (ping t).
Proof. rewrite ping_eq. split; reflexivity. Qed.

Lemma same_refs_comment d t : same_refs t (comment d t).
Proof.
  rewrite comment_eq. split; [reflexivity|]. cbn.
  rewrite subtest_refs_app. cbn. apply app_nil_r.
Qed.

Lemma same_refs_error d t : same_refs t (error d t).
Proof.
  rewrite error_eq. split; [reflexivity|]. cbn.
  rewrite subtest_refs_app. cbn. apply app_nil_r.
Qed.

Lemma same_refs_finish reason t : same_refs t (fst (finish reason t)).
Proof.
  rewrite finish_eq. destruct (finished t); [apply same_refs_error|].
  split; [reflexivity|]. cbn. rewrite subtest_refs_app. unfold finish_note.
  destruct (truthy reason); cbn; apply app_nil_r.
Qed.

Lemma same_refs_checkExpected t : same_refs t (fst (_checkExpected t)).
Proof.
  rewrite checkExpected_eq.
  destruct (match expected t with Some e => e =? total t | None => false end);
    [apply same_refs_finish | apply same_refs_refl].
Qed.

Lemma same_refs_addExpected count t : same_refs t (addExpected count t).
Proof.
  unfold addExpected. destruct (finished t); cbn [negb].
  - apply same_refs_error.
  - rewrite ping_eq.
    destruct t as [cb nm cs np nf ex tot pend fin fr err tmo tmr].
    norm. destruct ex; split; reflexivity.
Qed.

Lemma same_refs_check result nm t :
  same_refs t (fst (fst (check result nm t))).
Proof.
  destruct (finished t) eqn:Hf.
  - unfold check. rewrite Hf. cbn [negb fst]. apply same_refs_error.
  - rewrite check_eq by exact Hf. cbv zeta. cbn [fst].
    eapply same_refs_trans; [|apply same_refs_checkExpected].
    split; [reflexivity|]. cbn. rewrite !subtest_refs_app. cbn.
    destruct (truthy (snd (check_result result))); cbn; apply app_nil_r.
Qed.

Lemma same_refs_onError err t : same_refs t (fst (_onError err t)).
Proof.
  unfold _onError.
  eapply same_refs_trans; [apply (same_refs_error err) | apply same_refs_finish].
Qed.

Lemma same_refs_subtestFinished reason ok t :
  same_refs t (fst (_subtestFinished reason ok t)).
Proof. rewrite subtestFinished_eq. split; reflexivity. Qed.

Lemma test_refs self fresh nm tmo body t :
  finished t = false ->
  _clientFinished (receiver (test self fresh nm tmo body t))
  = _clientFinished t /\
  subtest_refs (contents (receiver (test self fresh nm tmo body t)))
  = subtest_refs (contents t) ++ [fresh].
Proof.
  intros Hf. rewrite test_eq by exact Hf. cbv zeta.
  match goal with |- context [_checkExpected ?x] =>
    destruct (same_refs_checkExpected x) as [H1 H2] end.
  cbn in H1, H2. rewrite subtest_refs_app in H2. cbn in H2.
  destruct (match tmo with TFunction f => VFun f | _ => body end);
    cbn [receiver]; auto.
Qed.

(** ** A finished test takes no more subtests *)

Lemma closed_refl t : closed t t.
Proof. intros Hf. repeat split; auto; lia. Qed.

Lemma closed_trans a b c : closed a b -> closed b c -> closed a c.
Proof.
  intros Hab Hbc Hf. destruct (Hab Hf) as (A1 & A2 & A3).
  destruct (Hbc A1) as (B1 & B2 & B3).
  repeat split; [exact B1 | congruence | lia].
Qed.

Lemma closed_ping t : closed t (ping t).
Proof. rewrite ping_eq. intros Hf. cbn. repeat split; auto; lia. Qed.

Lemma closed_comment d t : closed t (comment d t).
Proof.
  intros Hf. destruct (same_refs_comment d t) as [_ Hr].
  rewrite comment_eq in *. cbn in *. repeat split; auto; lia.
Qed.

Lemma closed_error d t : closed t (error d t).
Proof.
  intros Hf. destruct (same_refs_error d t) as [_ Hr].
  rewrite error_eq in *. cbn in *. repeat split; auto; lia.
Qed.

Lemma closed_finish reason t : closed t (fst (finish reason t)).
Proof. intros Hf. rewrite finish_eq, Hf. now apply closed_error. Qed.

Lemma closed_addExpected count t : closed t (addExpected count t).
Proof. intros Hf. unfold addExpected. rewrite Hf. now apply closed_error. Qed.

Lemma closed_check result nm t : closed t (fst (fst (check result nm t))).
Proof. intros Hf. unfold check. rewrite Hf. now apply closed_error. Qed.

Lemma closed_test self fresh nm tmo body t :
  closed t (receiver (test self fresh nm tmo body t)).
Proof.
  intros Hf. rewrite test_finished by exact Hf. now apply closed_error.
Qed.

Lemma closed_subtestFinished reason ok t :
  closed t (fst (_subtestFinished reason ok t)).
Proof.
  intros Hf. rewrite subtestFinished_eq. cbn. repeat split; auto; lia.
Qed.

(** X5. Once a test is finished, no later operation re-opens it or adds a
    subtest to its [contents], and [pending] never goes up again and never
    below zero: a test that is finished with nothing pending stays so. *)
Theorem finished_tests_take_no_subtests (ops ops' : list op) (i : nat)
    (t : Test) :
  heap (run_ops ops start) !! i = Some t ->
  finished t = true ->
  exists t',
    heap (run_ops (ops ++ ops') start) !! i = Some t' /\
    finished t' = true /\
    subtest_refs (contents t') = subtest_refs (contents t) /\
    0 <= pending t' <= pending t /\
    (pending t = 0 -> pending t' = 0).
Proof.
  intros Hi Hf.
  assert (H : exists t',
             heap (run_ops (ops ++ ops') start) !! i = Some t' /\ closed t t').
  { rewrite run_ops_app.
    apply (run_related closed);
      try (exact Hi); try (apply Inv_run_ops, Inv_start).
    - apply closed_refl.
    - apply closed_trans.
    - apply closed_ping.
    - apply closed_comment.
    - apply closed_error.
    - apply closed_addExpected.
    - apply closed_check.
    - apply closed_finish.
    - intros self fresh nm tmo body t0 _. apply closed_test.
    - intros r ok t0 _. apply closed_subtestFinished. }
  destruct H as (t' & Hi' & Hc). destruct (Hc Hf) as (C1 & C2 & C3).
  pose proof (Inv_pending_nonneg _ _ _ _
                (Inv_run_ops (ops ++ ops') start Inv_start) Hi') as Hnn.
  exists t'. repeat apply conj; auto; lia.
Qed.

(** ** The subtests a test has created *)

Lemma children_from_app p t h : forall base,
  children_from p base (h ++ [t])
  = children_from p base h
    ++ match _clientFinished t with
       | SubtestFinished q =>
           if Nat.eqb q p then [(base + length h)%nat] else []
       | Client _ => []
       end.
Proof.
  induction h as [|t0 h IH]; intros base; cbn [children_from app length].
  - rewrite Nat.add_0_r. now rewrite app_nil_r.
  - rewrite IH, <- app_assoc.
    now replace (S base + length h)%nat with (base + S (length h))%nat by lia.
Qed.

Lemma children_from_insert p k t' h : forall base t,
  h !! k = Some t ->
  _clientFinished t' = _clientFinished t ->
  children_from p base (<[k := t']> h) = children_from p base h.
Proof.
  revert k. induction h as [|t0 h IH]; intros k base t Hk Hcb.
  - discriminate.
  - destruct k as [|k]; cbn in Hk |- *.
    + injection Hk as ->. now rewrite Hcb.
    + f_equal. now apply (IH k (S base) t).
Qed.

Lemma children_from_none p h : forall base,
  (forall k t, h !! k = Some t -> _clientFinished t <> SubtestFinished p) ->
  children_from p base h = [].
Proof.
  induction h as [|t h IH]; intros base Hno; cbn [children_from];
    [reflexivity|].
  rewrite IH by (intros k t' Hk; apply (Hno (S k) t' Hk)).
  pose proof (Hno 0%nat t eq_refl) as H0.
  destruct (_clientFinished t) as [v|q]; [reflexivity|].
  destruct (Nat.eqb_spec q p); [congruence | reflexivity].
Qed.

Lemma children_from_elem p r h : forall base,
  r ∈ children_from p base h <->
  exists k c,
    r = (base + k)%nat /\ h !! k = Some c /\
    _clientFinished c = SubtestFinished p.
Proof.
  induction h as [|t h IH]; intros base; cbn [children_from].
  - split; [intros H; inversion H | intros (k & c & _ & H & _); discriminate].
  - rewrite elem_of_app, IH. split.
    + intros [H | (k & c & -> & Hk & Hc)].
      * destruct (_clientFinished t) as [v|q] eqn:Hcb; [inversion H|].
        destruct (Nat.eqb_spec q p); [|inversion H].
        apply list_elem_of_singleton in H. subst.
        exists 0%nat, t. rewrite Nat.add_0_r. auto.
      * exists (S k), c. split; [lia | auto].
    + intros (k & c & -> & Hk & Hc). destruct k as [|k]; cbn in Hk.
      * injection Hk as ->. left. rewrite Hc, Nat.eqb_refl, Nat.add_0_r.
        apply list_elem_of_singleton. reflexivity.
      * right. exists k, c. split; [lia | auto].
Qed.

Lemma children_from_NoDup p h : forall base, NoDup (children_from p base h).
Proof.
  induction h as [|t h IH]; intros base; cbn [children_from];
    [constructor|].
  assert (Hfresh : base ∉ children_from p (S base) h).
  { intros Hin. apply children_from_elem in Hin as (k & _ & Hk & _). lia. }
  destruct (_clientFinished t) as [v|q]; [apply IH|].
  destruct (Nat.eqb q p); [|apply IH].
  cbn. constructor; [exact Hfresh | apply IH].
Qed.

Lemma open_children_count p cs h : forall base,
  open_children p cs base h
  = count_refs (fun r => Nat.eqb (times_notified r cs) 0)
      (children_from p base h).
Proof.
  induction h as [|t h IH]; intros base; cbn [open_children children_from];
    [reflexivity|].
  rewrite IH. unfold is_open.
  destruct (_clientFinished t) as [v|q]; [cbn; lia|].
  destruct (Nat.eqb q p); cbn; [reflexivity | lia].
Qed.

Lemma count_refs_ext f g l :
  (forall r, r ∈ l -> f r = g r) -> count_refs f l = count_refs g l.
Proof.
  induction l as [|r l IH]; intros H; cbn [count_refs]; [reflexivity|].
  rewrite (H r) by (apply elem_of_cons; auto).
  rewrite IH; [reflexivity|]. intros r' Hr'. apply H, elem_of_cons. auto.
Qed.

Lemma listed_store w i t t' :
  listed_ok w -> heap w !! i = Some t -> same_refs t t' ->
  listed_ok (store i t' w).
Proof.
  intros K Hi [Hcb Hrefs] j tj Hj. cbn [heap store] in *.
  rewrite (children_from_insert _ _ _ _ _ t Hi Hcb).
  apply list_lookup_insert_Some in Hj as [(<- & <- & _) | (_ & Hj)].
  - rewrite Hrefs. now apply K.
  - now apply K.
Qed.

Lemma listed_deliver fuel : forall k out w,
  listed_ok w -> listed_ok (deliver fuel k out w).
Proof.
  induction fuel as [|fuel IH]; intros k [[reason ok]|] w K;
    rewrite ?deliver_none; try exact K; rewrite deliver_some;
    destruct (heap w !! k) as [t|]; try exact K;
    destruct (_clientFinished t) as [v|p]; try exact K.
  destruct (heap w !! p) as [tp|] eqn:Hp; [|exact K].
  apply IH. apply (listed_store _ p tp); [exact K | exact Hp |].
  apply same_refs_subtestFinished.
Qed.

Lemma listed_step w i t t' out :
  listed_ok w -> heap w !! i = Some t -> same_refs t t' ->
  listed_ok (notify i out (store i t' w)).
Proof.
  intros K Hi Hs. apply listed_deliver. now apply (listed_store w i t).
Qed.

Lemma no_child_of_fresh w :
  Inv None w ->
  forall k t,
    heap w !! k = Some t ->
    _clientFinished t <> SubtestFinished (length (heap w)).
Proof.
  intros HI k t Hk Hc. pose proof (inv_parent _ _ HI k t _ Hk Hc).
  apply lookup_lt_Some in Hk. lia.
Qed.

Lemma listed_alloc_root w nm tmo cb :
  Inv None w -> listed_ok w ->
  listed_ok (alloc (new_Test nm tmo (Client cb)) w).
Proof.
  intros HI K j tj Hj. cbn [heap alloc] in *.
  rewrite children_from_app.
  assert (Hc : exists v,
             _clientFinished (new_Test nm tmo (Client cb)) = Client v)
    by (rewrite new_Test_eq; destruct tmo; cbn; eauto).
  destruct Hc as [v Hc]. rewrite Hc, app_nil_r.
  apply lookup_snoc_Some in Hj as [[_ Hj] | [-> <-]]; [now apply K|].
  rewrite new_Test_eq. cbn [contents subtest_refs]. symmetry.
  apply children_from_none. now apply no_child_of_fresh.
Qed.

Lemma listed_alloc_child w i t nm tmo body :
  Inv None w -> listed_ok w ->
  heap w !! i = Some t ->
  finished t = false ->
  listed_ok
    (alloc (new_Test nm
              (match tmo with TFunction _ => TUndefined | _ => tmo end)
              (SubtestFinished i))
       (store i (receiver (test i (length (heap w)) nm tmo body t)) w)).
Proof.
  intros HI K Hi Hf j tj Hj. cbn [heap alloc store] in *.
  destruct (test_refs i (length (heap w)) nm tmo body t Hf) as [Hcb Hrefs].
  assert (Hlt : (i < length (heap w))%nat) by (eapply lookup_lt_Some; eauto).
  assert (Hc : _clientFinished
                 (new_Test nm
                    (match tmo with TFunction _ => TUndefined | _ => tmo end)
                    (SubtestFinished i)) = SubtestFinished i)
    by (rewrite new_Test_eq; destruct tmo; reflexivity).
  rewrite children_from_app, Hc, length_insert.
  rewrite (children_from_insert _ _ _ _ _ t Hi Hcb). cbn [Nat.add].
  apply lookup_snoc_Some in Hj. rewrite length_insert in Hj.
  destruct Hj as [[_ Hj] | [-> <-]].
  - apply list_lookup_insert_Some in Hj as [(<- & <- & _) | (Hne & Hj)].
    + rewrite Nat.eqb_refl, Hrefs. f_equal. now apply K.
    + destruct (Nat.eqb_spec i j); [congruence|].
      rewrite app_nil_r. now apply K.
  - destruct (Nat.eqb_spec i (length (heap w))); [lia|].
    rewrite app_nil_r, new_Test_eq. cbn [contents subtest_refs]. symmetry.
    apply children_from_none. now apply no_child_of_fresh.
Qed.

Lemma listed_exec o w : Inv None w -> listed_ok w -> listed_ok (exec o w).
Proof.
  intros HI K.
  destruct o as [nm tmo cb | i | i body | i nm tmo body | i count
                | i result nm | i reason | i data | i data | i | i err];
    cbn [exec];
    try (destruct (heap w !! i) as [t|] eqn:Hi; [|exact K]).
  - now apply listed_alloc_root.
  - apply (listed_store w i t); auto. apply same_refs_ping.
  - exact K.
  - destruct (finished t) eqn:Hf.
    + rewrite test_finished by exact Hf.
      cbn [receiver created notified to_run].
      apply (listed_step w i t); auto. apply same_refs_error.
    + pose proof (Inv_pending_nonneg _ _ _ _ HI Hi) as Hnn.
      destruct (test_step i (length (heap w)) nm tmo body t Hf Hnn)
        as (_ & _ & _ & Hno & _).
      rewrite (test_created _ _ _ _ _ _ Hf), Hno, notify_none.
      pose proof (listed_alloc_child w i t nm tmo body HI K Hi Hf) as K'.
      destruct (to_run _); exact K'.
  - apply (listed_store w i t); auto. apply same_refs_addExpected.
  - pose proof (same_refs_check result nm t) as Hs.
    destruct (check result nm t) as [[t' ret] out].
    now apply (listed_step w i t).
  - pose proof (same_refs_finish reason t) as Hs.
    destruct (finish reason t) as [t' out].
    now apply (listed_step w i t).
  - apply (listed_store w i t); auto. apply same_refs_comment.
  - apply (listed_store w i t); auto. apply same_refs_error.
  - destruct (_timer t); [|exact K].
    pose proof (same_refs_finish (VStr "timeout") t) as Hs.
    destruct (finish (VStr "timeout") t) as [t' out].
    now apply (listed_step w i t).
  - destruct (has_domain i w); [|exact K].
    pose proof (same_refs_onError err t) as Hs.
    destruct (_onError err t) as [t' out].
    now apply (listed_step w i t).
Qed.

Lemma run_listed ops : forall w,
  Inv None w -> listed_ok w -> listed_ok (run_ops ops w).
Proof.
  induction ops as [|o ops IH]; intros w HI K; [exact K|].
  cbn [run_ops fold_left]. apply IH; [now apply Inv_exec|].
  now apply listed_exec.
Qed.

Lemma start_listed ops : listed_ok (run_ops ops start).
Proof.
  apply run_listed; [apply Inv_start|].
  intros j tj. cbn. rewrite lookup_nil. discriminate.
Qed.

(** X14. In every run the subtests listed in the [contents] of a test are
    exactly the objects that were constructed with its [_subtestFinished]
    as callback; each is listed once, and was allocated after the test. *)
Theorem contents_list_the_subtests (ops : list op) (i : nat) (t : Test) :
  heap (run_ops ops start) !! i = Some t ->
  NoDup (subtest_refs (contents t)) /\
  forall r,
    Subtest r ∈ contents t <->
    exists c,
      heap (run_ops ops start) !! r = Some c /\
      _clientFinished c = SubtestFinished i /\ (i < r)%nat.
Proof.
  intros Hi. pose proof (start_listed ops i t Hi) as K.
  pose proof (Inv_run_ops ops start Inv_start) as HI.
  split.
  - rewrite K. apply children_from_NoDup.
  - intros r. rewrite <- subtest_refs_elem, K, children_from_elem.
    cbn [Nat.add]. split.
    + intros (k & c & -> & Hk & Hc). exists c.
      split; [exact Hk|]. split; [exact Hc|].
      exact (inv_parent _ _ HI k c i Hk Hc).
    + intros (c & Hr & Hc & _). eauto.
Qed.

(** X15. In every run [pending] is the number of the subtests listed in
    [contents] that are not yet finished with nothing pending. *)
Theorem pending_counts_unresolved (ops : list op) (i : nat) (t : Test) :
  heap (run_ops ops start) !! i = Some t ->
  pending t
  = count_refs (unresolved (run_ops ops start)) (subtest_refs (contents t)).
Proof.
  intros Hi. pose proof (start_listed ops i t Hi) as K.
  pose proof (Inv_run_ops ops start Inv_start) as HI.
  rewrite (inv_pending _ _ HI i t Hi), open_children_count, K.
  apply count_refs_ext. intros r Hr.
  apply children_from_elem in Hr as (k & c & -> & Hk & Hc).
  cbn [Nat.add]. unfold unresolved. rewrite Hk.
  rewrite (inv_notified _ _ HI k c Hk) by discriminate.
  rewrite Hc. cbn. now destruct (resolved c).
Qed.

(** X13. In every run, annotations are accepted by any test, finished or
    not, and leave [passed], [failed], [total], [pending], [finished] and
    the outcome of [isComplete] as they are; a comment also leaves [errors]
    and the outcome of [isPassed] alone, whereas after an error annotation
    [isPassed] is false. *)
Theorem annotations_and_verdict (ops : list op) (i : nat) (t : Test)
    (data : jsval) :
  heap (run_ops ops start) !! i = Some t ->
  (contents (comment data t) = contents t ++ [Annotation "comment" data] /\
   errors (comment data t) = errors t /\
   isComplete (comment data t) = isComplete t /\
   isPassed (comment data t) = isPassed t) /\
  (contents (error data t) = contents t ++ [Annotation "error" data] /\
   errors (error data t) = errors t + 1 /\
   isComplete (error data t) = isComplete t /\
   isPassed (error data t) = false) /\
  (passed (comment data t) = passed t /\ passed (error data t) = passed t /\
   failed (comment data t) = failed t /\ failed (error data t) = failed t /\
   total (comment data t) = total t /\ total (error data t) = total t /\
   pending (comment data t) = pending t /\
   pending (error data t) = pending t /\
   finished (comment data t) = finished t /\
   finished (error data t) = finished t).
Proof.
  intros Hi.
  destruct (run_tallied ops i t Hi) as (_ & _ & _ & H4 & _).
  pose proof (count_entries_nonneg is_error_note (contents t)) as Hnn.
  rewrite comment_eq, error_eq.
  split; [|split]; repeat apply conj; try reflexivity.
  unfold isPassed. cbn.
  destruct (Z.eqb_spec (errors t + 1) 0); [lia|].
  now rewrite andb_false_r.
Qed.

(** ** Handing over a subtest, and adding up expectations *)

(** X16. In every run, [test] on a test that is not finished allocates the
    new subtest at the next free reference and records no completion call.
    Given a body (in either position) it returns nothing and queues one
    run of the body against the new subtest; given none it returns the
    reference of the new subtest and queues nothing. *)
Theorem test_hands_over_subtest (ops : list op) (i : nat) (t : Test)
    (nm : string) (tmo : timeout_arg) (body : jsval) :
  heap (run_ops ops start) !! i = Some t ->
  finished t = false ->
  let w := run_ops ops start in
  let fresh := length (heap w) in
  let w' := exec (CallTest i nm tmo body) w in
  heap w' !! fresh
  = Some (new_Test nm
            (match tmo with TFunction _ => TUndefined | _ => tmo end)
            (SubtestFinished i)) /\
  length (heap w') = S fresh /\
  calls w' = calls w /\
  match (match tmo with TFunction f => VFun f | _ => body end) with
  | VFun f =>
      returned (test i fresh nm tmo body t) = None /\
      scheduled w' = scheduled w ++ [(fresh, f)]
  | _ =>
      returned (test i fresh nm tmo body t) = Some fresh /\
      scheduled w' = scheduled w
  end.
Proof.
  intros Hi Hf. cbv zeta.
  pose proof (Inv_run_ops ops start Inv_start) as HI.
  set (w := run_ops ops start) in *. set (fresh := length (heap w)).
  cbn [exec]. rewrite Hi. fold fresh.
  pose proof (Inv_pending_nonneg _ _ _ _ HI Hi) as Hnn.
  destruct (test_step i fresh nm tmo body t Hf Hnn) as (_ & _ & _ & Hno & _).
  rewrite (test_created _ _ _ _ _ _ Hf), Hno, notify_none.
  assert (Hrun : to_run (test i fresh nm tmo body t)
                 = match (match tmo with TFunction f => VFun f | _ => body end)
                   with VFun f => Some f | _ => None end /\
                 returned (test i fresh nm tmo body t)
                 = match (match tmo with TFunction f => VFun f | _ => body end)
                   with VFun f => None | _ => Some fresh end).
  { rewrite test_eq by exact Hf. cbv zeta.
    destruct (match tmo with TFunction f => VFun f | _ => body end);
      split; reflexivity. }
  destruct Hrun as [Hrun Hret]. rewrite Hrun, Hret.
  assert (Hlen : length (<[i := receiver (test i fresh nm tmo body t)]> (heap w))
                 = fresh) by apply length_insert.
  assert (Hlook : forall x : Test,
             (<[i := receiver (test i fresh nm tmo body t)]> (heap w) ++ [x])
               !! fresh = Some x).
  { intros x. apply lookup_snoc_Some. right. split; [now rewrite Hlen | auto]. }
  destruct (match tmo with TFunction f => VFun f | _ => body end);
    cbn [heap calls scheduled run alloc store];
    rewrite ?length_app, ?Hlen; cbn [length];
    repeat apply conj; auto; lia.
Qed.

(** X17. On a test that is not finished, expectations add up as long as
    every count and every sum involved is a safe integer: adding [a] and
    then [b] leaves the test as adding [a + b] at once does, and in neither
    case is the test finished by it. *)
Theorem addExpected_adds_up (a b : Z) (t : Test) :
  finished t = false ->
  safe_integer a -> safe_integer b -> safe_integer (a + b) ->
  (forall e,
      expected t = Some e ->
      safe_integer e /\ safe_integer (e + a) /\ safe_integer (e + a + b)) ->
  addExpected b (addExpected a t) = addExpected (a + b) t /\
  finished (addExpected (a + b) t) = false /\
  expected (addExpected (a + b) t)
  = Some (match expected t with None => a + b | Some e => e + (a + b) end).
Proof.
  intros Hf _ _ _ _. unfold addExpected. rewrite Hf. cbn [negb].
  rewrite !ping_eq.
  destruct t as [cb nm cs np nf ex tot pend fin fr err tmo tmr].
  norm. subst fin. unfold armed.
  destruct ex as [e|]; norm; unfold armed; norm;
    (repeat apply conj; [|reflexivity|reflexivity]);
    rewrite ?Z.add_assoc; reflexivity.
Qed.

(** ** The further statements at sample inputs *)

Lemma deferred_run_root :
  heap (run_ops deferred_run start) !! 0%nat = Some root_done.
Proof. reflexivity. Qed.

Lemma deferred_run_sub :
  heap (run_ops deferred_run start) !! 1%nat = Some sub_done.
Proof. reflexivity. Qed.

Lemma deferred_run_calls :
  calls (run_ops deferred_run start)
  = [(1%nat, (VUndefined, true)); (0%nat, (VUndefined, true))].
Proof. reflexivity. Qed.

Lemma counters_balance_witness :
  heap (run_ops deferred_run start) !! 0%nat = Some root_done /\
  total root_done = passed root_done + failed root_done + pending root_done.
Proof.
  split; [reflexivity|].
  exact (proj1 (counters_balance deferred_run 0%nat root_done eq_refl)).
Defined.

Lemma counters_match_contents_witness :
  heap (run_ops deferred_run start) !! 0%nat = Some root_done /\
  errors root_done = count_entries is_error_note (contents root_done) /\
  total root_done = count_entries is_initiated (contents root_done).
Proof.
  split; [reflexivity|].
  destruct (counters_match_contents deferred_run 0%nat root_done eq_refl)
    as (H1 & H2 & _).
  split; [exact H1 | exact H2].
Defined.

Lemma passed_means_clean_witness :
  heap (run_ops deferred_run start) !! 0%nat = Some root_done /\
  isPassed root_done = true /\
  forall nm, Checkpoint nm false ∉ contents root_done.
Proof.
  split; [reflexivity|]. split; [reflexivity|].
  destruct (passed_means_clean deferred_run 0%nat root_done eq_refl eq_refl)
    as (_ & _ & _ & _ & H).
  exact H.
Defined.

Lemma tests_only_grow_witness :
  heap (run_ops deferred_run start) !! 0%nat = Some root_done /\
  exists t',
    heap (run_ops (deferred_run ++ [Comment 0%nat (VStr "late")]) start)
      !! 0%nat = Some t' /\
    contents root_done `prefix_of` contents t' /\
    finishReason t' = finishReason root_done.
Proof.
  split; [reflexivity|].
  destruct (tests_only_grow deferred_run [Comment 0%nat (VStr "late")]
              0%nat root_done eq_refl)
    as (t' & Hi & _ & _ & _ & Hc & _ & _ & _ & _ & Hf).
  exists t'. split; [exact Hi|]. split; [exact Hc|].
  exact (proj1 (proj2 (Hf eq_refl))).
Defined.

Lemma finished_tests_take_no_subtests_witness :
  heap (run_ops deferred_run start) !! 0%nat = Some root_done /\
  finished root_done = true /\
  exists t',
    heap (run_ops (deferred_run
                   ++ [CallTest 0%nat "late" TUndefined VUndefined]) start)
      !! 0%nat = Some t' /\
    subtest_refs (contents t') = subtest_refs (contents root_done) /\
    pending t' = 0.
Proof.
  split; [reflexivity|]. split; [reflexivity|].
  destruct (finished_tests_take_no_subtests deferred_run
              [CallTest 0%nat "late" TUndefined VUndefined] 0%nat root_done
              eq_refl eq_refl)
    as (t' & Hi & _ & H1 & _ & H2).
  exists t'. split; [exact Hi|]. split; [exact H1 | exact (H2 eq_refl)].
Defined.

Lemma deferred_run_root_call :
  (0%nat, (VUndefined, true)) ∈ calls (run_ops deferred_run start).
Proof. apply list_elem_of_In. vm_compute. auto. Defined.

Lemma deferred_run_sub_call :
  (1%nat, (VUndefined, true)) ∈ calls (run_ops deferred_run start).
Proof. apply list_elem_of_In. vm_compute. auto. Defined.

Lemma recorded_calls_faithful_witness :
  (0%nat, (VUndefined, true)) ∈ calls (run_ops deferred_run start) /\
  exists t,
    heap (run_ops deferred_run start) !! 0%nat = Some t /\
    finished t = true /\ pending t = 0 /\ finishReason t = VUndefined.
Proof.
  split; [exact deferred_run_root_call|].
  destruct (recorded_calls_faithful deferred_run 0%nat VUndefined true
              deferred_run_root_call)
    as (t & Hi & _ & Hf & Hp & Hr & _).
  exists t. auto.
Defined.

Lemma subtest_report_counted_witness :
  (1%nat, (VUndefined, true)) ∈ calls (run_ops deferred_run start) /\
  heap (run_ops deferred_run start) !! 1%nat = Some sub_done /\
  _clientFinished sub_done = SubtestFinished 0 /\
  exists tp,
    heap (run_ops deferred_run start) !! 0%nat = Some tp /\ 1 <= passed tp.
Proof.
  split; [exact deferred_run_sub_call|].
  split; [reflexivity|]. split; [reflexivity|].
  exact (subtest_report_counted deferred_run 1%nat 0%nat sub_done VUndefined
           true deferred_run_sub_call eq_refl eq_refl).
Defined.

Lemma passed_test_has_passed_subtests_witness :
  heap (run_ops deferred_run start) !! 0%nat = Some root_done /\
  isPassed root_done = true /\
  heap (run_ops deferred_run start) !! 1%nat = Some sub_done /\
  _clientFinished sub_done = SubtestFinished 0 /\
  (1%nat, (finishReason sub_done, true)) ∈ calls (run_ops deferred_run start) /\
  finished sub_done = true.
Proof.
  split; [reflexivity|]. split; [reflexivity|].
  split; [reflexivity|]. split; [reflexivity|].
  destruct (passed_test_has_passed_subtests deferred_run 0%nat 1%nat
              root_done sub_done eq_refl eq_refl eq_refl eq_refl)
    as (H1 & H2 & _).
  split; [exact H1 | exact H2].
Defined.

Lemma finish_reports_verdict_witness :
  finished fresh_test = false /\ pending fresh_test = 0 /\
  is_function (_clientFinished fresh_test) = true /\
  snd (finish VUndefined fresh_test) = Some (VUndefined, true).
Proof.
  split; [reflexivity|]. split; [reflexivity|]. split; [reflexivity|].
  exact (finish_reports_verdict VUndefined fresh_test
           eq_refl eq_refl eq_refl).
Defined.



Lemma contents_list_the_subtests_witness :
  heap (run_ops deferred_run start) !! 0%nat = Some root_done /\
  NoDup (subtest_refs (contents root_done)).
Proof.
  split; [reflexivity|].
  exact (proj1 (contents_list_the_subtests deferred_run 0%nat root_done
                  eq_refl)).
Defined.

Lemma pending_counts_unresolved_witness :
  heap (run_ops deferred_run start) !! 0%nat = Some root_done /\
  pending root_done
  = count_refs (unresolved (run_ops deferred_run start))
      (subtest_refs (contents root_done)).
Proof.
  split; [reflexivity|].
  exact (pending_counts_unresolved deferred_run 0%nat root_done eq_refl).
Defined.

Lemma test_hands_over_subtest_witness :
  heap (run_ops [New "root" (TNumber 0) done_cb] start) !! 0%nat
    = Some (new_Test "root" (TNumber 0) (Client done_cb)) /\
  finished (new_Test "root" (TNumber 0) (Client done_cb)) = false /\
  heap (exec (CallTest 0%nat "sub" TUndefined VUndefined)
          (run_ops [New "root" (TNumber 0) done_cb] start)) !! 1%nat
    = Some (new_Test "sub" TUndefined (SubtestFinished 0)).
Proof.
  split; [reflexivity|]. split; [reflexivity|].
  exact (proj1 (test_hands_over_subtest [New "root" (TNumber 0) done_cb]
                  0%nat (new_Test "root" (TNumber 0) (Client done_cb))
                  "sub" TUndefined VUndefined eq_refl eq_refl)).
Defined.

Lemma addExpected_adds_up_witness :
  finished fresh_test = false /\
  safe_integer 1 /\ safe_integer 2 /\ safe_integer (1 + 2) /\
  addExpected 2 (addExpected 1 fresh_test) = addExpected (1 + 2) fresh_test.
Proof.
  assert (S1 : safe_integer 1) by (unfold safe_integer, MAX_SAFE_INTEGER; lia).
  assert (S2 : safe_integer 2) by (unfold safe_integer, MAX_SAFE_INTEGER; lia).
  assert (S3 : safe_integer (1 + 2))
    by (unfold safe_integer, MAX_SAFE_INTEGER; lia).
  split; [reflexivity|].
  split; [exact S1|]. split; [exact S2|]. split; [exact S3|].
  refine (proj1 (addExpected_adds_up 1 2 fresh_test eq_refl S1 S2 S3 _)).
  intros e He. discriminate He.
Defined.

Lemma annotations_and_verdict_witness :
  heap (run_ops deferred_run start) !! 0%nat = Some root_done /\
  isPassed (comment (VStr "note") root_done) = isPassed root_done /\
  isPassed (error (VStr "late") root_done) = false.
Proof.
  split; [reflexivity|].
  destruct (annotations_and_verdict deferred_run 0%nat root_done (VStr "note")
              eq_refl) as ((_ & _ & _ & H1) & _).
  destruct (annotations_and_verdict deferred_run 0%nat root_done (VStr "late")
              eq_refl) as (_ & (_ & _ & _ & H2) & _).
  split; [exact H1 | exact H2].
Defined.
